(** * Oqualtix fraud detection analyzer: a shallow embedding

    The development follows [src/fraud_detection_analyzer.py]: the class
    [FraudDetectionAnalyzer], its per-vendor statistics, its four
    detectors and [run_full_analysis].

    Numbers.  A finite float is the rational it denotes ([Q]); overflow is
    not modelled.  The two places where IEEE special values decide the
    control flow are kept: the sample standard deviation of a single
    observation is NaN (an [option Q] with [None] for NaN), and a division
    by a zero total yields an infinity or NaN (the type [fval]).

    What the runtime rounds comes from the runtime.  The amount column
    holds floats.  The reductions over it (sum, mean, standard deviation,
    median, quantile), the arithmetic that builds the stored threshold and
    the concentration share and score, the square root, and the rendering
    of a float inside an f-string are fields of the class [Numerics].  Of
    IEEE arithmetic the class keeps only signs: sums, products and
    quotients of non-negative floats are non-negative, a sum of
    non-negative floats is zero only if each of them is, and a sum of
    zeros is zero.  Every theorem holds for any instance.

    Comparisons, [min], [max] and the remainder of a non-negative float
    are exact in IEEE arithmetic and are computed on the rationals.  The
    monthly transaction counts are integers; their mean and variance, and
    the arithmetic inside the other risk scores, are taken on the
    rationals. *)

From Stdlib Require Import Ascii QArith Qabs Qround Qminmax Lqa Permutation Sorted.
From stdpp Require Import gmap strings list pretty.

(** ** Rational helpers *)

Definition Qltb (x y : Q) : bool := negb (Qle_bool y x).

(** The result of a float division: finite, or what IEEE gives for a zero
    divisor. *)
Inductive fval : Type :=
  | Fin (q : Q)
  | PInf
  | NInf
  | NaN.

(** The Python runtime's float operations used by the analyzer. *)
Class Numerics : Type := {
  fsqrt : Q -> Q;              (* square root: [std] of counts, [stdev] *)
  fmt_money : Q -> string;     (* f"{x:,.2f}" *)
  fmt_1f : Q -> string;        (* f"{x:.1f}" *)
  fmt_pct : fval -> string;    (* f"{x:.1%}" *)
  fadd : Q -> Q -> Q;          (* x + y *)
  fsub : Q -> Q -> Q;          (* x - y *)
  fmul : Q -> Q -> Q;          (* x * y *)
  fquot : Q -> Q -> Q;         (* x / y, for y other than zero *)
  fsum : list Q -> Q;          (* Series.sum() of a float column *)
  fgroup_sum : list Q -> Q;    (* groupby(...).sum(), for one group *)
  fmean : list Q -> Q;         (* Series.mean() of a float column *)
  fstd : list Q -> Q;          (* Series.std(), two observations or more *)
  fmedian : list Q -> Q;       (* Series.median() *)
  fquantile : Q -> list Q -> Q;  (* Series.quantile(q) *)
  fadd_nonneg : forall x y : Q,
    (0 <= x)%Q -> (0 <= y)%Q -> (0 <= fadd x y)%Q;
  fmul_nonneg : forall x y : Q,
    (0 <= x)%Q -> (0 <= y)%Q -> (0 <= fmul x y)%Q;
  fquot_nonneg : forall x y : Q,
    (0 <= x)%Q -> (0 < y)%Q -> (0 <= fquot x y)%Q;
  fsum_nonneg : forall l : list Q,
    (forall x, In x l -> (0 <= x)%Q) -> (0 <= fsum l)%Q;
  fsum_zero : forall l : list Q,
    (forall x, In x l -> (0 <= x)%Q) -> (fsum l == 0)%Q ->
    forall x, In x l -> (x == 0)%Q;
  fgroup_sum_nonneg : forall l : list Q,
    (forall x, In x l -> (0 <= x)%Q) -> (0 <= fgroup_sum l)%Q;
  fgroup_sum_zero : forall l : list Q,
    (forall x, In x l -> (x == 0)%Q) -> (fgroup_sum l == 0)%Q
}.

(** [x / y] on floats (numpy semantics: no exception on a zero divisor). *)
Definition fdiv {rt : Numerics} (x y : Q) : fval :=
  if Qeq_bool y 0 then
    (if Qltb 0 x then PInf else if Qltb x 0 then NInf else NaN)
  else Fin (fquot x y).

(** ** Integer rendering *)

Fixpoint commas_rev (s : string) (k : nat) : string :=
  match s with
  | EmptyString => EmptyString
  | String c s' =>
      match k with
      | O => String ","%char (String c (commas_rev s' 2))
      | S k' => String c (commas_rev s' k')
      end
  end.

(** f"{n:,}" for an integer. *)
Definition fmt_thousands (z : Z) : string :=
  let body := String.rev (commas_rev (String.rev (pretty (Z.abs z))) 3) in
  if (z <? 0)%Z then "-" +:+ body else body.

Definition pad2 (z : Z) : string :=
  if (z <? 10)%Z then "0" +:+ pretty z else pretty z.

Definition pad4 (z : Z) : string :=
  if (z <? 10)%Z then "000" +:+ pretty z
  else if (z <? 100)%Z then "00" +:+ pretty z
  else if (z <? 1000)%Z then "0" +:+ pretty z
  else pretty z.

(** ** Data model *)

(** A [pandas.Timestamp] at calendar-day resolution. *)
Record Timestamp : Type := {
  ts_year : Z;
  ts_month : Z;
  ts_day : Z
}.

(** A [pandas.Period] of frequency ['M']. *)
Record Period : Type := {
  p_year : Z;
  p_month : Z
}.

Global Instance Timestamp_eq_dec : EqDecision Timestamp.
Proof. solve_decision. Defined.

Global Instance Period_eq_dec : EqDecision Period.
Proof. solve_decision. Defined.

(** [.dt.to_period('M')] *)
Definition to_period (t : Timestamp) : Period :=
  {| p_year := ts_year t; p_month := ts_month t |}.

(** [str(period)], for example ["2024-03"]. *)
Definition period_str (p : Period) : string :=
  pad4 (p_year p) +:+ "-" +:+ pad2 (p_month p).

Definition period_ltb (p1 p2 : Period) : bool :=
  (p_year p1 <? p_year p2)%Z
  || ((p_year p1 =? p_year p2)%Z && (p_month p1 <? p_month p2)%Z).

(** One row of [self.df].  [r_transaction_id] is [None] when the frame has
    no ['transaction_id'] column, which is what [row.get] tests. *)
Record Row : Type := {
  r_transaction_id : option string;
  r_date : Timestamp;
  r_amount : Q;
  r_vendor : string;
  r_description : string;
  r_payment_method : string
}.

(** [self.df]: the rows, and the ['year_month'] column once it has been
    assigned ([None]: the frame has no such column). *)
Record DataFrame : Type := {
  rows : list Row;
  year_month : option (list Period)
}.

Inductive AnomalyType : Type :=
  | StatisticalOutlier
  | RoundDollarPattern
  | ThresholdEvasion
  | FrequencySpike
  | VendorConcentration.

Definition anomaly_type_name (t : AnomalyType) : string :=
  match t with
  | StatisticalOutlier => "Statistical Outlier"
  | RoundDollarPattern => "Round Dollar Pattern"
  | ThresholdEvasion => "Threshold Evasion"
  | FrequencySpike => "Frequency Spike"
  | VendorConcentration => "Vendor Concentration"
  end.

(** The ['date'] entry of an anomaly: a row's timestamp or a string. *)
Inductive DateField : Type :=
  | DateTs (t : Timestamp)
  | DateStr (s : string).

(** The three extra keys of a statistical-outlier dict. *)
Record OutlierEvidence : Type := {
  vendor_mean : Q;
  vendor_std : option Q;
  sigma_multiplier : Q
}.

(** The dict a detector appends. *)
Record Anomaly : Type := {
  transaction_id : string;
  date : DateField;
  vendor : string;
  amount : Q;
  description : string;
  anomaly_type : AnomalyType;
  risk_score : Q;
  reason : string;
  evidence : option OutlierEvidence
}.

(** One value of [vendor_stats].  [None] in [st_std] and
    [st_threshold_3sigma] is NaN. *)
Record Stats : Type := {
  st_count : nat;
  st_mean : Q;
  st_std : option Q;
  st_median : Q;
  st_min : Q;
  st_max : Q;
  st_q25 : Q;
  st_q75 : Q;
  st_iqr : Q;
  st_threshold_3sigma : option Q
}.

(** The attributes of a [FraudDetectionAnalyzer]. *)
Record Analyzer : Type := {
  sigma_threshold : Q;
  min_transactions : Z;
  vendor_stats : gmap string Stats;
  anomalies : list Anomaly;
  df : DataFrame
}.

(** [FraudDetectionAnalyzer(sigma_threshold, min_transactions)] followed by
    [load_data] of already parsed and date-sorted rows. *)
Definition new_analyzer (sigma : Q) (min_txn : Z) (batch : list Row) : Analyzer :=
  {| sigma_threshold := sigma;
     min_transactions := min_txn;
     vendor_stats := ∅;
     anomalies := [];
     df := {| rows := batch; year_month := None |} |}.

(** ** Library operations: sorting, grouping, pandas reductions *)

Section Sort.
Context {A : Type} (leb : A -> A -> bool).

(** [x] is placed before the first element it may precede. *)
Fixpoint insert_sorted (x : A) (l : list A) : list A :=
  match l with
  | [] => [x]
  | y :: l' => if leb x y then x :: l else y :: insert_sorted x l'
  end.

(** A stable sort: of two elements that may precede each other, the one
    that came first stays first. *)
Definition stable_sort (l : list A) : list A := foldr insert_sorted [] l.
End Sort.

(** [l.sort(key=key, reverse=True)]: descending, stable. *)
Definition py_sort_desc {A : Type} (key : A -> Q) (l : list A) : list A :=
  stable_sort (fun x y => Qle_bool (key y) (key x)) l.

(** [Series.unique()]: first occurrences, in order of appearance. *)
Fixpoint unique (l : list string) : list string :=
  match l with
  | [] => []
  | x :: l' => x :: filter (fun y => y ≠ x) (unique l')
  end.

Section GroupBy.
Context {K V X : Type} `{EqDecision K} (ltb : K -> K -> bool)
        (init : X -> V) (step : V -> X -> V).

(** Adds observation [x] to the group of key [k], keeping the groups in
    ascending key order. *)
Fixpoint group_add (k : K) (x : X) (l : list (K * V)) : list (K * V) :=
  match l with
  | [] => [(k, init x)]
  | (k', v) :: l' =>
      if decide (k = k') then (k', step v x) :: l'
      else if ltb k k' then (k, init x) :: l
      else (k', v) :: group_add k x l'
  end.

(** [groupby(keys).agg()]: one entry per observed key, sorted by key. *)
Definition groupby (obs : list (K * X)) : list (K * V) :=
  foldl (fun acc kx => group_add kx.1 kx.2 acc) [] obs.

(** The value stored under a key. *)
Fixpoint assoc (k : K) (l : list (K * V)) : option V :=
  match l with
  | [] => None
  | (k', v) :: l' => if decide (k = k') then Some v else assoc k l'
  end.

(** What a group accumulates from its observations, in order. *)
Definition agg_of (xs : list X) : option V :=
  match xs with
  | [] => None
  | x :: xs' => Some (foldl step (init x) xs')
  end.

Definition obs_of (k : K) (obs : list (K * X)) : list X :=
  map snd (filter (fun kx => kx.1 = k) obs).

Definition keys_sorted (l : list (K * V)) : Prop :=
  StronglySorted (fun a b => ltb a b = true) (map fst l).
End GroupBy.

(** Sum, mean and sample variance on the rationals: what the runtime's
    reductions round.  The monthly transaction counts of the frequency
    detector go through them, and the amounts of the demo, whose
    [statistics.mean] works on exact fractions. *)
Definition series_sum (l : list Q) : Q := foldr Qplus 0%Q l.

Definition Qlen (l : list Q) : Q := inject_Z (Z.of_nat (length l)).

Definition series_mean (l : list Q) : Q := (series_sum l / Qlen l)%Q.

(** Sample variance (denominator [n - 1]). *)
Definition series_var (l : list Q) : Q :=
  let m := series_mean l in
  (series_sum (map (fun x => (x - m) * (x - m)) l) / (Qlen l - 1))%Q.

(** [Series.std()] of a column of counts: NaN below two observations. *)
Definition series_std {rt : Numerics} (l : list Q) : option Q :=
  if (length l <? 2)%nat then None else Some (fsqrt (series_var l)).

(** [Series.std()] of a float column: NaN below two observations. *)
Definition float_std {rt : Numerics} (l : list Q) : option Q :=
  if (length l <? 2)%nat then None else Some (fstd l).

Definition series_min (l : list Q) : Q := foldr Qmin (hd 0%Q l) l.
Definition series_max (l : list Q) : Q := foldr Qmax (hd 0%Q l) l.

(** [Series.quantile(q)] with linear interpolation. *)
Definition series_quantile (q : Q) (l : list Q) : Q :=
  let sorted := stable_sort Qle_bool l in
  let pos := (q * (Qlen l - 1))%Q in
  let lo := Qfloor pos in
  let frac := (pos - inject_Z lo)%Q in
  let base := nth (Z.to_nat lo) sorted 0%Q in
  let next := nth (S (Z.to_nat lo)) sorted base in
  (base + (next - base) * frac)%Q.

Definition series_median (l : list Q) : Q := series_quantile (1 # 2) l.

(** [for _, row in self.df.iterrows()]: the index label with each row. *)
Definition iterrows (l : list Row) : list (nat * Row) :=
  imap (fun i r => (i, r)) l.

(** [self.df['date'].dt.to_period('M')] *)
Definition period_column (l : list Row) : list Period :=
  map (fun r => to_period (r_date r)) l.

(** [row.get('transaction_id', f"txn_{row.name}")] *)
Definition row_id (i : nat) (r : Row) : string :=
  default ("txn_" +:+ pretty i) (r_transaction_id r).

(** ** The analyzer's methods

    A method is a computation over the analyzer object: it reads and
    assigns attributes of [self].  Console output is not modelled. *)

Definition M (A : Type) : Type := Analyzer -> A * Analyzer.

Global Instance M_ret : MRet M := fun A a self => (a, self).
Global Instance M_bind : MBind M :=
  fun A B f m self => let '(a, self') := m self in f a self'.

Definition get_self : M Analyzer := fun self => (self, self).

(** [self.vendor_stats = vs] *)
Definition set_vendor_stats (vs : gmap string Stats) : M unit :=
  fun self =>
    (tt, {| sigma_threshold := sigma_threshold self;
            min_transactions := min_transactions self;
            vendor_stats := vs;
            anomalies := anomalies self;
            df := df self |}).

(** [self.anomalies = l] *)
Definition set_anomalies (l : list Anomaly) : M unit :=
  fun self =>
    (tt, {| sigma_threshold := sigma_threshold self;
            min_transactions := min_transactions self;
            vendor_stats := vendor_stats self;
            anomalies := l;
            df := df self |}).

(** [self.df['year_month'] = col] *)
Definition set_year_month (col : list Period) : M unit :=
  fun self =>
    (tt, {| sigma_threshold := sigma_threshold self;
            min_transactions := min_transactions self;
            vendor_stats := vendor_stats self;
            anomalies := anomalies self;
            df := {| rows := rows (df self); year_month := Some col |} |}).

Definition Qnat (n : nat) : Q := inject_Z (Z.of_nat n).

Section Engine.
Context {rt : Numerics}.

(** *** compute_vendor_statistics *)

(** [self.df[self.df['vendor'] == vendor]['amount']] *)
Definition vendor_amounts (v : string) (l : list Row) : list Q :=
  map r_amount (filter (fun r => r_vendor r = v) l).

Definition stats_of (sigma : Q) (vendor_data : list Q) : Stats :=
  {| st_count := length vendor_data;
     st_mean := fmean vendor_data;
     st_std := float_std vendor_data;
     st_median := fmedian vendor_data;
     st_min := series_min vendor_data;
     st_max := series_max vendor_data;
     st_q25 := fquantile (1 # 4) vendor_data;
     st_q75 := fquantile (3 # 4) vendor_data;
     st_iqr := fsub (fquantile (3 # 4) vendor_data)
                 (fquantile (1 # 4) vendor_data);
     st_threshold_3sigma :=
       (fun s => fadd (fmean vendor_data) (fmul sigma s))
         <$> float_std vendor_data |}.

Definition compute_stats (sigma : Q) (min_txn : Z) (l : list Row)
  : gmap string Stats :=
  foldl (fun acc v =>
           let vendor_data := vendor_amounts v l in
           if (min_txn <=? Z.of_nat (length vendor_data))%Z
           then <[v := stats_of sigma vendor_data]> acc
           else acc)
        ∅ (unique (map r_vendor l)).

Definition compute_vendor_statistics : M (gmap string Stats) :=
  self ← get_self;
  let vs := compute_stats (sigma_threshold self) (min_transactions self)
              (rows (df self)) in
  _ ← set_vendor_stats vs;
  mret vs.

(** *** detect_statistical_outliers *)

(** [(amount - mean) / std if std > 0 else 0] *)
Definition observed_sigma (st : Stats) (a : Q) : Q :=
  match st_std st with
  | Some s => if Qltb 0 s then ((a - st_mean st) / s)%Q else 0%Q
  | None => 0%Q
  end.

Definition outlier_of (st : Stats) (threshold : Q) (i : nat) (r : Row)
  : Anomaly :=
  let sm := observed_sigma st (r_amount r) in
  {| transaction_id := row_id i r;
     date := DateTs (r_date r);
     vendor := r_vendor r;
     amount := r_amount r;
     description := r_description r;
     anomaly_type := StatisticalOutlier;
     risk_score := Qmin 100 (Qmax 0 ((sm - 3) * 20 + 70));
     reason := "Amount $" +:+ fmt_money (r_amount r)
               +:+ " exceeds vendor threshold $" +:+ fmt_money threshold
               +:+ " (" +:+ fmt_1f sm +:+ "œÉ above mean)";
     evidence := Some {| vendor_mean := st_mean st;
                         vendor_std := st_std st;
                         sigma_multiplier := sm |} |}.

(** The body of the loop over rows. *)
Definition outliers_of_row (stats : gmap string Stats) (i : nat) (r : Row)
  : list Anomaly :=
  match stats !! r_vendor r with
  | Some st =>
      match st_threshold_3sigma st with
      | Some threshold =>
          if Qltb threshold (r_amount r)
          then [outlier_of st threshold i r] else []
      | None => []
      end
  | None => []
  end.

Definition statistical_outliers (stats : gmap string Stats) (l : list Row)
  : list Anomaly :=
  flat_map (fun ir => outliers_of_row stats ir.1 ir.2) (iterrows l).

Definition detect_statistical_outliers : M (list Anomaly) :=
  self ← get_self;
  mret (statistical_outliers (vendor_stats self) (rows (df self))).

(** *** detect_round_dollar_patterns *)

Definition thresholds : list Z := [1000; 2500; 5000; 10000; 25000; 50000]%Z.

(** [a % m] for a positive [m]. *)
Definition py_mod (a m : Q) : Q := (a - m * inject_Z (Qfloor (a / m)))%Q.

Definition round_dollar_of (i : nat) (r : Row) : Anomaly :=
  {| transaction_id := row_id i r;
     date := DateTs (r_date r);
     vendor := r_vendor r;
     amount := r_amount r;
     description := r_description r;
     anomaly_type := RoundDollarPattern;
     risk_score := Qmin 85 (40 + r_amount r / 10000);
     reason := "Suspicious round dollar amount: $" +:+ fmt_money (r_amount r);
     evidence := None |}.

Definition evasion_of (i : nat) (r : Row) (threshold : Z) : Anomaly :=
  {| transaction_id := row_id i r;
     date := DateTs (r_date r);
     vendor := r_vendor r;
     amount := r_amount r;
     description := r_description r;
     anomaly_type := ThresholdEvasion;
     risk_score := 80;
     reason := "Amount $" +:+ fmt_money (r_amount r) +:+ " just under $"
               +:+ fmt_thousands threshold
               +:+ " threshold (possible approval evasion)";
     evidence := None |}.

(** [threshold - 100 <= amount < threshold] *)
Definition in_window (a : Q) (threshold : Z) : bool :=
  Qle_bool (inject_Z threshold - 100) a && Qltb a (inject_Z threshold).

(** [for threshold in thresholds: if ...: append; break] *)
Fixpoint evasion_loop (i : nat) (r : Row) (ts : list Z) : list Anomaly :=
  match ts with
  | [] => []
  | threshold :: ts' =>
      if in_window (r_amount r) threshold
      then [evasion_of i r threshold]
      else evasion_loop i r ts'
  end.

Definition is_round_dollar (a : Q) : bool :=
  Qeq_bool (py_mod a 100) 0 && Qle_bool 1000 a.

Definition patterns_of_row (i : nat) (r : Row) : list Anomaly :=
  (if is_round_dollar (r_amount r) then [round_dollar_of i r] else [])
  ++ evasion_loop i r thresholds.

Definition round_dollar_patterns (l : list Row) : list Anomaly :=
  flat_map (fun ir => patterns_of_row ir.1 ir.2) (iterrows l).

Definition detect_round_dollar_patterns : M (list Anomaly) :=
  self ← get_self;
  mret (round_dollar_patterns (rows (df self))).

(** *** detect_frequency_anomalies *)

Definition key_ltb (k1 k2 : string * Period) : bool :=
  String.ltb k1.1 k2.1 || (String.eqb k1.1 k2.1 && period_ltb k1.2 k2.2).

(** [groupby(['vendor', 'year_month']).size().reset_index(...)]: one entry
    [(vendor, year_month, transaction_count)] per observed pair. *)
Definition monthly_counts (l : list Row) (col : list Period)
  : list (string * Period * nat) :=
  groupby key_ltb (fun _ : unit => 1%nat) (fun c _ => S c)
    (map (fun k => (k, tt)) (zip (map r_vendor l) col)).

Definition spike_of (v : string) (p : Period) (count : nat) (mean_freq : Q)
  : Anomaly :=
  {| transaction_id := "freq_" +:+ v +:+ "_" +:+ period_str p;
     date := DateStr (period_str p);
     vendor := v;
     amount := 0;
     description := "High frequency month: " +:+ pretty count
                    +:+ " transactions";
     anomaly_type := FrequencySpike;
     risk_score := Qmin 90 (50 + (Qnat count - mean_freq) * 5);
     reason := "Unusual payment frequency: " +:+ pretty count
               +:+ " transactions vs. typical " +:+ fmt_1f mean_freq
               +:+ " per month";
     evidence := None |}.

(** [count > mean_freq + (2 * std_freq) and count >= 10] *)
Definition is_spike (mean_freq std_freq : Q) (count : nat) : bool :=
  Qltb (mean_freq + 2 * std_freq) (Qnat count) && (10 <=? count)%nat.

(** The body of the loop over vendors. *)
Definition spikes_of_vendor (mc : list (string * Period * nat)) (v : string)
  : list Anomaly :=
  let vendor_rows := filter (fun e => e.1.1 = v) mc in
  let vendor_monthly := map (fun e => Qnat e.2) vendor_rows in
  if (3 <=? length vendor_monthly)%nat then
    let mean_freq := series_mean vendor_monthly in
    match series_std vendor_monthly with
    | Some std_freq =>
        if Qltb 0 std_freq then
          flat_map (fun e =>
                      if is_spike mean_freq std_freq e.2
                      then [spike_of v e.1.2 e.2 mean_freq] else [])
                   vendor_rows
        else []
    | None => []
    end
  else [].

Definition frequency_spikes (l : list Row) (col : list Period)
  : list Anomaly :=
  let mc := monthly_counts l col in
  flat_map (spikes_of_vendor mc) (unique (map (fun e => e.1.1) mc)).

Definition detect_frequency_anomalies : M (list Anomaly) :=
  self ← get_self;
  let col := period_column (rows (df self)) in
  _ ← set_year_month col;
  self ← get_self;
  mret (frequency_spikes (rows (df self)) col).

(** *** detect_vendor_concentration *)

(** [groupby('vendor')['amount']]: the amounts of each vendor in row
    order, the vendors in key order. *)
Definition vendor_groups (l : list Row) : list (string * list Q) :=
  groupby String.ltb (fun x : Q => [x]) (fun xs x => xs ++ [x])
    (map (fun r => (r_vendor r, r_amount r)) l).

(** [groupby('vendor')['amount'].sum().sort_values(ascending=False)].
    pandas does not fix the order among equal totals (its default sort is
    not stable); here they are left in key order, and no statement depends
    on that order. *)
Definition vendor_totals (l : list Row) : list (string * Q) :=
  py_sort_desc snd (map (fun g => (g.1, fgroup_sum g.2)) (vendor_groups l)).

Definition concentration_of (v : string) (total total_amount : Q)
  (concentration : fval) (score : Q) : Anomaly :=
  {| transaction_id := "conc_" +:+ v;
     date := DateStr "Overall Period";
     vendor := v;
     amount := total;
     description := "High vendor concentration: " +:+ fmt_pct concentration
                    +:+ " of total payments";
     anomaly_type := VendorConcentration;
     risk_score := score;
     reason := "Vendor receives " +:+ fmt_pct concentration
               +:+ " of all payments ($" +:+ fmt_money total +:+ " of $"
               +:+ fmt_money total_amount +:+ ")";
     evidence := None |}.

(** The body of the loop over vendors: [concentration > threshold] is
    false for NaN and for minus infinity, and [min(95, inf)] is 95. *)
Definition concentration_of_vendor (total_amount concentration_threshold : Q)
  (vt : string * Q) : list Anomaly :=
  match fdiv vt.2 total_amount with
  | Fin c =>
      if Qltb concentration_threshold c
      then [concentration_of vt.1 vt.2 total_amount (Fin c)
              (Qmin 95 (fadd 60 (fmul c 100)))]
      else []
  | PInf => [concentration_of vt.1 vt.2 total_amount PInf 95]
  | NInf | NaN => []
  end.

Definition vendor_concentration (concentration_threshold : Q) (l : list Row)
  : list Anomaly :=
  let total_amount := fsum (map r_amount l) in
  flat_map (concentration_of_vendor total_amount concentration_threshold)
    (vendor_totals l).

Definition detect_vendor_concentration (concentration_threshold : Q)
  : M (list Anomaly) :=
  self ← get_self;
  mret (vendor_concentration concentration_threshold (rows (df self))).

(** *** run_full_analysis *)

(** The concentration detector runs with its default threshold, the float
    literal 0.3.  That float lies just below 3/10 with no float between
    the two, so a float share exceeds the one exactly when it exceeds the
    other. *)
Definition run_full_analysis : M (list Anomaly) :=
  _ ← compute_vendor_statistics;
  outliers ← detect_statistical_outliers;
  round_patterns ← detect_round_dollar_patterns;
  freq_anomalies ← detect_frequency_anomalies;
  conc_anomalies ← detect_vendor_concentration (3 # 10);
  let all_anomalies :=
    py_sort_desc risk_score
      (((outliers ++ round_patterns) ++ freq_anomalies) ++ conc_anomalies) in
  _ ← set_anomalies all_anomalies;
  mret all_anomalies.
End Engine.

(** ** A concrete runtime for the examples

    Exact arithmetic: no operation rounds.  The square root is exact on
    squares of rationals, which is all the examples use; floats are
    rendered in decimal, rounded half to even. *)

Definition exact_sqrt (q : Q) : Q :=
  let r := Qred q in
  Z.sqrt (Qnum r) # Pos.sqrt (Qden r).

(** [round(q * 10^k)] as an integer, ties to even. *)
Definition round_scaled (k : nat) (q : Q) : Z :=
  let x := (q * inject_Z (10 ^ Z.of_nat k))%Q in
  let lo := Qfloor x in
  let frac := (x - inject_Z lo)%Q in
  if Qltb frac (1 # 2) then lo
  else if Qltb (1 # 2) frac then (lo + 1)%Z
  else if Z.even lo then lo else (lo + 1)%Z.

Fixpoint zero_pad (width : nat) (s : string) : string :=
  match (width - String.length s)%nat with
  | O => s
  | S _ => match width with O => s | S w => "0" +:+ zero_pad w s end
  end.

Definition fmt_fixed (commas : bool) (k : nat) (q : Q) : string :=
  let n := round_scaled k (Qabs q) in
  let scale := (10 ^ Z.of_nat k)%Z in
  let ip := (n / scale)%Z in
  let fp := (n mod scale)%Z in
  let body :=
    (if commas then fmt_thousands ip else pretty ip)
    +:+ (match k with O => "" | _ => "." +:+ zero_pad k (pretty fp) end) in
  if Qltb q 0 then "-" +:+ body else body.

Definition fmt_percent (c : fval) : string :=
  match c with
  | Fin q => fmt_fixed false 1 (q * 100) +:+ "%"
  | PInf => "inf%"
  | NInf => "-inf%"
  | NaN => "nan%"
  end.

Definition exact_numerics : Numerics.
Proof.
  refine {| fsqrt := exact_sqrt;
            fmt_money := fmt_fixed true 2;
            fmt_1f := fmt_fixed false 1;
            fmt_pct := fmt_percent;
            fadd := Qplus;
            fsub := Qminus;
            fmul := Qmult;
            fquot := Qdiv;
            fsum := series_sum;
            fgroup_sum := series_sum;
            fmean := series_mean;
            fstd := fun l => exact_sqrt (series_var l);
            fmedian := series_median;
            fquantile := series_quantile |}.
  - abstract (intros x y Hx Hy; lra).
  - abstract (intros x y Hx Hy; by apply Qmult_le_0_compat).
  - abstract (intros x y Hx Hy; apply Qle_shift_div_l; [done|lra]).
  - abstract (induction l as [|y l IH]; intros Hl; simpl; [done|];
              pose proof (Hl y (or_introl eq_refl));
              pose proof (IH (fun x Hx => Hl x (or_intror Hx))); lra).
  - abstract (intros l Hl;
              assert (0 <= series_sum l
                      /\ (series_sum l == 0 -> forall x, In x l -> x == 0))%Q
                as [_ Hzero]; [|exact Hzero];
              induction l as [|y l IH]; simpl;
                [split; [done|by intros _ x []]|];
              pose proof (Hl y (or_introl eq_refl));
              destruct (IH (fun x Hx => Hl x (or_intror Hx))) as [Hs Hz];
              split; [lra|]; intros Hsum x [<-|Hx]; [lra|];
              apply Hz; [lra|done]).
  - abstract (induction l as [|y l IH]; intros Hl; simpl; [done|];
              pose proof (Hl y (or_introl eq_refl));
              pose proof (IH (fun x Hx => Hl x (or_intror Hx))); lra).
  - abstract (induction l as [|y l IH]; intros Hl; simpl; [done|];
              pose proof (Hl y (or_introl eq_refl));
              pose proof (IH (fun x Hx => Hl x (or_intror Hx))); lra).
Defined.

(** ** Vocabulary of the statements *)

(** The risk score as the specification words it: the configured multiplier
    is subtracted from the observed one. *)
Definition spec_risk_score (configured observed : Q) : Q :=
  Qmin 100 (Qmax 0 ((observed - configured) * 20 + 70)).

Definition is_evasion (a : Anomaly) : bool :=
  match anomaly_type a with
  | ThresholdEvasion => true
  | _ => false
  end.

(** The threshold a payment evades, as the specification words it: the
    first threshold of the ascending list with [t - 100 <= amount < t]. *)
Definition evaded_threshold (a : Q) : option Z :=
  List.find (fun t => Qle_bool (inject_Z t - 100) a && Qltb a (inject_Z t))
    [1000; 2500; 5000; 10000; 25000; 50000]%Z.

(** The rows of vendor [v] dated in month [p]. *)
Definition month_rows (l : list Row) (v : string) (p : Period) : list Row :=
  filter (fun r => r_vendor r = v /\ to_period (r_date r) = p) l.

(** A method leaves the loaded batch as it found it. *)
Definition leaves_batch_unchanged {A : Type} (method : M A) (self : Analyzer)
  : Prop :=
  df (method self).2 = df self.

(** [lo <= risk_score <= hi] *)
Definition score_within (lo hi : Q) (a : Anomaly) : Prop :=
  (lo <= risk_score a)%Q /\ (risk_score a <= hi)%Q.

(** ** Sample batches *)

Definition day (y m d : Z) : Timestamp :=
  {| ts_year := y; ts_month := m; ts_day := d |}.

Definition txn (v : string) (a : Q) (d : Timestamp) : Row :=
  {| r_transaction_id := None;
     r_date := d;
     r_amount := a;
     r_vendor := v;
     r_description := "Services";
     r_payment_method := "ACH" |}.

(** Eight payments of 100 and one of 1000 to one vendor: mean 200, sample
    standard deviation 300. *)
Definition outlier_batch : list Row :=
  [ txn "Acme" 100 (day 2024 1 5); txn "Acme" 100 (day 2024 1 12);
    txn "Acme" 100 (day 2024 1 19); txn "Acme" 100 (day 2024 1 26);
    txn "Acme" 100 (day 2024 2 2); txn "Acme" 100 (day 2024 2 9);
    txn "Acme" 100 (day 2024 2 16); txn "Acme" 100 (day 2024 2 23);
    txn "Acme" 1000 (day 2024 3 1) ].

(** One payment a month from January to August, then ten in September:
    monthly counts of mean 2 and sample standard deviation 3. *)
Definition spike_batch : list Row :=
  map (fun m => txn "Acme" 100 (day 2024 m 1)) [1; 2; 3; 4; 5; 6; 7; 8]%Z
  ++ map (fun d => txn "Acme" 100 (day 2024 9 d))
       [1; 2; 3; 4; 5; 6; 7; 8; 9; 10]%Z.

(** Two vendors: 35 000 of a total of 100 000 goes to the first. *)
Definition concentration_batch : list Row :=
  [ txn "Acme" 35000 (day 2024 1 5); txn "Bolt" 40000 (day 2024 1 6);
    txn "Bolt" 25000 (day 2024 1 7) ].

(** ** load_data

    The frame handed to [load_data] is described by its column labels and
    its records; a record carries the cells of the columns the analyzer
    reads, the date still as text.  Other columns of the input are not
    represented, and the input is taken to have no ['year_month'] column.
    Reading a file and parsing a date belong to pandas: [read_csv] and
    [to_datetime] are parameters, [None] standing for a raised exception. *)

Record RawRow : Type := {
  raw_transaction_id : option string;
  raw_date : string;
  raw_amount : Q;
  raw_vendor : string;
  raw_description : string;
  raw_payment_method : string
}.

Record RawFrame : Type := {
  raw_columns : list string;
  raw_records : list RawRow
}.

Inductive LoadError : Type :=
  | NoSource                               (* ValueError: no csv_file, no data *)
  | MissingColumns (missing_cols : list string)   (* ValueError *)
  | ReadFailed                             (* raised by pd.read_csv *)
  | DateFailed.                            (* raised by pd.to_datetime *)

Definition required_cols : list string :=
  ["date"; "amount"; "vendor"; "description"; "payment_method"].

(** Timestamps in chronological order. *)
Definition ts_leb (t1 t2 : Timestamp) : bool :=
  (ts_year t1 <? ts_year t2)%Z
  || ((ts_year t1 =? ts_year t2)%Z
      && ((ts_month t1 <? ts_month t2)%Z
          || ((ts_month t1 =? ts_month t2)%Z && (ts_day t1 <=? ts_day t2)%Z))).

Definition parse_row (to_datetime : string -> option Timestamp) (r : RawRow)
  : option Row :=
  d ← to_datetime (raw_date r);
  Some {| r_transaction_id := raw_transaction_id r;
          r_date := d;
          r_amount := raw_amount r;
          r_vendor := raw_vendor r;
          r_description := raw_description r;
          r_payment_method := raw_payment_method r |}.

Section Loading.
Variable read_csv : string -> option RawFrame.
Variable to_datetime : string -> option Timestamp.

(** [if data is not None: ... elif csv_file: ... else: raise ValueError];
    an empty file name is falsy. *)
Definition load_source (csv_file : option string) (data : option RawFrame)
  : LoadError + RawFrame :=
  match data with
  | Some d => inr d
  | None =>
      match csv_file with
      | Some f =>
          if decide (f = "") then inl NoSource
          else match read_csv f with
               | Some d => inr d
               | None => inl ReadFailed
               end
      | None => inl NoSource
      end
  end.

(** [[col for col in required_cols if col not in self.df.columns]] *)
Definition missing_columns (frame : RawFrame) : list string :=
  filter (fun col => col ∉ raw_columns frame) required_cols.

(** [self.df.sort_values('date').reset_index(drop=True)].  pandas does not
    fix the order among rows of one date (its default sort is not stable);
    here they are left in their input order, and no statement depends on
    that order. *)
Definition sort_by_date (l : list Row) : list Row :=
  stable_sort (fun r1 r2 => ts_leb (r_date r1) (r_date r2)) l.

(** [load_data(csv_file, data)]: the error raised, or the frame returned
    and the analyzer holding it.  What an exception leaves behind in
    [self.df] is not modelled. *)
Definition load_data (csv_file : option string) (data : option RawFrame)
    (self : Analyzer) : LoadError + (list Row * Analyzer) :=
  match load_source csv_file data with
  | inl e => inl e
  | inr frame =>
      match missing_columns frame with
      | (_ :: _) as missing_cols => inl (MissingColumns missing_cols)
      | [] =>
          match mapM (parse_row to_datetime) (raw_records frame) with
          | None => inl DateFailed
          | Some parsed =>
              let sorted := sort_by_date parsed in
              inr (sorted,
                   {| sigma_threshold := sigma_threshold self;
                      min_transactions := min_transactions self;
                      vendor_stats := vendor_stats self;
                      anomalies := anomalies self;
                      df := {| rows := sorted; year_month := None |} |})
          end
      end
  end.
End Loading.

(** ** print_summary

    The method only prints; it is modelled by the list of the strings
    handed to [print], one per call. *)

Global Instance AnomalyType_eq_dec : EqDecision AnomalyType.
Proof. solve_decision. Defined.

(** The float and timestamp renderings [print_summary] needs beyond those
    of [Numerics]. *)
Class Console : Type := {
  fmt_0f : Q -> string;                 (* f"{x:.0f}" *)
  str_timestamp : Timestamp -> string   (* str(timestamp) *)
}.

Definition nl : string := String (ascii_of_nat 10) EmptyString.

Fixpoint repeat_string (s : string) (n : nat) : string :=
  match n with
  | O => EmptyString
  | S n' => s +:+ repeat_string s n'
  end.

(** [type_counts[atype] = type_counts.get(atype, 0) + 1] on a dict, which
    keeps its keys in order of insertion. *)
Fixpoint bump_count (atype : AnomalyType) (l : list (AnomalyType * nat))
  : list (AnomalyType * nat) :=
  match l with
  | [] => [(atype, 1%nat)]
  | (t, c) :: l' =>
      if decide (atype = t) then (t, S c) :: l'
      else (t, c) :: bump_count atype l'
  end.

Definition type_counts (l : list Anomaly) : list (AnomalyType * nat) :=
  foldl (fun acc a => bump_count (anomaly_type a) acc) [] l.

(** [[a for a in self.anomalies if a['risk_score'] >= 80]] *)
Definition high_risk (l : list Anomaly) : list Anomaly :=
  List.filter (fun a => Qle_bool 80 (risk_score a)) l.

Definition str_date {co : Console} (d : DateField) : string :=
  match d with
  | DateTs t => str_timestamp t
  | DateStr s => s
  end.

Section Summary.
Context {rt : Numerics} {co : Console}.

(** The seven [print] calls for entry [i] of the top ten. *)
Definition print_entry (i : nat) (anomaly : Anomaly) : list string :=
  [ nl +:+ "[" +:+ pretty (i + 1)%nat +:+ "] RISK SCORE: "
       +:+ fmt_0f (risk_score anomaly) +:+ "/100";
    "    üìÖ Date: " +:+ str_date (date anomaly);
    "    üè¢ Vendor: " +:+ vendor anomaly;
    "    üí∞ Amount: $" +:+ fmt_money (amount anomaly);
    "    üìù Description: " +:+ description anomaly;
    "    üö© Type: " +:+ anomaly_type_name (anomaly_type anomaly);
    "    ‚ö†Ô∏è  Reason: " +:+ reason anomaly ].

Definition print_summary (self : Analyzer) : list string :=
  match anomalies self with
  | [] => ["No anomalies detected."]
  | _ :: _ =>
      [ nl +:+ "üö® FRAUD DETECTION SUMMARY";
        "üìã Total anomalies detected: "
          +:+ pretty (length (anomalies self));
        nl +:+ "üìä Anomalies by type:" ]
      ++ map (fun tc => "   ‚Ä¢ " +:+ anomaly_type_name tc.1 +:+ ": "
                          +:+ pretty tc.2)
           (type_counts (anomalies self))
      ++ [ nl +:+ "üî• High-risk anomalies (score ‚â• 80): "
             +:+ pretty (length (high_risk (anomalies self)));
           nl +:+ repeat_string "=" 80;
           "TOP 10 HIGHEST RISK ANOMALIES";
           repeat_string "=" 80 ]
      ++ concat (imap print_entry (take 10 (anomalies self)))
  end.
End Summary.

(** ** simple_fraud_demo.py

    [simple_fraud_detection_demo] builds its list of anomalies from a
    table of vendors and amounts, sorts it and returns it.  The table is a
    local of the function; [demo_anomalies] is the function's body over any
    table, in the table's order.  Console output is not modelled. *)

Inductive DemoType : Type :=
  | DemoOutlier          (* 'Statistical Outlier' *)
  | DemoRoundDollar      (* 'Round Dollar Pattern' *)
  | DemoEvasion.         (* 'Threshold Evasion' *)

Record DemoAnomaly : Type := {
  d_vendor : string;
  d_amount : Q;
  d_type : DemoType;
  d_risk_score : Q;
  d_reason : string
}.

Definition demo_thresholds : list Z := [5000; 10000; 25000; 50000]%Z.

Section Demo.
Context {rt : Numerics}.

(** [statistics.stdev(amounts) if len(amounts) > 1 else 0] *)
Definition demo_std (amounts : list Q) : Q :=
  if (1 <? length amounts)%nat then fsqrt (series_var amounts) else 0%Q.

Definition demo_outlier (v : string) (mean_amt std_amt threshold_3sigma : Q)
    (a : Q) : DemoAnomaly :=
  let sigma_multiplier :=
    if Qltb 0 std_amt then ((a - mean_amt) / std_amt)%Q else 0%Q in
  {| d_vendor := v;
     d_amount := a;
     d_type := DemoOutlier;
     d_risk_score := Qmin 100 (Qmax 70 (70 + (sigma_multiplier - 3) * 10));
     d_reason := "$" +:+ fmt_money a +:+ " exceeds $"
                 +:+ fmt_money threshold_3sigma +:+ " threshold ("
                 +:+ fmt_1f sigma_multiplier +:+ "σ above mean)" |}.

Definition demo_round (v : string) (a : Q) : DemoAnomaly :=
  {| d_vendor := v;
     d_amount := a;
     d_type := DemoRoundDollar;
     d_risk_score := 75;
     d_reason := "Suspicious round amount: $" +:+ fmt_money a |}.

Definition demo_evasion (v : string) (a : Q) (threshold : Z) : DemoAnomaly :=
  {| d_vendor := v;
     d_amount := a;
     d_type := DemoEvasion;
     d_risk_score := 85;
     d_reason := "$" +:+ fmt_money a +:+ " just under $"
                 +:+ fmt_thousands threshold +:+ " threshold" |}.

(** [for threshold in thresholds: if ...: append; break] *)
Fixpoint demo_evasion_loop (v : string) (a : Q) (ts : list Z)
  : list DemoAnomaly :=
  match ts with
  | [] => []
  | threshold :: ts' =>
      if in_window a threshold then [demo_evasion v a threshold]
      else demo_evasion_loop v a ts'
  end.

(** The body of the loop over [vendors_data.items()]. *)
Definition demo_vendor (entry : string * list Q) : list DemoAnomaly :=
  let vendor := entry.1 in
  let amounts := entry.2 in
  if (3 <=? length amounts)%nat then
    let mean_amt := series_mean amounts in
    let std_amt := demo_std amounts in
    let threshold_3sigma := (mean_amt + 3 * std_amt)%Q in
    flat_map (fun a => if Qltb threshold_3sigma a
                       then [demo_outlier vendor mean_amt std_amt
                               threshold_3sigma a]
                       else []) amounts
    ++ map (demo_round vendor)
         (List.filter (fun a => Qeq_bool (py_mod a 1000) 0 && Qle_bool 1000 a)
            amounts)
    ++ flat_map (fun a => demo_evasion_loop vendor a demo_thresholds) amounts
  else [].

Definition demo_anomalies (vendors_data : list (string * list Q))
  : list DemoAnomaly :=
  py_sort_desc d_risk_score (flat_map demo_vendor vendors_data).

(** [[a for a in all_anomalies if a['risk_score'] >= 80]] *)
Definition demo_high_risk (l : list DemoAnomaly) : list DemoAnomaly :=
  List.filter (fun a => Qle_bool 80 (d_risk_score a)) l.

(** [[a for a in all_anomalies if 60 <= a['risk_score'] < 80]] *)
Definition demo_medium_risk (l : list DemoAnomaly) : list DemoAnomaly :=
  List.filter (fun a => Qle_bool 60 (d_risk_score a)
                        && Qltb (d_risk_score a) 80) l.
End Demo.

(** The table of the source. *)
Definition vendors_data : list (string * list Q) :=
  [ ("Office Supplies Inc",
     [34567 # 100; 28945 # 100; 51233 # 100; 29876 # 100; 44521 # 100;
      36789 # 100; 40156 # 100; 35678 # 100]);
    ("Tech Solutions LLC",
     [189050 # 100; 214575 # 100; 175632 # 100; 208945 # 100; 194567 # 100;
      219833 # 100; 187654 # 100]);
    ("Legal Associates",
     [3200; 285075 # 100; 345625 # 100; 297550 # 100; 312580 # 100;
      308945 # 100]);
    ("Catering Services",
     [56789 # 100; 44532 # 100; 62345 # 100; 49876 # 100; 53421 # 100;
      58967 # 100]);
    ("Suspicious Vendor A",
     [75845 # 100; 69233 # 100; 81567 # 100; 73456 # 100; 15000; 22500;
      18750]);
    ("Shell Company B", [5000; 10000; 15000; 7500; 12500]);
    ("Threshold Evader Corp", [4999; 9999; 4950; 24999; 9899]) ]%Q.

Definition simple_fraud_detection_demo {rt : Numerics} : list DemoAnomaly :=
  demo_anomalies vendors_data.

(** ** More sample batches *)

(** Ten payments in each of January, February and March, fifty in April:
    monthly counts of mean 20 and sample standard deviation 20. *)
Definition quarter_batch : list Row :=
  replicate 10 (txn "Acme" 100 (day 2024 1 15))
  ++ replicate 10 (txn "Acme" 100 (day 2024 2 15))
  ++ replicate 10 (txn "Acme" 100 (day 2024 3 15))
  ++ replicate 50 (txn "Acme" 100 (day 2024 4 15)).

(** A well-formed frame of three records, not in date order, and a frame
    without the columns ['vendor'] and ['date']. *)
Definition raw_txn (v : string) (a : Q) (d : string) : RawRow :=
  {| raw_transaction_id := None;
     raw_date := d;
     raw_amount := a;
     raw_vendor := v;
     raw_description := "Services";
     raw_payment_method := "ACH" |}.

Definition demo_frame : RawFrame :=
  {| raw_columns :=
       ["date"; "amount"; "vendor"; "description"; "payment_method"];
     raw_records :=
       [ raw_txn "Acme" 300 "c"; raw_txn "Bolt" 100 "a";
         raw_txn "Acme" 200 "b" ] |}.

Definition broken_frame : RawFrame :=
  {| raw_columns := ["amount"; "description"; "payment_method"];
     raw_records := [] |}.

(** A date parser for the samples: ["a"], ["b"], ["c"] are the first three
    days of March 2024; nothing else parses. *)
Definition demo_to_datetime (s : string) : option Timestamp :=
  if decide (s = "a") then Some (day 2024 3 1)
  else if decide (s = "b") then Some (day 2024 3 2)
  else if decide (s = "c") then Some (day 2024 3 3)
  else None.

(** A file system without files. *)
Definition no_files (f : string) : option RawFrame := None.

(** The number of records of one type. *)
Definition count_type (t : AnomalyType) (l : list Anomaly) : nat :=
  length (filter (fun a => anomaly_type a = t) l).

(** A console for the examples: floats without decimals, timestamps as
    pandas prints a midnight. *)
Definition exact_console : Console :=
  {| fmt_0f := fmt_fixed false 0;
     str_timestamp := fun t =>
       pad4 (ts_year t) +:+ "-" +:+ pad2 (ts_month t) +:+ "-"
       +:+ pad2 (ts_day t) +:+ " 00:00:00" |}.

(** * Properties *)

(** ** Rational comparisons and the examples of the library operations *)

Lemma Qltb_lt (x y : Q) : Qltb x y = true <-> (x < y)%Q.
Proof.
  unfold Qltb. rewrite negb_true_iff. split.
  - intros H. apply Qnot_le_lt. intros Hle.
    apply Qle_bool_iff in Hle. congruence.
  - intros H. destruct (Qle_bool y x) eqn:E; [|reflexivity].
    apply Qle_bool_iff in E. exfalso. apply (Qlt_not_le _ _ H E).
Qed.

Lemma Qltb_ge (x y : Q) : Qltb x y = false <-> (y <= x)%Q.
Proof.
  unfold Qltb. rewrite negb_false_iff. apply Qle_bool_iff.
Qed.

Example fmt_thousands_25000 : fmt_thousands 25000 = "25,000".
Proof. vm_compute. reflexivity. Qed.

Example series_quantile_ex :
  Qeq_bool (series_quantile (1 # 4) [4; 1; 3; 2]%Q) (7 # 4) = true.
Proof. vm_compute. reflexivity. Qed.

Example unique_ex : unique ["b"; "a"; "b"; "c"; "a"] = ["b"; "a"; "c"].
Proof. vm_compute. reflexivity. Qed.

Example py_sort_desc_ex :
  py_sort_desc (fun p : Q * string => p.1)
    [(1%Q, "a"); (3%Q, "b"); (1%Q, "c"); (3%Q, "d")]
  = [(3%Q, "b"); (3%Q, "d"); (1%Q, "a"); (1%Q, "c")].
Proof. vm_compute. reflexivity. Qed.

Example exact_sqrt_90000 : exact_sqrt 90000 = 300%Q.
Proof. vm_compute. reflexivity. Qed.

Example fmt_money_ex : fmt_fixed true 2 (2499999 # 100) = "24,999.99".
Proof. vm_compute. reflexivity. Qed.

Example fmt_money_small : fmt_fixed true 2 (5 # 100) = "0.05".
Proof. vm_compute. reflexivity. Qed.

Example fmt_percent_ex : fmt_percent (Fin (35 # 100)) = "35.0%".
Proof. vm_compute. reflexivity. Qed.

(** ** The stable sort *)

Section SortFacts.
Context {A : Type} (leb : A -> A -> bool).

Lemma insert_sorted_perm (x : A) (l : list A) :
  Permutation (x :: l) (insert_sorted leb x l).
Proof.
  induction l as [|y l IH]; simpl; [reflexivity|].
  destruct (leb x y); [reflexivity|].
  rewrite perm_swap. by constructor.
Qed.

Lemma stable_sort_perm (l : list A) : Permutation l (stable_sort leb l).
Proof.
  induction l as [|x l IH]; simpl; [reflexivity|].
  rewrite <- insert_sorted_perm. by constructor.
Qed.

(** Elements of one class of the order are never passed over. *)
Lemma insert_sorted_filter (P : A -> bool) (x : A) (l : list A) :
  (forall a b, P a = true -> P b = true -> leb a b = true) ->
  List.filter P (insert_sorted leb x l) = List.filter P (x :: l).
Proof.
  intros HP. induction l as [|y l IH]; [reflexivity|].
  simpl insert_sorted. destruct (leb x y) eqn:E; [reflexivity|].
  change (List.filter P (y :: insert_sorted leb x l))
    with (if P y then y :: List.filter P (insert_sorted leb x l)
          else List.filter P (insert_sorted leb x l)).
  rewrite IH. simpl.
  destruct (P x) eqn:Ex, (P y) eqn:Ey; try reflexivity.
  rewrite (HP x y Ex Ey) in E. discriminate.
Qed.

Lemma stable_sort_filter (P : A -> bool) (l : list A) :
  (forall a b, P a = true -> P b = true -> leb a b = true) ->
  List.filter P (stable_sort leb l) = List.filter P l.
Proof.
  intros HP. induction l as [|x l IH]; [reflexivity|].
  simpl stable_sort. rewrite insert_sorted_filter by exact HP.
  simpl. by rewrite IH.
Qed.

Hypothesis leb_total : forall x y, leb x y = false -> leb y x = true.
Hypothesis leb_trans :
  forall x y z, leb x y = true -> leb y z = true -> leb x z = true.

Lemma insert_sorted_sorted (x : A) (l : list A) :
  StronglySorted (fun a b => leb a b = true) l ->
  StronglySorted (fun a b => leb a b = true) (insert_sorted leb x l).
Proof.
  induction 1 as [|y l Hs IH Hy]; simpl.
  - repeat constructor.
  - destruct (leb x y) eqn:E.
    + constructor; [by constructor|].
      constructor; [exact E|].
      eapply Forall_impl; [exact Hy|]. intros z Hz. by eapply leb_trans.
    + constructor; [exact IH|].
      rewrite <- insert_sorted_perm. constructor; [by apply leb_total|done].
Qed.

Lemma stable_sort_sorted (l : list A) :
  StronglySorted (fun a b => leb a b = true) (stable_sort leb l).
Proof.
  induction l as [|x l IH]; simpl; [constructor|].
  by apply insert_sorted_sorted.
Qed.
End SortFacts.

Lemma StronglySorted_lookup {A : Type} (R : A -> A -> Prop) (l : list A)
    (i j : nat) (a b : A) :
  StronglySorted R l -> l !! i = Some a -> l !! j = Some b -> (i < j)%nat ->
  R a b.
Proof.
  intros Hs. revert i j. induction Hs as [|x l Hs IH Hx]; intros i j Hi Hj Hij.
  - by rewrite lookup_nil in Hi.
  - destruct j as [|j]; [lia|]. simpl in Hj. destruct i as [|i].
    + simpl in Hi. injection Hi as ->.
      rewrite Forall_forall in Hx. apply Hx.
      by eapply list_elem_of_lookup_2.
    + simpl in Hi. eapply IH; eauto. lia.
Qed.

Lemma StronglySorted_weaken {A : Type} (R S : A -> A -> Prop) (l : list A) :
  (forall a b, R a b -> S a b) -> StronglySorted R l -> StronglySorted S l.
Proof.
  intros HRS. induction 1 as [|x l Hs IH Hx]; constructor; [exact IH|].
  eapply Forall_impl; [exact Hx|]. intros y. apply HRS.
Qed.

Section PySortFacts.
Context {A : Type} (key : A -> Q).

Lemma py_sort_desc_perm (l : list A) : Permutation l (py_sort_desc key l).
Proof. apply stable_sort_perm. Qed.

Lemma py_sort_desc_sorted (l : list A) :
  StronglySorted (fun a b => (key b <= key a)%Q) (py_sort_desc key l).
Proof.
  eapply StronglySorted_weaken; [|apply stable_sort_sorted].
  - intros a b Hab. simpl in Hab. by apply Qle_bool_iff.
  - intros x y Hxy. simpl in *. apply Qle_bool_iff.
    destruct (Qle_bool (key y) (key x)) eqn:E; [discriminate|].
    apply Qlt_le_weak, Qnot_le_lt. intros Hle.
    apply Qle_bool_iff in Hle. congruence.
  - intros x y z Hxy Hyz. simpl in *.
    apply Qle_bool_iff in Hxy, Hyz. apply Qle_bool_iff.
    eapply Qle_trans; eassumption.
Qed.

(** Stability: the elements of any one key keep their order. *)
Lemma py_sort_desc_stable (s : Q) (l : list A) :
  List.filter (fun a => Qeq_bool (key a) s) (py_sort_desc key l)
  = List.filter (fun a => Qeq_bool (key a) s) l.
Proof.
  apply stable_sort_filter. intros a b Ha Hb.
  apply Qeq_bool_iff in Ha, Hb. apply Qle_bool_iff.
  rewrite Ha, Hb. apply Qle_refl.
Qed.
End PySortFacts.

(** ** Grouping *)

Section GroupByFacts.
Context {K V X : Type} `{EqDecision K} (ltb : K -> K -> bool)
        (init : X -> V) (step : V -> X -> V).

Lemma agg_of_snoc (xs : list X) (x : X) :
  agg_of init step (xs ++ [x])
  = Some (from_option (fun v => step v x) (init x) (agg_of init step xs)).
Proof.
  destruct xs as [|y xs]; simpl; [reflexivity|].
  by rewrite foldl_app.
Qed.

Lemma group_add_keys (k : K) (x : X) (l : list (K * V)) (k' : K) :
  In k' (map fst (group_add ltb init step k x l))
  <-> k' = k \/ In k' (map fst l).
Proof.
  induction l as [|[k0 v0] l IH]; simpl.
  - intuition congruence.
  - destruct (decide (k = k0)) as [->|Hne]; simpl; [intuition congruence|].
    destruct (ltb k k0); simpl; [intuition congruence|].
    rewrite IH. intuition congruence.
Qed.

Lemma assoc_group_add_ne (k k' : K) (x : X) (l : list (K * V)) :
  k' <> k -> assoc k' (group_add ltb init step k x l) = assoc k' l.
Proof.
  intros Hne. induction l as [|[k0 v0] l IH]; simpl.
  - by rewrite decide_False.
  - destruct (decide (k = k0)) as [->|Hk]; simpl.
    + by rewrite !decide_False.
    + destruct (ltb k k0); simpl.
      * by rewrite (decide_False (P := k' = k)).
      * by rewrite IH.
Qed.

Lemma assoc_None (k : K) (l : list (K * V)) :
  ~ In k (map fst l) -> assoc k l = None.
Proof.
  induction l as [|[k0 v0] l IH]; simpl; [done|].
  intros Hn. rewrite decide_False by (intros ->; apply Hn; by left).
  apply IH. intros Hin. apply Hn. by right.
Qed.

Lemma assoc_Some_In (k : K) (v : V) (l : list (K * V)) :
  assoc k l = Some v -> In (k, v) l.
Proof.
  induction l as [|[k0 v0] l IH]; simpl; [done|].
  destruct (decide (k = k0)) as [->|Hne].
  - intros [= ->]. by left.
  - intros Hl. right. by apply IH.
Qed.

Hypothesis ltb_irrefl : forall a, ltb a a = false.
Hypothesis ltb_trans :
  forall a b c, ltb a b = true -> ltb b c = true -> ltb a c = true.
Hypothesis ltb_total : forall a b, a <> b -> ltb a b = false -> ltb b a = true.

Lemma keys_sorted_head (k : K) (v : V) (l : list (K * V)) (k' : K) :
  keys_sorted ltb ((k, v) :: l) -> In k' (map fst l) -> ltb k k' = true.
Proof.
  unfold keys_sorted. simpl. intros Hs Hin.
  apply StronglySorted_inv in Hs as [_ Hall].
  rewrite Forall_forall in Hall. apply Hall. by apply list_elem_of_In.
Qed.

Lemma keys_sorted_tail (kv : K * V) (l : list (K * V)) :
  keys_sorted ltb (kv :: l) -> keys_sorted ltb l.
Proof.
  unfold keys_sorted. simpl. intros Hs.
  by apply StronglySorted_inv in Hs as [? _].
Qed.

Lemma keys_sorted_not_in (k : K) (v : V) (l : list (K * V)) :
  keys_sorted ltb ((k, v) :: l) -> ~ In k (map fst l).
Proof.
  intros Hs Hin. pose proof (keys_sorted_head _ _ _ _ Hs Hin) as Hlt.
  by rewrite ltb_irrefl in Hlt.
Qed.

Lemma group_add_sorted (k : K) (x : X) (l : list (K * V)) :
  keys_sorted ltb l -> keys_sorted ltb (group_add ltb init step k x l).
Proof.
  induction l as [|[k0 v0] l IH]; intros Hs; simpl.
  - repeat constructor.
  - destruct (decide (k = k0)) as [->|Hne]; [exact Hs|].
    destruct (ltb k k0) eqn:E.
    + constructor; [exact Hs|].
      apply Forall_forall. intros k' Hin%list_elem_of_In.
      simpl in Hin. destruct Hin as [<-|Hin]; [exact E|].
      eapply ltb_trans; [exact E|]. by eapply keys_sorted_head.
    + constructor; [apply IH; by eapply keys_sorted_tail|].
      apply Forall_forall. intros k' Hin%list_elem_of_In.
      apply group_add_keys in Hin as [->|Hin].
      * by apply ltb_total.
      * by eapply keys_sorted_head.
Qed.

Lemma assoc_group_add_eq (k : K) (x : X) (l : list (K * V)) :
  keys_sorted ltb l ->
  assoc k (group_add ltb init step k x l)
  = Some (from_option (fun v => step v x) (init x) (assoc k l)).
Proof.
  induction l as [|[k0 v0] l IH]; intros Hs; simpl.
  - by rewrite decide_True.
  - destruct (decide (k = k0)) as [->|Hne]; simpl.
    + by rewrite decide_True.
    + destruct (ltb k k0) eqn:E; simpl.
      * rewrite decide_True by done. rewrite assoc_None; [done|].
        intros Hin. pose proof (keys_sorted_head _ _ _ _ Hs Hin) as Hlt.
        pose proof (ltb_trans _ _ _ E Hlt) as Hkk.
        by rewrite ltb_irrefl in Hkk.
      * rewrite decide_False by done. apply IH. by eapply keys_sorted_tail.
Qed.

Lemma groupby_snoc (obs : list (K * X)) (k : K) (x : X) :
  groupby ltb init step (obs ++ [(k, x)])
  = group_add ltb init step k x (groupby ltb init step obs).
Proof. unfold groupby. by rewrite foldl_app. Qed.

Lemma groupby_sorted (obs : list (K * X)) :
  keys_sorted ltb (groupby ltb init step obs).
Proof.
  induction obs as [|[k x] obs IH] using rev_ind.
  - constructor.
  - rewrite groupby_snoc. by apply group_add_sorted.
Qed.

(** Each group holds what its own observations accumulate. *)
Lemma groupby_assoc (k : K) (obs : list (K * X)) :
  assoc k (groupby ltb init step obs) = agg_of init step (obs_of k obs).
Proof.
  induction obs as [|[k0 x] obs IH] using rev_ind; [reflexivity|].
  rewrite groupby_snoc. unfold obs_of. rewrite filter_app.
  destruct (decide (k = k0)) as [->|Hne].
  - rewrite assoc_group_add_eq by apply groupby_sorted.
    rewrite IH. rewrite filter_cons_True by done.
    rewrite filter_nil, map_app. simpl. by rewrite agg_of_snoc.
  - rewrite assoc_group_add_ne by done.
    rewrite filter_cons_False by (simpl; congruence).
    rewrite filter_nil, app_nil_r. exact IH.
Qed.

Lemma keys_sorted_assoc (k : K) (v : V) (l : list (K * V)) :
  keys_sorted ltb l -> In (k, v) l -> assoc k l = Some v.
Proof.
  induction l as [|[k0 v0] l IH]; intros Hs Hin; [done|].
  simpl. destruct Hin as [[= -> ->]|Hin].
  - by rewrite decide_True.
  - rewrite decide_False.
    + apply IH; [by eapply keys_sorted_tail|done].
    + intros ->. eapply keys_sorted_not_in; [exact Hs|].
      apply in_map_iff. by exists (k0, v).
Qed.

(** The entries of the result, read as a set. *)
Lemma groupby_In (k : K) (v : V) (obs : list (K * X)) :
  In (k, v) (groupby ltb init step obs) <-> agg_of init step (obs_of k obs) = Some v.
Proof.
  rewrite <- groupby_assoc. split.
  - apply keys_sorted_assoc, groupby_sorted.
  - apply assoc_Some_In.
Qed.

Lemma keys_sorted_NoDup (l : list (K * V)) :
  keys_sorted ltb l -> NoDup (map fst l).
Proof.
  induction l as [|[k0 v0] l IH]; intros Hs; simpl; constructor.
  - rewrite list_elem_of_In. by eapply keys_sorted_not_in.
  - apply IH. by eapply keys_sorted_tail.
Qed.
End GroupByFacts.

(** ** The orders used for group keys *)

Lemma string_ltb_lt (a b : string) :
  String.ltb a b = true <-> String.compare a b = Lt.
Proof. unfold String.ltb. destruct (String.compare a b); intuition congruence. Qed.

Lemma string_ltb_irrefl (a : string) : String.ltb a a = false.
Proof.
  unfold String.ltb. pose proof (String.compare_antisym a a) as Ha.
  destruct (String.compare a a); simpl in Ha; congruence.
Qed.

Lemma string_ltb_total (a b : string) :
  a <> b -> String.ltb a b = false -> String.ltb b a = true.
Proof.
  intros Hne Hab. unfold String.ltb in *.
  rewrite (String.compare_antisym b a).
  destruct (String.compare a b) eqn:E; simpl; try done.
  by apply String.compare_eq_iff in E.
Qed.

Lemma string_ltb_leb (a b : string) : String.ltb a b = true -> String.le a b.
Proof.
  unfold String.le, String.leb, String.ltb.
  by destruct (String.compare a b).
Qed.

Lemma string_ltb_trans (a b c : string) :
  String.ltb a b = true -> String.ltb b c = true -> String.ltb a c = true.
Proof.
  intros Hab Hbc.
  assert (String.le a c) as Hac.
  { etrans; apply string_ltb_leb; eassumption. }
  destruct (decide (a = c)) as [->|Hne].
  - apply string_ltb_lt in Hab, Hbc.
    rewrite String.compare_antisym, Hab in Hbc. discriminate.
  - unfold String.le, String.leb in Hac. unfold String.ltb.
    destruct (String.compare a c) eqn:E; try done.
    by apply String.compare_eq_iff in E.
Qed.

Lemma period_ltb_spec (p q : Period) :
  period_ltb p q = true
  <-> (p_year p < p_year q \/ (p_year p = p_year q /\ p_month p < p_month q))%Z.
Proof.
  unfold period_ltb.
  rewrite orb_true_iff, andb_true_iff, !Z.ltb_lt, Z.eqb_eq. tauto.
Qed.

Lemma key_ltb_spec (k1 k2 : string * Period) :
  key_ltb k1 k2 = true
  <-> String.ltb k1.1 k2.1 = true \/ (k1.1 = k2.1 /\ period_ltb k1.2 k2.2 = true).
Proof.
  unfold key_ltb. rewrite orb_true_iff, andb_true_iff, String.eqb_eq. tauto.
Qed.

Lemma key_ltb_irrefl (k : string * Period) : key_ltb k k = false.
Proof.
  apply not_true_is_false. rewrite key_ltb_spec, period_ltb_spec.
  rewrite string_ltb_irrefl. intros [?|[_ ?]]; [done|lia].
Qed.

Lemma key_ltb_trans (a b c : string * Period) :
  key_ltb a b = true -> key_ltb b c = true -> key_ltb a c = true.
Proof.
  rewrite !key_ltb_spec, !period_ltb_spec.
  intros [Hab|[Hab Hp]] [Hbc|[Hbc Hq]].
  - left. by eapply string_ltb_trans.
  - left. by rewrite <- Hbc.
  - left. by rewrite Hab.
  - right. split; [congruence|lia].
Qed.

Lemma key_ltb_total (a b : string * Period) :
  a <> b -> key_ltb a b = false -> key_ltb b a = true.
Proof.
  intros Hne Hab. apply key_ltb_spec.
  destruct (decide (a.1 = b.1)) as [Heq|Hs].
  - right. split; [done|]. apply period_ltb_spec.
    destruct (decide (a.2 = b.2)) as [Hp|Hp].
    { destruct a, b; simpl in *; congruence. }
    assert (~ (p_year a.2 < p_year b.2
               \/ (p_year a.2 = p_year b.2 /\ p_month a.2 < p_month b.2))%Z)
      as Hn.
    { intros Hlt. apply period_ltb_spec in Hlt.
      assert (key_ltb a b = true) as Ht by (apply key_ltb_spec; by right).
      congruence. }
    destruct a as [? [ya ma]], b as [? [yb mb]]; simpl in *.
    assert (~ (ya = yb /\ ma = mb)) by (intros [-> ->]; done). lia.
  - left. apply string_ltb_total; [congruence|].
    apply not_true_is_false. intros Hlt.
    assert (key_ltb a b = true) as Ht by (apply key_ltb_spec; by left).
    congruence.
Qed.

(** ** Rows and vendors *)

Lemma iterrows_In (l : list Row) (i : nat) (r : Row) :
  In (i, r) (iterrows l) <-> l !! i = Some r.
Proof.
  unfold iterrows. rewrite <- list_elem_of_In, elem_of_lookup_imap.
  split.
  - intros (j & y & [= -> ->] & Hj). exact Hj.
  - intros Hi. by exists i, r.
Qed.

Lemma unique_In (v : string) (l : list string) : In v (unique l) <-> In v l.
Proof.
  induction l as [|x l IH]; simpl; [done|].
  rewrite <- list_elem_of_In, list_elem_of_filter, list_elem_of_In, IH.
  destruct (decide (x = v)) as [->|Hne]; [tauto|].
  split; [tauto|]. intros [?|?]; [done|]. right. split; [congruence|done].
Qed.

Lemma unique_NoDup (l : list string) : NoDup (unique l).
Proof.
  induction l as [|x l IH]; simpl; constructor.
  - rewrite list_elem_of_filter. tauto.
  - by apply NoDup_filter.
Qed.

Section StatsFacts.
Context {rt : Numerics}.

Lemma compute_stats_fold (sigma : Q) (m : Z) (l : list Row)
    (vs : list string) (acc : gmap string Stats) (v : string) :
  foldl (fun acc v =>
           let vendor_data := vendor_amounts v l in
           if (m <=? Z.of_nat (length vendor_data))%Z
           then <[v := stats_of sigma vendor_data]> acc
           else acc) acc vs !! v
  = if decide (v ∈ vs /\ (m <= Z.of_nat (length (vendor_amounts v l)))%Z)
    then Some (stats_of sigma (vendor_amounts v l))
    else acc !! v.
Proof.
  revert acc. induction vs as [|x vs IH]; intros acc; cbn [foldl].
  - rewrite decide_False; [done|]. rewrite elem_of_nil. tauto.
  - rewrite IH. clear IH.
    destruct (decide (v ∈ vs /\ _)) as [[Hin Hm]|Hn].
    + rewrite decide_True; [done|]. rewrite elem_of_cons. tauto.
    + destruct (Z.leb_spec m (Z.of_nat (length (vendor_amounts x l))))
        as [Hm|Hm].
      * destruct (decide (x = v)) as [->|Hne].
        -- rewrite lookup_insert_eq, decide_True; [done|].
           rewrite elem_of_cons. tauto.
        -- rewrite lookup_insert_ne by done.
           rewrite decide_False; [done|]. rewrite elem_of_cons.
           intros [[?|?] ?]; [congruence|tauto].
      * rewrite decide_False; [done|]. rewrite elem_of_cons.
        intros [[->|?] ?]; [lia|tauto].
Qed.

(** A vendor is a key of [vendor_stats] exactly when it occurs in the
    batch at least [min_transactions] times. *)
Lemma compute_stats_lookup (sigma : Q) (m : Z) (l : list Row) (v : string) :
  compute_stats sigma m l !! v
  = if decide (v ∈ map r_vendor l
               /\ (m <= Z.of_nat (length (vendor_amounts v l)))%Z)
    then Some (stats_of sigma (vendor_amounts v l))
    else None.
Proof.
  unfold compute_stats. rewrite compute_stats_fold, lookup_empty.
  destruct (decide (v ∈ map r_vendor l /\ _)) as [Hy|Hn].
  - rewrite decide_True; [done|]. by rewrite list_elem_of_In, unique_In,
      <- list_elem_of_In.
  - rewrite decide_False; [done|]. by rewrite list_elem_of_In, unique_In,
      <- list_elem_of_In.
Qed.

(** What the loop of [detect_statistical_outliers] appends for one row. *)
Lemma statistical_outliers_In (stats : gmap string Stats) (l : list Row)
    (a : Anomaly) :
  In a (statistical_outliers stats l)
  <-> exists i r st t,
        l !! i = Some r /\ stats !! r_vendor r = Some st
        /\ st_threshold_3sigma st = Some t /\ (t < r_amount r)%Q
        /\ a = outlier_of st t i r.
Proof.
  unfold statistical_outliers. rewrite in_flat_map. split.
  - intros ([i r] & Hir & Ha). apply iterrows_In in Hir.
    unfold outliers_of_row in Ha. simpl in Ha.
    destruct (stats !! r_vendor r) as [st|] eqn:Hst; [|done].
    destruct (st_threshold_3sigma st) as [t|] eqn:Ht; [|done].
    destruct (Qltb t (r_amount r)) eqn:Hlt; [|done].
    destruct Ha as [<-|[]]. apply Qltb_lt in Hlt.
    by exists i, r, st, t.
  - intros (i & r & st & t & Hi & Hst & Ht & Hlt & ->).
    exists (i, r). split; [by apply iterrows_In|].
    unfold outliers_of_row. simpl. rewrite Hst, Ht.
    apply Qltb_lt in Hlt. rewrite Hlt. by left.
Qed.

End StatsFacts.

(** ** Statistical outliers (C1) *)



(** ** The risk score of a statistical outlier (C2) *)

(** The score every emitted outlier carries: the observed multiplier less
    the constant 3, whatever [sigma_threshold] is. *)
Lemma outlier_risk_score {rt : Numerics} (st : Stats) (t : Q) (i : nat) (r : Row) :
  risk_score (outlier_of st t i r)
  = Qmin 100 (Qmax 0 ((observed_sigma st (r_amount r) - 3) * 20 + 70)).
Proof. reflexivity. Qed.

(** With the default multiplier the code and the specification agree. *)
Lemma outlier_risk_score_default {rt : Numerics} (st : Stats) (t : Q) (i : nat)
    (r : Row) :
  risk_score (outlier_of st t i r)
  = spec_risk_score 3 (observed_sigma st (r_amount r)).
Proof. reflexivity. Qed.

(** C2.  An analyzer configured with [sigma_threshold = 2] on
    [outlier_batch]: the payment of 1000 lies 8/3 deviations above the mean
    and is the one outlier.  The code scores it (8/3 - 3) * 20 + 70 = 190/3;
    the formula with the configured multiplier gives
    (8/3 - 2) * 20 + 70 = 250/3. *)
Lemma risk_score_ignores_configured_sigma :
  exists a ev,
    (detect_statistical_outliers (rt := exact_numerics)
       (compute_vendor_statistics (rt := exact_numerics)
          (new_analyzer 2 5 outlier_batch)).2).1 = [a]
    /\ evidence a = Some ev
    /\ (sigma_multiplier ev == 8 # 3)%Q
    /\ (risk_score a == 190 # 3)%Q
    /\ (spec_risk_score 2 (sigma_multiplier ev) == 250 # 3)%Q
    /\ ~ (risk_score a == spec_risk_score 2 (sigma_multiplier ev))%Q.
Proof.
  eexists _, _. split; [vm_compute; reflexivity|].
  split; [reflexivity|]. repeat split; try (vm_compute; reflexivity).
  vm_compute. discriminate.
Qed.

(** ** Aggregation and ranking (C3) *)

(** C3.  [run_full_analysis] returns, and stores in [self.anomalies], the
    outputs of the four detectors (each run on the analyzer as
    [compute_vendor_statistics] leaves it) concatenated in the order
    statistical outliers, patterns, frequency, concentration, and sorted by
    [risk_score], highest first.  The result is a permutation of the
    concatenation (no record is dropped or merged); a record with a
    strictly higher score stands before one with a lower score; and the
    records of any one score keep their order of concatenation. *)
Theorem run_full_analysis_ranked {rt : Numerics} (self : Analyzer) :
  let self' := (compute_vendor_statistics self).2 in
  let concatenated :=
    (detect_statistical_outliers self').1
    ++ (detect_round_dollar_patterns self').1
    ++ (detect_frequency_anomalies self').1
    ++ (detect_vendor_concentration (3 # 10) self').1 in
  let out := (run_full_analysis self).1 in
  out = py_sort_desc risk_score concatenated
  /\ anomalies (run_full_analysis self).2 = out
  /\ Permutation concatenated out
  /\ (forall i j a b,
        out !! i = Some a -> out !! j = Some b ->
        (risk_score b < risk_score a)%Q -> (i < j)%nat)
  /\ (forall s,
        List.filter (fun a => Qeq_bool (risk_score a) s) out
        = List.filter (fun a => Qeq_bool (risk_score a) s) concatenated).
Proof.
  intros self' concatenated out.
  assert (out = py_sort_desc risk_score concatenated) as Hout.
  { unfold out, concatenated. rewrite !app_assoc. reflexivity. }
  split; [exact Hout|]. split; [reflexivity|]. rewrite Hout.
  split; [apply py_sort_desc_perm|].
  split; [|intros s; apply py_sort_desc_stable].
  intros i j a b Hi Hj Hlt.
  destruct (Nat.lt_trichotomy i j) as [Hij|[->|Hji]]; [exact Hij| |].
  - rewrite Hi in Hj. injection Hj as ->. by apply Qlt_irrefl in Hlt.
  - pose proof (StronglySorted_lookup _ _ _ _ _ _
                  (py_sort_desc_sorted risk_score concatenated) Hj Hi Hji)
      as Hle.
    simpl in Hle. exfalso. by apply (Qlt_not_le _ _ Hlt).
Qed.

(** ** Threshold evasion (C4) *)

Section PatternFacts.
Context {rt : Numerics}.

Lemma in_window_spec (a : Q) (t : Z) :
  in_window a t = true
  <-> (inject_Z t - 100 <= a)%Q /\ (a < inject_Z t)%Q.
Proof.
  unfold in_window. by rewrite andb_true_iff, Qle_bool_iff, Qltb_lt.
Qed.

(** The loop stops at the first threshold of the list whose window holds
    the amount. *)
Lemma evasion_loop_find (i : nat) (r : Row) (ts : list Z) :
  evasion_loop i r ts
  = match List.find (in_window (r_amount r)) ts with
    | Some t => [evasion_of i r t]
    | None => []
    end.
Proof.
  induction ts as [|t ts IH]; simpl; [reflexivity|].
  by destruct (in_window (r_amount r) t).
Qed.

(** In an ascending list the first match is the least one. *)
Lemma find_least (f : Z -> bool) (ts : list Z) (t : Z) :
  StronglySorted Z.lt ts ->
  In t ts -> f t = true ->
  (forall t', In t' ts -> f t' = true -> (t <= t')%Z) ->
  List.find f ts = Some t.
Proof.
  induction 1 as [|h ts Hs IH Hh]; intros Hin Hf Hmin; [done|].
  simpl. destruct (f h) eqn:Eh.
  - f_equal. destruct Hin as [->|Hin]; [done|].
    rewrite Forall_forall in Hh. apply list_elem_of_In, Hh in Hin.
    pose proof (Hmin h (or_introl eq_refl) Eh). lia.
  - destruct Hin as [->|Hin]; [congruence|].
    apply IH; [done..|]. intros t' Ht'. apply Hmin. by right.
Qed.

Lemma thresholds_ascending : StronglySorted Z.lt thresholds.
Proof. unfold thresholds. repeat constructor; lia. Qed.

Lemma evasion_filter_patterns (i : nat) (r : Row) :
  List.filter is_evasion (patterns_of_row i r) = evasion_loop i r thresholds.
Proof.
  unfold patterns_of_row. rewrite List.filter_app, evasion_loop_find.
  destruct (is_round_dollar (r_amount r));
    destruct (List.find (in_window (r_amount r)) thresholds); reflexivity.
Qed.

(** What the loop of [detect_round_dollar_patterns] appends for one row. *)
Lemma round_dollar_patterns_In (l : list Row) (a : Anomaly) :
  In a (round_dollar_patterns l)
  <-> exists i r,
        l !! i = Some r
        /\ ((is_round_dollar (r_amount r) = true /\ a = round_dollar_of i r)
            \/ (exists t, List.find (in_window (r_amount r)) thresholds = Some t
                          /\ a = evasion_of i r t)).
Proof.
  unfold round_dollar_patterns. rewrite in_flat_map. split.
  - intros ([i r] & Hir & Ha). apply iterrows_In in Hir.
    exists i, r. split; [done|].
    unfold patterns_of_row in Ha. cbn [fst snd] in Ha.
    apply in_app_or in Ha as [Ha|Ha].
    + destruct (is_round_dollar (r_amount r)); [|done].
      destruct Ha as [<-|[]]. by left.
    + rewrite evasion_loop_find in Ha.
      destruct (List.find (in_window (r_amount r)) thresholds) as [t|];
        [|done].
      destruct Ha as [<-|[]]. right. by exists t.
  - intros (i & r & Hi & Ha). exists (i, r).
    split; [by apply iterrows_In|].
    unfold patterns_of_row. cbn [fst snd]. apply in_or_app.
    destruct Ha as [[Hr ->]|(t & Ht & ->)].
    + left. rewrite Hr. by left.
    + right. rewrite evasion_loop_find, Ht. by left.
Qed.

(** The evasion records, in row order: one for each row that evades a
    threshold. *)
Lemma evasion_records (irs : list (nat * Row)) :
  List.filter is_evasion (flat_map (fun ir => patterns_of_row ir.1 ir.2) irs)
  = omap (fun ir => evasion_of ir.1 ir.2
                      <$> List.find (in_window (r_amount ir.2)) thresholds)
      irs.
Proof.
  induction irs as [|[i r] irs IH]; [reflexivity|].
  cbn [flat_map omap list_omap fst snd].
  rewrite List.filter_app, evasion_filter_patterns, evasion_loop_find, IH.
  by destruct (List.find (in_window (r_amount r)) thresholds).
Qed.
End PatternFacts.

(** The rows of a frame have distinct index labels. *)
Lemma iterrows_index_NoDup (l : list Row) : NoDup (map fst (iterrows l)).
Proof.
  unfold iterrows.
  assert (forall k, map fst (imap (fun i r => ((k + i)%nat, r)) l)
                    = seq k (length l)) as H.
  { induction l as [|r l IH]; intros k; [reflexivity|].
    cbn [imap map fst length seq]. rewrite Nat.add_0_r. f_equal.
    rewrite <- IH. f_equal. apply imap_ext. intros j x _. simpl.
    f_equal. lia. }
  change (imap (fun i r => (i, r)) l)
    with (imap (fun i r => ((0 + i)%nat, r)) l).
  rewrite H. apply NoDup_ListNoDup, List.seq_NoDup.
Qed.

(** Of records taken at most one per row, those of one index label are at
    most one. *)
Lemma omap_one_per_index {A : Type} (f : nat * Row -> option A)
    (P : A -> Prop) `{forall a, Decision (P a)} (i : nat)
    (irs : list (nat * Row)) :
  NoDup (map fst irs) ->
  (forall ir a, In ir irs -> f ir = Some a -> P a -> ir.1 = i) ->
  (length (filter P (omap f irs)) <= 1)%nat.
Proof.
  intros Hnd Hidx.
  assert (forall irs' : list (nat * Row),
            (forall ir, In ir irs' -> ir.1 <> i) ->
            (forall ir a, In ir irs' -> f ir = Some a -> P a -> ir.1 = i) ->
            filter P (omap f irs') = []) as Hnone.
  { induction irs' as [|ir irs' IH]; intros Hne Hi; [reflexivity|].
    cbn [omap list_omap].
    assert (filter P (omap f irs') = []) as Hrest.
    { apply IH; intros; [apply Hne|eapply Hi]; try by right. all: done. }
    destruct (f ir) as [a|] eqn:E; [|exact Hrest].
    rewrite filter_cons. destruct (decide (P a)) as [Hp|]; [|exact Hrest].
    exfalso. apply (Hne ir (or_introl eq_refl)).
    by apply (Hi ir a (or_introl eq_refl)). }
  induction irs as [|ir irs IH]; [simpl; lia|].
  cbn [omap list_omap]. cbn [map] in Hnd. apply NoDup_cons in Hnd as [Hnin Hnd].
  assert (length (filter P (omap f irs)) <= 1)%nat as Hrest.
  { apply IH; [done|]. intros ir' a Hin. apply Hidx. by right. }
  destruct (f ir) as [a|] eqn:E; [|exact Hrest].
  rewrite filter_cons. destruct (decide (P a)) as [Hp|]; [|exact Hrest].
  rewrite Hnone; [simpl; lia| |].
  - intros ir' Hin Heq. apply Hnin.
    rewrite (Hidx ir a (or_introl eq_refl) E Hp), <- Heq.
    apply list_elem_of_In, in_map, Hin.
  - intros ir' a' Hin. apply Hidx. by right.
Qed.

(** C4.  Take any transaction [r] of the batch, at index [i], and the
    output of [detect_round_dollar_patterns].  It holds a ThresholdEvasion
    record with the identifier, vendor and amount of [r] exactly when some
    threshold [t] of the list has [t - 100 <= amount < t]; the record of
    the least such [t], whose reason names [t], is in the output; every
    ThresholdEvasion record has risk score 80.  The ThresholdEvasion
    records of the output are, in row order, one record for each row that
    evades a threshold, made for the first threshold it evades; so when no
    other row carries the identifier of [r], at most one ThresholdEvasion
    record carries it. *)
Theorem threshold_evasion_first_match {rt : Numerics} (self : Analyzer)
    (i : nat) (r : Row) :
  rows (df self) !! i = Some r ->
  let out := (detect_round_dollar_patterns self).1 in
  let window := fun t : Z =>
    (inject_Z t - 100 <= r_amount r)%Q /\ (r_amount r < inject_Z t)%Q in
  ((exists a, In a out /\ anomaly_type a = ThresholdEvasion
              /\ transaction_id a = row_id i r /\ vendor a = r_vendor r
              /\ amount a = r_amount r)
   <-> exists t, In t thresholds /\ window t)
  /\ (forall t, In t thresholds -> window t ->
        (forall t', In t' thresholds -> window t' -> (t <= t')%Z) ->
        In (evasion_of i r t) out)
  /\ (forall a, In a out -> anomaly_type a = ThresholdEvasion ->
        risk_score a = 80%Q)
  /\ List.filter is_evasion out
     = omap (fun ir => evasion_of ir.1 ir.2
                         <$> evaded_threshold (r_amount ir.2))
         (iterrows (rows (df self)))
  /\ ((forall j r', rows (df self) !! j = Some r' ->
                    row_id j r' = row_id i r -> j = i) ->
      (length (filter (fun a => anomaly_type a = ThresholdEvasion
                                /\ transaction_id a = row_id i r) out)
       <= 1)%nat).
Proof.
  intros Hi out window.
  assert (out = round_dollar_patterns (rows (df self))) as Hout
    by reflexivity.
  assert (List.filter is_evasion out
          = omap (fun ir => evasion_of ir.1 ir.2
                              <$> evaded_threshold (r_amount ir.2))
              (iterrows (rows (df self)))) as Hfilter.
  { rewrite Hout. unfold round_dollar_patterns. apply evasion_records. }
  assert (forall t, In t thresholds -> window t ->
            (forall t', In t' thresholds -> window t' -> (t <= t')%Z) ->
            In (evasion_of i r t) out) as Hleast.
  { intros t Hin Hw Hmin. rewrite Hout. apply round_dollar_patterns_In.
    exists i, r. split; [done|]. right. exists t. split; [|done].
    apply (find_least _ _ t thresholds_ascending Hin).
    - by apply in_window_spec.
    - intros t' Hin' Hw'. apply Hmin; [done|]. by apply in_window_spec. }
  split; [|split; [exact Hleast|split; [|split; [exact Hfilter|]]]].
  - split.
    + intros (a & Ha & Hty & _ & _ & Ham). rewrite Hout in Ha.
      apply round_dollar_patterns_In in Ha
        as (j & r' & _ & [[_ ->]|(t & Ht & ->)]); [done|].
      apply find_some in Ht as [Hin Hw]. simpl in Ham.
      exists t. split; [done|]. unfold window. rewrite <- Ham.
      by apply in_window_spec.
    + intros (t & Hin & Hw).
      destruct (List.find (in_window (r_amount r)) thresholds) as [t0|] eqn:E.
      * exists (evasion_of i r t0). split; [|done].
        rewrite Hout. apply round_dollar_patterns_In.
        exists i, r. split; [done|]. right. by exists t0.
      * pose proof (find_none _ _ E t Hin) as Hf.
        apply in_window_spec in Hw. congruence.
  - intros a Ha Hty. rewrite Hout in Ha.
    apply round_dollar_patterns_In in Ha
      as (j & r' & _ & [[_ ->]|(t & _ & ->)]); [done|reflexivity].
  - intros Huniq.
    assert (filter (fun a => anomaly_type a = ThresholdEvasion
                             /\ transaction_id a = row_id i r) out
            = filter (fun a => transaction_id a = row_id i r)
                (List.filter is_evasion out)) as ->.
    { clear. induction out as [|a out IH]; [reflexivity|].
      cbn [List.filter]. rewrite filter_cons. unfold is_evasion at 1.
      destruct (anomaly_type a) eqn:E;
        try (rewrite decide_False by (intros [? _]; done); exact IH).
      rewrite filter_cons.
      destruct (decide (transaction_id a = row_id i r)) as [Hid|Hid].
      - rewrite decide_True by done. by rewrite IH.
      - rewrite decide_False by (intros [_ ?]; done). exact IH. }
    rewrite Hfilter.
    apply (omap_one_per_index _ _ i); [apply iterrows_index_NoDup|].
    intros [j r'] a Hin Hf Hid. apply iterrows_In in Hin.
    cbn [fst snd] in *.
    destruct (evaded_threshold (r_amount r')) as [t|]; [|done].
    injection Hf as <-. simpl in Hid. by apply (Huniq j r').
Qed.

Lemma threshold_evasion_first_match_witness :
  In (evasion_of (rt := exact_numerics) 1 (txn "Acme" 4999 (day 2024 3 1))
        5000)
     (detect_round_dollar_patterns (rt := exact_numerics)
        (new_analyzer 3 5 [txn "Acme" 120 (day 2024 2 1);
                           txn "Acme" 4999 (day 2024 3 1)])).1.
Proof.
  destruct (threshold_evasion_first_match (rt := exact_numerics)
              (new_analyzer 3 5 [txn "Acme" 120 (day 2024 2 1);
                                 txn "Acme" 4999 (day 2024 3 1)])
              1 (txn "Acme" 4999 (day 2024 3 1)) eq_refl)
    as (_ & Hfirst & _).
  apply Hfirst.
  - vm_compute. tauto.
  - vm_compute. split; [discriminate|reflexivity].
  - intros t' Hin [Hlo Hhi]. vm_compute in Hin.
    destruct Hin as [<-|[<-|[<-|[<-|[<-|[<-|[]]]]]]]; try lia.
    + exfalso. vm_compute in Hhi. discriminate.
    + exfalso. vm_compute in Hhi. discriminate.
Defined.


(** ** Frequency spikes (C5, C10) *)




Lemma foldl_count (xs : list unit) (n : nat) :
  foldl (fun c _ => S c) n xs = (n + length xs)%nat.
Proof.
  revert n. induction xs as [|x xs IH]; intros n; simpl; [lia|].
  rewrite IH. lia.
Qed.

Lemma agg_count (xs : list unit) :
  agg_of (fun _ : unit => 1%nat) (fun c _ => S c) xs
  = match xs with [] => None | _ :: _ => Some (length xs) end.
Proof.
  destruct xs as [|x xs]; [reflexivity|]. simpl. by rewrite foldl_count.
Qed.

Lemma monthly_obs_length (l : list Row) (v : string) (p : Period) :
  length (obs_of (v, p)
            (map (fun k => (k, tt)) (zip (map r_vendor l) (period_column l))))
  = length (month_rows l v p).
Proof.
  unfold obs_of, period_column, month_rows. rewrite length_map.
  induction l as [|r l IH]; [reflexivity|].
  cbn [map zip_with]. rewrite !filter_cons. simpl.
  destruct (decide ((r_vendor r, to_period (r_date r)) = (v, p))) as [Heq|Hne].
  - injection Heq as Hv Hp. rewrite decide_True by done. simpl. by rewrite IH.
  - rewrite decide_False; [exact IH|]. intros [Hv Hp]. congruence.
Qed.

(** The table of monthly counts holds, for each vendor and month with at
    least one row, the number of those rows. *)
Lemma monthly_counts_In (l : list Row) (v : string) (p : Period) (c : nat) :
  In (v, p, c) (monthly_counts l (period_column l))
  <-> c = length (month_rows l v p) /\ (0 < c)%nat.
Proof.
  unfold monthly_counts.
  rewrite (groupby_In key_ltb _ _ key_ltb_irrefl key_ltb_trans key_ltb_total).
  rewrite agg_count. pose proof (monthly_obs_length l v p) as Hlen.
  destruct (obs_of _ _) as [|x xs]; simpl in *.
  - split; [done|]. lia.
  - split; [intros [= <-]; lia|]. intros [-> _]. by rewrite Hlen.
Qed.

Lemma monthly_counts_keys (l : list Row) :
  NoDup (map fst (monthly_counts l (period_column l))).
Proof.
  unfold monthly_counts.
  eapply keys_sorted_NoDup, groupby_sorted;
    eauto using key_ltb_irrefl, key_ltb_trans, key_ltb_total.
Qed.

Lemma month_rows_pos (l : list Row) (v : string) (p : Period) :
  (0 < length (month_rows l v p))%nat
  <-> p ∈ period_column (filter (fun r => r_vendor r = v) l).
Proof.
  unfold month_rows, period_column.
  rewrite list_elem_of_In, in_map_iff. split.
  - intros Hpos. destruct (filter _ l) as [|r rs] eqn:E; [simpl in Hpos; lia|].
    assert (r ∈ filter (fun r => r_vendor r = v /\ to_period (r_date r) = p) l)
      as Hr by (rewrite E; left).
    apply list_elem_of_filter in Hr as [[Hv Hp] Hin].
    exists r. split; [done|]. apply list_elem_of_In, list_elem_of_filter. done.
  - intros (r & Hp & Hin). apply list_elem_of_In, list_elem_of_filter in Hin.
    destruct Hin as [Hv Hin].
    assert (r ∈ filter (fun r => r_vendor r = v /\ to_period (r_date r) = p) l)
      as Hr by (apply list_elem_of_filter; done).
    destruct (filter _ l); [by apply elem_of_nil in Hr|simpl; lia].
Qed.

Lemma vendor_months_NoDup (v : string) (mc : list (string * Period * nat)) :
  NoDup (map fst mc) ->
  NoDup (map (fun e => e.1.2) (filter (fun e => e.1.1 = v) mc)).
Proof.
  induction mc as [|[[v0 p0] c0] mc IH]; simpl; [constructor|].
  intros Hnd. apply NoDup_cons in Hnd as [Hnotin Hnd].
  rewrite filter_cons. simpl. destruct (decide (v0 = v)) as [->|Hne].
  - simpl. constructor; [|by apply IH].
    intros Hin. apply Hnotin.
    apply list_elem_of_In, in_map_iff in Hin as ([[v1 p1] c1] & Hp & Hin).
    apply list_elem_of_In, list_elem_of_filter in Hin as [Hv Hin].
    simpl in *. subst. apply list_elem_of_In, in_map_iff.
    exists (v, p0, c1). split; [done|]. by apply list_elem_of_In.
  - by apply IH.
Qed.

(** A vendor has one entry in the table per distinct month of history. *)
Lemma vendor_months_length (l : list Row) (v : string) :
  length (filter (fun e => e.1.1 = v) (monthly_counts l (period_column l)))
  = length (remove_dups
              (period_column (filter (fun r => r_vendor r = v) l))).
Proof.
  rewrite <- (length_map (fun e : string * Period * nat => e.1.2)).
  apply Permutation_length, NoDup_Permutation.
  - apply vendor_months_NoDup, monthly_counts_keys.
  - apply NoDup_remove_dups.
  - intros p. rewrite elem_of_remove_dups, <- month_rows_pos.
    rewrite list_elem_of_In, in_map_iff. split.
    + intros ([[v1 p1] c1] & Hp & Hin).
      apply list_elem_of_In, list_elem_of_filter in Hin as [Hv Hin].
      simpl in *. subst. apply list_elem_of_In, monthly_counts_In in Hin. lia.
    + intros Hpos. exists (v, p, length (month_rows l v p)). split; [done|].
      apply list_elem_of_In, list_elem_of_filter. split; [done|].
      apply list_elem_of_In, monthly_counts_In. done.
Qed.

Section FrequencyFacts.
Context {rt : Numerics}.

Lemma is_spike_spec (mean_freq std_freq : Q) (count : nat) :
  is_spike mean_freq std_freq count = true
  <-> (mean_freq + 2 * std_freq < Qnat count)%Q /\ (10 <= count)%nat.
Proof.
  unfold is_spike. by rewrite andb_true_iff, Qltb_lt, Nat.leb_le.
Qed.


(** What the loop body of [detect_frequency_anomalies] appends for one
    vendor. *)
Lemma spikes_of_vendor_In (mc : list (string * Period * nat)) (v : string)
    (a : Anomaly) :
  let vendor_monthly :=
    map (fun e => Qnat e.2) (filter (fun e => e.1.1 = v) mc) in
  In a (spikes_of_vendor mc v)
  <-> (3 <= length vendor_monthly)%nat
      /\ exists std_freq p c,
           series_std vendor_monthly = Some std_freq
           /\ (0 < std_freq)%Q
           /\ In (v, p, c) mc
           /\ is_spike (series_mean vendor_monthly) std_freq c = true
           /\ a = spike_of v p c (series_mean vendor_monthly).
Proof.
  intros vendor_monthly. unfold spikes_of_vendor. fold vendor_monthly.
  destruct (Nat.leb_spec 3 (length vendor_monthly)) as [Hlen|Hlen];
    [|split; [done|lia]].
  destruct (series_std vendor_monthly) as [s|];
    [|split; [done|by intros (_ & ? & ? & ? & ? & _)]].
  destruct (Qltb 0 s) eqn:Hs.
  - apply Qltb_lt in Hs. rewrite in_flat_map. split.
    + intros ([[v0 p0] c0] & Hin & Ha).
      apply list_elem_of_In, list_elem_of_filter in Hin as [Hv Hin].
      simpl in *. subst v0.
      destruct (is_spike _ s c0) eqn:Hsp; [|done]. destruct Ha as [<-|[]].
      split; [done|]. exists s, p0, c0. by rewrite <- list_elem_of_In.
    + intros (_ & s' & p & c & [= <-] & _ & Hin & Hsp & ->).
      exists (v, p, c). split.
      * apply list_elem_of_In, list_elem_of_filter.
        by rewrite list_elem_of_In.
      * simpl. rewrite Hsp. by left.
  - apply Qltb_ge in Hs. split; [done|].
    intros (_ & s' & ? & ? & [= <-] & Hpos & _).
    by apply (Qlt_not_le _ _ Hpos).
Qed.

Lemma frequency_spikes_In (l : list Row) (a : Anomaly) :
  let mc := monthly_counts l (period_column l) in
  In a (frequency_spikes l (period_column l))
  <-> exists v, In a (spikes_of_vendor mc v).
Proof.
  intros mc. unfold frequency_spikes. fold mc. rewrite in_flat_map. split.
  - intros (v & _ & Ha). by exists v.
  - intros (v & Ha). exists v. split; [|done].
    apply unique_In, in_map_iff.
    apply spikes_of_vendor_In in Ha
      as (_ & s & p & c & _ & _ & Hin & _). by exists (v, p, c).
Qed.
End FrequencyFacts.



(** C10.  Every record of [detect_frequency_anomalies] is of type
    FrequencySpike and stands for a vendor and a month of the batch: its
    id is ["freq_" + vendor + "_" + month label], its date is the month
    label, a string, and its amount is 0. *)
Theorem frequency_anomaly_shape {rt : Numerics} (self : Analyzer) (a : Anomaly) :
  In a (detect_frequency_anomalies self).1 ->
  exists (v : string) (p : Period),
    (exists r, In r (rows (df self)) /\ r_vendor r = v
               /\ to_period (r_date r) = p)
    /\ anomaly_type a = FrequencySpike
    /\ vendor a = v
    /\ transaction_id a = "freq_" +:+ v +:+ "_" +:+ period_str p
    /\ date a = DateStr (period_str p)
    /\ amount a = 0%Q.
Proof.
  intros Ha.
  assert (In a (frequency_spikes (rows (df self))
                  (period_column (rows (df self))))) as Ha' by exact Ha.
  apply frequency_spikes_In in Ha' as (v & Hv).
  apply spikes_of_vendor_In in Hv
    as (_ & s & p & c & _ & _ & Hin & _ & ->).
  exists v, p. split; [|by repeat split].
  apply monthly_counts_In in Hin as [-> Hpos].
  apply month_rows_pos, list_elem_of_In, in_map_iff in Hpos
    as (r & Hp & Hr).
  apply list_elem_of_In, list_elem_of_filter in Hr as [Hv Hr].
  exists r. by rewrite <- list_elem_of_In.
Qed.

Lemma frequency_anomaly_shape_witness :
  exists (v : string) (p : Period),
    transaction_id
      (spike_of (rt := exact_numerics) "Acme"
         {| p_year := 2024; p_month := 9 |} 10 2)
    = "freq_" +:+ v +:+ "_" +:+ period_str p
    /\ period_str p = "2024-09".
Proof.
  destruct (frequency_anomaly_shape (rt := exact_numerics)
              (new_analyzer 3 5 spike_batch)
              (spike_of (rt := exact_numerics) "Acme"
                 {| p_year := 2024; p_month := 9 |} 10 2))
    as (v & p & _ & _ & Hv & Hid & Hdate & _).
  { vm_compute. tauto. }
  exists v, p. split; [exact Hid|].
  simpl in Hdate. by injection Hdate as <-.
Defined.

(** ** Vendor concentration (C6) *)

Lemma foldl_snoc (acc : list Q) (xs : list Q) :
  foldl (fun ys x => ys ++ [x]) acc xs = acc ++ xs.
Proof.
  revert acc. induction xs as [|x xs IH]; intros acc; simpl.
  - by rewrite app_nil_r.
  - by rewrite IH, <- app_assoc.
Qed.

Lemma agg_group (xs ys : list Q) :
  agg_of (fun x : Q => [x]) (fun ys x => ys ++ [x]) xs = Some ys
  <-> ys = xs /\ xs <> [].
Proof.
  destruct xs as [|x xs]; simpl.
  - split; [done|]. by intros [_ ?].
  - rewrite foldl_snoc. simpl. split; [by intros [= <-]|]. by intros [-> _].
Qed.

Lemma vendor_obs (l : list Row) (v : string) :
  obs_of v (map (fun r => (r_vendor r, r_amount r)) l) = vendor_amounts v l.
Proof.
  unfold obs_of, vendor_amounts.
  induction l as [|r l IH]; [reflexivity|].
  cbn [map]. rewrite !filter_cons. simpl.
  destruct (decide (r_vendor r = v)); simpl; by rewrite IH.
Qed.

(** One group per vendor of the batch: the vendor's amounts, in row
    order. *)
Lemma vendor_groups_In (l : list Row) (v : string) (xs : list Q) :
  In (v, xs) (vendor_groups l) <-> xs = vendor_amounts v l /\ xs <> [].
Proof.
  unfold vendor_groups.
  rewrite (groupby_In String.ltb _ _ string_ltb_irrefl string_ltb_trans
             string_ltb_total).
  rewrite vendor_obs, agg_group. split; intros [-> ?]; by split.
Qed.

Lemma vendor_groups_keys (l : list Row) : NoDup (map fst (vendor_groups l)).
Proof.
  unfold vendor_groups.
  eapply keys_sorted_NoDup, groupby_sorted;
    eauto using string_ltb_irrefl, string_ltb_trans, string_ltb_total.
Qed.

Lemma vendor_amounts_nonempty (l : list Row) (v : string) :
  In v (map r_vendor l) -> vendor_amounts v l <> [].
Proof.
  intros (r & Hv & Hr)%in_map_iff. unfold vendor_amounts.
  assert (r ∈ filter (fun r => r_vendor r = v) l) as Hin.
  { apply list_elem_of_filter. by rewrite list_elem_of_In. }
  destruct (filter _ l); [by apply elem_of_nil in Hin|done].
Qed.

Lemma vendor_amounts_In (l : list Row) (v : string) (x : Q) :
  In x (vendor_amounts v l) -> exists r, In r l /\ r_amount r = x.
Proof.
  unfold vendor_amounts. intros (r & Hx & Hr)%in_map_iff.
  apply list_elem_of_In, list_elem_of_filter in Hr as [_ Hr].
  exists r. by rewrite <- list_elem_of_In.
Qed.

Lemma vendor_amounts_vendor (l : list Row) (v : string) :
  vendor_amounts v l <> [] -> In v (map r_vendor l).
Proof.
  unfold vendor_amounts. intros Hne.
  destruct (filter (fun r => r_vendor r = v) l) as [|r rs] eqn:E; [done|].
  assert (r ∈ filter (fun r => r_vendor r = v) l) as Hin
    by (rewrite E; left).
  apply list_elem_of_filter in Hin as [<- Hin].
  by apply in_map, list_elem_of_In.
Qed.

Lemma series_sum_nonneg (xs : list Q) :
  (forall x, In x xs -> (0 <= x)%Q) -> (0 <= series_sum xs)%Q.
Proof.
  induction xs as [|x xs IH]; intros Hx; simpl; [apply Qle_refl|].
  assert (0 <= x)%Q by (apply Hx; by left).
  assert (0 <= series_sum xs)%Q by (apply IH; intros; apply Hx; by right).
  lra.
Qed.

Section ConcentrationFacts.
Context {rt : Numerics}.

(** One total per vendor of the batch: what the runtime's group sum makes
    of the vendor's amounts. *)
Lemma vendor_totals_In (l : list Row) (v : string) (t : Q) :
  In (v, t) (vendor_totals l)
  <-> t = fgroup_sum (vendor_amounts v l) /\ In v (map r_vendor l).
Proof.
  unfold vendor_totals.
  assert (In (v, t) (map (fun g => (g.1, fgroup_sum g.2)) (vendor_groups l))
          <-> t = fgroup_sum (vendor_amounts v l) /\ In v (map r_vendor l))
    as <-.
  { rewrite in_map_iff. split.
    - intros ([v' xs] & [= <- <-] & [Hxs Hne]%vendor_groups_In).
      cbn [fst snd]. rewrite Hxs in Hne |- *.
      split; [done|]. by apply vendor_amounts_vendor.
    - intros [-> Hv]. exists (v, vendor_amounts v l). split; [done|].
      apply vendor_groups_In. split; [done|].
      by apply vendor_amounts_nonempty. }
  split; apply Permutation_in; [symmetry|]; apply py_sort_desc_perm.
Qed.

Lemma vendor_totals_keys (l : list Row) : NoDup (map fst (vendor_totals l)).
Proof.
  unfold vendor_totals.
  rewrite <- (Permutation_map fst (py_sort_desc_perm snd _)), map_map.
  apply vendor_groups_keys.
Qed.

Lemma vendor_totals_nonneg (l : list Row) (v : string) (t : Q) :
  (forall r, In r l -> (0 <= r_amount r)%Q) ->
  In (v, t) (vendor_totals l) -> (0 <= t)%Q.
Proof.
  intros Hnonneg [-> _]%vendor_totals_In. apply fgroup_sum_nonneg.
  intros x (r & Hr & <-)%vendor_amounts_In. by apply Hnonneg.
Qed.

Lemma fdiv_nonzero (x y : Q) : ~ (y == 0)%Q -> fdiv x y = Fin (fquot x y).
Proof.
  intros Hy. unfold fdiv. destruct (Qeq_bool y 0) eqn:E; [|done].
  by apply Qeq_bool_iff in E.
Qed.

Lemma fdiv_zero_zero (x y : Q) : (x == 0)%Q -> (y == 0)%Q -> fdiv x y = NaN.
Proof.
  intros Hx Hy. unfold fdiv.
  rewrite (proj2 (Qeq_bool_iff y 0) Hy).
  rewrite (proj2 (Qltb_ge 0 x)) by (rewrite Hx; apply Qle_refl).
  by rewrite (proj2 (Qltb_ge x 0)) by (rewrite Hx; apply Qle_refl).
Qed.

Lemma vendor_concentration_In (thr : Q) (l : list Row) (a : Anomaly) :
  In a (vendor_concentration thr l)
  <-> exists v t,
        In (v, t) (vendor_totals l)
        /\ In a (concentration_of_vendor (fsum (map r_amount l)) thr (v, t)).
Proof.
  unfold vendor_concentration. rewrite in_flat_map. split.
  - intros ([v t] & Hin & Ha). by exists v, t.
  - intros (v & t & Hin & Ha). by exists (v, t).
Qed.

(** With a non-zero total the division is an ordinary one. *)
Lemma concentration_of_vendor_In (total thr : Q) (v : string) (t : Q)
    (a : Anomaly) :
  ~ (total == 0)%Q ->
  In a (concentration_of_vendor total thr (v, t))
  <-> (thr < fquot t total)%Q
      /\ a = concentration_of v t total (Fin (fquot t total))
               (Qmin 95 (fadd 60 (fmul (fquot t total) 100))).
Proof.
  intros Hz. unfold concentration_of_vendor. simpl.
  rewrite fdiv_nonzero by done.
  destruct (Qltb thr (fquot t total)) eqn:E.
  - apply Qltb_lt in E. simpl. intuition.
  - apply Qltb_ge in E. split; [done|]. intros [Hlt _].
    by apply (Qlt_not_le _ _ Hlt).
Qed.

(** Every record carries the vendor and the total it was made for. *)
Lemma concentration_of_vendor_fields (total thr : Q) (vt : string * Q)
    (a : Anomaly) :
  In a (concentration_of_vendor total thr vt) ->
  vendor a = vt.1 /\ amount a = vt.2
  /\ anomaly_type a = VendorConcentration
  /\ concentration_of_vendor total thr vt = [a].
Proof.
  unfold concentration_of_vendor. destruct (fdiv vt.2 total) as [c| | |].
  - destruct (Qltb thr c); [|done]. by intros [<-|[]].
  - by intros [<-|[]].
  - done.
  - done.
Qed.
End ConcentrationFacts.

(** C6.  [total_amount] is the sum of all amounts of the batch and a
    vendor's total the sum of its own amounts, both as the runtime adds
    them up.  If the amounts are non-negative and [total_amount] is zero
    (an empty batch, or amounts that are all zero) the detector returns
    the empty list.  If [total_amount] is not zero, a vendor [v] of the
    batch gets a record exactly when the runtime's quotient of its total
    by [total_amount] is strictly above [concentration_threshold]; that
    record is of type VendorConcentration and its risk score is
    [min(95, 60 + concentration * 100)], the sum and the product being the
    runtime's. *)
Theorem vendor_concentration_spec {rt : Numerics} (self : Analyzer)
    (concentration_threshold : Q) :
  let l := rows (df self) in
  let total_amount := fsum (map r_amount l) in
  let out := (detect_vendor_concentration concentration_threshold self).1 in
  ((forall r, In r l -> (0 <= r_amount r)%Q) ->
   (total_amount == 0)%Q -> out = [])
  /\ (~ (total_amount == 0)%Q ->
      forall v, In v (map r_vendor l) ->
        let concentration :=
          fquot (fgroup_sum (vendor_amounts v l)) total_amount in
        ((exists a, In a out /\ vendor a = v)
         <-> (concentration_threshold < concentration)%Q)
        /\ (forall a, In a out -> vendor a = v ->
              anomaly_type a = VendorConcentration
              /\ risk_score a = Qmin 95 (fadd 60 (fmul concentration 100)))).
Proof.
  intros l total_amount out.
  assert (out = vendor_concentration concentration_threshold l) as ->
    by reflexivity.
  split.
  - intros Hnonneg Hzero.
    assert (forall x, In x (map r_amount l) -> (x == 0)%Q) as Hall.
    { apply fsum_zero; [|exact Hzero].
      intros x (r & <- & Hr)%in_map_iff. by apply Hnonneg. }
    destruct (vendor_concentration concentration_threshold l) as [|a out]
      eqn:E; [done|].
    assert (In a (vendor_concentration concentration_threshold l)) as Ha
      by (rewrite E; by left).
    apply vendor_concentration_In in Ha as (v & t & Hin & Ha).
    fold l total_amount in Ha.
    assert (t == 0)%Q as Ht.
    { apply vendor_totals_In in Hin as [-> _]. apply fgroup_sum_zero.
      intros x (r & Hr & <-)%vendor_amounts_In.
      apply Hall. by apply in_map. }
    unfold concentration_of_vendor in Ha. simpl in Ha.
    by rewrite (fdiv_zero_zero _ _ Ht Hzero) in Ha.
  - intros Hnz v Hv concentration.
    split; [split|].
    + intros (a & Ha & Hva).
      apply vendor_concentration_In in Ha as (v' & t' & Hin' & Ha).
      apply concentration_of_vendor_In in Ha as [Hlt ->]; [|done].
      simpl in Hva. subst v'. by apply vendor_totals_In in Hin' as [-> _].
    + intros Hlt. eexists. split.
      * apply vendor_concentration_In.
        exists v, (fgroup_sum (vendor_amounts v l)).
        split; [by apply vendor_totals_In|].
        apply concentration_of_vendor_In; [done|]. split; [exact Hlt|].
        reflexivity.
      * reflexivity.
    + intros a Ha Hva.
      apply vendor_concentration_In in Ha as (v' & t' & Hin' & Ha).
      apply concentration_of_vendor_In in Ha as [Hlt ->]; [|done].
      simpl in Hva. subst v'. apply vendor_totals_In in Hin' as [-> _].
      by split.
Qed.

Lemma vendor_concentration_spec_witness :
  exists a,
    In a (detect_vendor_concentration (rt := exact_numerics) (3 # 10)
            (new_analyzer 3 5 concentration_batch)).1
    /\ vendor a = "Acme".
Proof.
  destruct (vendor_concentration_spec (rt := exact_numerics)
              (new_analyzer 3 5 concentration_batch) (3 # 10))
    as [_ Hpos].
  destruct (Hpos ltac:(vm_compute; discriminate) "Acme"
              ltac:(vm_compute; tauto)) as [Hiff _].
  apply Hiff. vm_compute. reflexivity.
Defined.

(** ** Risk scores lie in [0, 100] (C7) *)

Section ScoreFacts.
Context {rt : Numerics}.

Lemma statistical_outliers_scores (stats : gmap string Stats) (l : list Row) :
  Forall (score_within 0 100) (statistical_outliers stats l).
Proof.
  apply Forall_forall. intros a Ha%list_elem_of_In.
  apply statistical_outliers_In in Ha
    as (i & r & st & t & _ & _ & _ & _ & ->).
  unfold score_within. rewrite outlier_risk_score. split.
  - apply Q.min_glb; [done|apply Q.le_max_l].
  - apply Q.le_min_l.
Qed.

Lemma round_dollar_patterns_scores (l : list Row) :
  Forall (score_within 0 100) (round_dollar_patterns l).
Proof.
  apply Forall_forall. intros a Ha%list_elem_of_In.
  unfold round_dollar_patterns in Ha.
  apply in_flat_map in Ha as ([i r] & _ & Ha).
  unfold patterns_of_row in Ha. cbn [fst snd] in Ha.
  apply in_app_or in Ha as [Ha|Ha].
  - destruct (is_round_dollar (r_amount r)) eqn:E; [|done].
    destruct Ha as [<-|[]].
    unfold is_round_dollar in E. apply andb_true_iff in E as [_ E].
    apply Qle_bool_iff in E.
    unfold score_within. simpl. split.
    + apply Q.min_glb; [done|].
      assert (0 <= r_amount r / 10000)%Q; [|lra].
      apply Qle_shift_div_l; [done|lra].
    + eapply Qle_trans; [apply Q.le_min_l|done].
  - rewrite evasion_loop_find in Ha.
    destruct (List.find (in_window (r_amount r)) thresholds); [|done].
    destruct Ha as [<-|[]]. by split.
Qed.

Lemma frequency_spikes_scores (l : list Row) :
  Forall (score_within 0 100) (frequency_spikes l (period_column l)).
Proof.
  apply Forall_forall. intros a Ha%list_elem_of_In.
  apply frequency_spikes_In in Ha as (v & Ha).
  apply spikes_of_vendor_In in Ha
    as (_ & s & p & c & _ & Hpos & _ & Hsp & ->).
  apply is_spike_spec in Hsp as [Hgt _].
  unfold score_within. simpl. split.
  - apply Q.min_glb; [done|]. lra.
  - eapply Qle_trans; [apply Q.le_min_l|done].
Qed.

Lemma vendor_concentration_scores (thr : Q) (l : list Row) :
  (forall r, In r l -> (0 <= r_amount r)%Q) ->
  Forall (score_within 0 100) (vendor_concentration thr l).
Proof.
  intros Hnonneg. apply Forall_forall. intros a Ha%list_elem_of_In.
  apply vendor_concentration_In in Ha as (v & t & Hin & Ha).
  assert (0 <= t)%Q as Ht by (by eapply vendor_totals_nonneg).
  assert (0 <= fsum (map r_amount l))%Q as Htotal.
  { apply fsum_nonneg. intros x (r & <- & Hr)%in_map_iff.
    by apply Hnonneg. }
  unfold concentration_of_vendor in Ha. simpl in Ha.
  unfold fdiv in Ha.
  destruct (Qeq_bool (fsum (map r_amount l)) 0) eqn:E.
  - destruct (Qltb 0 t); [|by destruct (Qltb t 0)].
    destruct Ha as [<-|[]]. by split.
  - destruct (Qltb thr _); [|done]. destruct Ha as [<-|[]].
    assert (~ (fsum (map r_amount l) == 0)%Q) as Hnz.
    { intros Hz. apply Qeq_bool_iff in Hz. congruence. }
    assert (0 < fsum (map r_amount l))%Q as Hpos.
    { destruct (Qlt_le_dec 0 (fsum (map r_amount l))); [done|].
      exfalso. apply Hnz. by apply Qle_antisym. }
    unfold score_within. simpl. split.
    + apply Q.min_glb; [done|].
      apply fadd_nonneg; [done|].
      apply fmul_nonneg; [|done]. by apply fquot_nonneg.
    + eapply Qle_trans; [apply Q.le_min_l|done].
Qed.
End ScoreFacts.

(** C7.  On a batch whose amounts are non-negative, every record of each
    of the four detectors, run for any concentration threshold, has a
    risk score between 0 and 100, and so has every record returned by
    [run_full_analysis]. *)
Theorem risk_score_bounds {rt : Numerics} (self : Analyzer)
    (concentration_threshold : Q) :
  (forall r, In r (rows (df self)) -> (0 <= r_amount r)%Q) ->
  Forall (score_within 0 100) (detect_statistical_outliers self).1
  /\ Forall (score_within 0 100) (detect_round_dollar_patterns self).1
  /\ Forall (score_within 0 100) (detect_frequency_anomalies self).1
  /\ Forall (score_within 0 100)
       (detect_vendor_concentration concentration_threshold self).1
  /\ Forall (score_within 0 100) (run_full_analysis self).1.
Proof.
  intros Hnonneg.
  split; [apply statistical_outliers_scores|].
  split; [apply round_dollar_patterns_scores|].
  split; [apply frequency_spikes_scores|].
  split; [by apply vendor_concentration_scores|].
  assert ((run_full_analysis self).1
          = py_sort_desc risk_score
              (((statistical_outliers
                   (compute_stats (sigma_threshold self)
                      (min_transactions self) (rows (df self)))
                   (rows (df self))
                 ++ round_dollar_patterns (rows (df self)))
                ++ frequency_spikes (rows (df self))
                     (period_column (rows (df self))))
               ++ vendor_concentration (3 # 10) (rows (df self)))) as ->
    by reflexivity.
  rewrite <- py_sort_desc_perm. rewrite !Forall_app.
  split; [split; [split|]|].
  - apply statistical_outliers_scores.
  - apply round_dollar_patterns_scores.
  - apply frequency_spikes_scores.
  - by apply vendor_concentration_scores.
Qed.

Lemma risk_score_bounds_witness :
  Forall (score_within 0 100)
    (run_full_analysis (rt := exact_numerics)
       (new_analyzer 2 5 outlier_batch)).1.
Proof.
  apply (risk_score_bounds (rt := exact_numerics)
           (new_analyzer 2 5 outlier_batch) (3 # 10)).
  intros r Hr. vm_compute in Hr.
  repeat (destruct Hr as [<-|Hr]; [vm_compute; discriminate|]).
  destruct Hr.
Defined.

(** ** The empty batch (C8) *)

(** C8.  On a batch without rows the statistics are empty, and each of the
    four detectors and [run_full_analysis] return the empty list. *)
Theorem empty_batch {rt : Numerics} (self : Analyzer)
    (concentration_threshold : Q) :
  rows (df self) = [] ->
  (compute_vendor_statistics self).1 = ∅
  /\ (detect_statistical_outliers self).1 = []
  /\ (detect_round_dollar_patterns self).1 = []
  /\ (detect_frequency_anomalies self).1 = []
  /\ (detect_vendor_concentration concentration_threshold self).1 = []
  /\ (run_full_analysis self).1 = []
  /\ anomalies (run_full_analysis self).2 = [].
Proof.
  destruct self as [sigma m vs an [l ym]]. simpl. intros ->.
  repeat split; reflexivity.
Qed.

Lemma empty_batch_witness :
  (run_full_analysis (rt := exact_numerics) (new_analyzer 3 5 [])).1 = [].
Proof.
  apply (empty_batch (rt := exact_numerics) (new_analyzer 3 5 []) (3 # 10)).
  reflexivity.
Defined.

(** ** What the detectors write (C9) *)

(** C9, as stated, fails: [detect_frequency_anomalies] assigns the column
    ['year_month'] of the loaded frame, so the frame it leaves is not the
    frame it was given. *)
Lemma detect_frequency_anomalies_writes_df :
  year_month (df (new_analyzer 3 5 outlier_batch)) = None
  /\ year_month
       (df (detect_frequency_anomalies (rt := exact_numerics)
              (new_analyzer 3 5 outlier_batch)).2)
     = Some (period_column outlier_batch)
  /\ ~ leaves_batch_unchanged
         (detect_frequency_anomalies (rt := exact_numerics))
         (new_analyzer 3 5 outlier_batch).
Proof. repeat split; [reflexivity..|]. intros Heq. discriminate Heq. Qed.

(** C9, amended.  [detect_statistical_outliers],
    [detect_round_dollar_patterns] and [detect_vendor_concentration] leave
    the analyzer, and so its batch, as they found it.
    [detect_frequency_anomalies] keeps the rows and every other attribute
    but assigns the column ['year_month'], the month of each row; the
    output of each of the four detectors is the same after that assignment
    as before. *)
Theorem detectors_frame {rt : Numerics} (self : Analyzer)
    (concentration_threshold : Q) :
  (detect_statistical_outliers self).2 = self
  /\ (detect_round_dollar_patterns self).2 = self
  /\ (detect_vendor_concentration concentration_threshold self).2 = self
  /\ leaves_batch_unchanged detect_statistical_outliers self
  /\ leaves_batch_unchanged detect_round_dollar_patterns self
  /\ leaves_batch_unchanged
       (detect_vendor_concentration concentration_threshold) self
  /\ (let self' := (detect_frequency_anomalies self).2 in
      rows (df self') = rows (df self)
      /\ year_month (df self') = Some (period_column (rows (df self)))
      /\ sigma_threshold self' = sigma_threshold self
      /\ min_transactions self' = min_transactions self
      /\ vendor_stats self' = vendor_stats self
      /\ anomalies self' = anomalies self
      /\ (detect_statistical_outliers self').1
         = (detect_statistical_outliers self).1
      /\ (detect_round_dollar_patterns self').1
         = (detect_round_dollar_patterns self).1
      /\ (detect_frequency_anomalies self').1
         = (detect_frequency_anomalies self).1
      /\ (detect_vendor_concentration concentration_threshold self').1
         = (detect_vendor_concentration concentration_threshold self).1).
Proof. repeat split; reflexivity. Qed.

(** ** The worked examples of the specification *)

Example round_dollar_5000 :
  map (fun a => (anomaly_type a, Qred (risk_score a)))
    (patterns_of_row (rt := exact_numerics) 0 (txn "Acme" 5000 (day 2024 3 1)))
  = [(RoundDollarPattern, (81 # 2)%Q)].
Proof. vm_compute. reflexivity. Qed.

Example round_dollar_999_and_1050 :
  patterns_of_row (rt := exact_numerics) 0 (txn "Acme" 1050 (day 2024 3 1)) = []
  /\ map anomaly_type
       (patterns_of_row (rt := exact_numerics) 0
          (txn "Acme" 999 (day 2024 3 1)))
     = [ThresholdEvasion].
Proof. split; vm_compute; reflexivity. Qed.

Example threshold_evasion_4999 :
  map reason
    (patterns_of_row (rt := exact_numerics) 0 (txn "Acme" 4999 (day 2024 3 1)))
  = ["Amount $4,999.00 just under $5,000 threshold (possible approval evasion)"].
Proof. vm_compute. reflexivity. Qed.

Example threshold_evasion_4899 :
  patterns_of_row (rt := exact_numerics) 0 (txn "Acme" 4899 (day 2024 3 1)) = [].
Proof. vm_compute. reflexivity. Qed.

Example concentration_35_percent :
  map (fun a => (vendor a, risk_score a))
    (vendor_concentration (rt := exact_numerics) (3 # 10) concentration_batch)
  = [("Bolt", 95%Q); ("Acme", 95%Q)].
Proof. vm_compute. reflexivity. Qed.

(** Outside the data model: with a negative amount the total can be zero
    while a vendor's own total is positive; the quotient is then an
    infinity, which is above any threshold. *)
Example concentration_negative_amount :
  map (fun a => (vendor a, risk_score a))
    (vendor_concentration (rt := exact_numerics) (3 # 10)
       [txn "Acme" 100 (day 2024 1 5); txn "Bolt" (-100) (day 2024 1 6)])
  = [("Acme", 95%Q)].
Proof. vm_compute. reflexivity. Qed.

Example run_full_analysis_outlier_batch :
  map (fun a => (transaction_id a, anomaly_type a))
    (run_full_analysis (rt := exact_numerics)
       (new_analyzer 2 5 outlier_batch)).1
  = [("conc_Acme", VendorConcentration); ("txn_8", StatisticalOutlier);
     ("txn_8", RoundDollarPattern)].
Proof. vm_compute. reflexivity. Qed.

(** * Further properties of the analyzer *)

(** ** Statistics must be computed first *)

(** X1.  [detect_statistical_outliers] only reads [self.vendor_stats]: when
    no vendor of the batch is a key of it, as on an analyzer on which
    [compute_vendor_statistics] has not been called, the detector returns
    the empty list whatever the amounts are. *)
Theorem outliers_without_statistics {rt : Numerics} (self : Analyzer) :
  (forall r, In r (rows (df self)) -> vendor_stats self !! r_vendor r = None) ->
  (detect_statistical_outliers self).1 = [].
Proof.
  intros Hnone.
  destruct (detect_statistical_outliers self).1 as [|a out] eqn:E; [done|].
  assert (In a (statistical_outliers (vendor_stats self) (rows (df self))))
    as Ha by (change (In a (detect_statistical_outliers self).1);
              rewrite E; by left).
  apply statistical_outliers_In in Ha
    as (i & r & st & t & Hi & Hst & _).
  rewrite Hnone in Hst; [done|].
  apply list_elem_of_In. by eapply list_elem_of_lookup_2.
Qed.

Lemma outliers_without_statistics_witness :
  (detect_statistical_outliers (rt := exact_numerics)
     (new_analyzer 2 5 outlier_batch)).1 = []
  /\ (detect_statistical_outliers (rt := exact_numerics)
        (compute_vendor_statistics (rt := exact_numerics)
           (new_analyzer 2 5 outlier_batch)).2).1 <> [].
Proof.
  split.
  - apply (outliers_without_statistics (rt := exact_numerics)
             (new_analyzer 2 5 outlier_batch)).
    intros r _. apply lookup_empty.
  - vm_compute. discriminate.
Defined.

(** ** Running the analysis again *)

(** X2.  [run_full_analysis] recomputes the statistics and overwrites
    [self.anomalies]: its result depends on the configuration and the rows
    only, not on statistics, anomalies or a ['year_month'] column left by
    earlier calls.  In particular a second run on the same analyzer returns
    the same list and leaves the same analyzer. *)
Theorem run_full_analysis_rerun {rt : Numerics} (self other : Analyzer) :
  sigma_threshold other = sigma_threshold self ->
  min_transactions other = min_transactions self ->
  rows (df other) = rows (df self) ->
  (run_full_analysis other).1 = (run_full_analysis self).1
  /\ (run_full_analysis other).2 = (run_full_analysis self).2
  /\ (run_full_analysis (run_full_analysis self).2).1
     = (run_full_analysis self).1
  /\ (run_full_analysis (run_full_analysis self).2).2
     = (run_full_analysis self).2.
Proof.
  destruct self as [sigma m vs an [l ym]], other as [sigma' m' vs' an' [l' ym']].
  simpl. intros -> -> ->. repeat split; reflexivity.
Qed.

Lemma run_full_analysis_rerun_witness :
  (run_full_analysis (rt := exact_numerics)
     (detect_frequency_anomalies (rt := exact_numerics)
        (new_analyzer 2 5 outlier_batch)).2).1
  = (run_full_analysis (rt := exact_numerics)
       (new_analyzer 2 5 outlier_batch)).1.
Proof.
  apply (run_full_analysis_rerun (rt := exact_numerics)
           (new_analyzer 2 5 outlier_batch)
           (detect_frequency_anomalies (rt := exact_numerics)
              (new_analyzer 2 5 outlier_batch)).2);
    reflexivity.
Defined.

(** ** Round-dollar records *)

Lemma py_mod_100_zero (a : Q) :
  Qeq_bool (py_mod a 100) 0 = true <-> exists k : Z, (a == 100 * inject_Z k)%Q.
Proof.
  rewrite Qeq_bool_iff. unfold py_mod. split.
  - intros Hz. exists (Qfloor (a / 100)). lra.
  - intros (k & Hk).
    assert (a / 100 == inject_Z k)%Q as Hdiv by (rewrite Hk; field).
    rewrite (Qfloor_comp _ _ Hdiv), Qfloor_Z. lra.
Qed.

Lemma is_round_dollar_spec (a : Q) :
  is_round_dollar a = true
  <-> (exists k : Z, (a == 100 * inject_Z k)%Q) /\ (1000 <= a)%Q.
Proof.
  unfold is_round_dollar.
  by rewrite andb_true_iff, py_mod_100_zero, Qle_bool_iff.
Qed.

Section RoundDollarFacts.
Context {rt : Numerics}.

(** One record if the amount is round, one more if it evades a threshold. *)
Lemma patterns_of_row_length (i : nat) (r : Row) :
  length (patterns_of_row i r)
  = ((if is_round_dollar (r_amount r) then 1 else 0)
     + (if existsb (in_window (r_amount r)) thresholds then 1 else 0))%nat.
Proof.
  unfold patterns_of_row, thresholds. rewrite length_app.
  cbn [evasion_loop existsb].
  destruct (is_round_dollar (r_amount r)),
    (in_window (r_amount r) 1000), (in_window (r_amount r) 2500),
    (in_window (r_amount r) 5000), (in_window (r_amount r) 10000),
    (in_window (r_amount r) 25000), (in_window (r_amount r) 50000);
    reflexivity.
Qed.

Lemma patterns_length (irs : list (nat * Row)) :
  length (flat_map (fun ir => patterns_of_row ir.1 ir.2) irs)
  = (length (List.filter (fun r => is_round_dollar (r_amount r))
               (map snd irs))
     + length (List.filter
                 (fun r => existsb (in_window (r_amount r)) thresholds)
                 (map snd irs)))%nat.
Proof.
  induction irs as [|[i r] irs IH]; [reflexivity|].
  cbn [flat_map map List.filter fst snd].
  rewrite length_app, IH, patterns_of_row_length.
  destruct (is_round_dollar (r_amount r)),
    (existsb (in_window (r_amount r)) thresholds); simpl; lia.
Qed.
End RoundDollarFacts.

Lemma iterrows_rows (l : list Row) : map snd (iterrows l) = l.
Proof.
  unfold iterrows.
  assert (forall k, map snd (imap (fun i r => ((k + i)%nat, r)) l) = l) as H.
  { induction l as [|r l IH]; intros k; [reflexivity|].
    cbn [imap map snd]. f_equal. rewrite <- (IH (S k)) at 2. f_equal.
    apply imap_ext. intros j x _. simpl. f_equal. lia. }
  exact (H 0%nat).
Qed.

(** The thresholds that a round amount can lie 100 below. *)
Lemma round_and_evading (a : Q) :
  ((exists k : Z, (a == 100 * inject_Z k)%Q) /\ (1000 <= a)%Q)
  /\ (exists t, In t thresholds
                /\ (inject_Z t - 100 <= a)%Q /\ (a < inject_Z t)%Q)
  <-> exists t, In t [2500; 5000; 10000; 25000; 50000]%Z
                /\ (a == inject_Z t - 100)%Q.
Proof.
  split.
  - intros [[(k & Hk) Hfloor] (t & Hin & Hlo & Hhi)].
    rewrite Hk in Hfloor, Hlo, Hhi.
    assert (1000 <= 100 * k)%Z as Hk1
      by (unfold Qle in Hfloor; simpl in Hfloor; lia).
    unfold thresholds in Hin. simpl in Hin.
    destruct Hin as [<-|[<-|[<-|[<-|[<-|[<-|[]]]]]]];
      unfold Qle, Qlt in Hlo, Hhi; simpl in Hlo, Hhi.
    + lia.
    + exists 2500%Z. split; [simpl; tauto|]. rewrite Hk.
      assert (k = 24)%Z as -> by lia. reflexivity.
    + exists 5000%Z. split; [simpl; tauto|]. rewrite Hk.
      assert (k = 49)%Z as -> by lia. reflexivity.
    + exists 10000%Z. split; [simpl; tauto|]. rewrite Hk.
      assert (k = 99)%Z as -> by lia. reflexivity.
    + exists 25000%Z. split; [simpl; tauto|]. rewrite Hk.
      assert (k = 249)%Z as -> by lia. reflexivity.
    + exists 50000%Z. split; [simpl; tauto|]. rewrite Hk.
      assert (k = 499)%Z as -> by lia. reflexivity.
  - intros (t & Hin & Ht). simpl in Hin.
    destruct Hin as [<-|[<-|[<-|[<-|[<-|[]]]]]].
    + split; [split; [exists 24%Z|]|exists 2500%Z];
        rewrite Ht; repeat split; try done; simpl; tauto.
    + split; [split; [exists 49%Z|]|exists 5000%Z];
        rewrite Ht; repeat split; try done; simpl; tauto.
    + split; [split; [exists 99%Z|]|exists 10000%Z];
        rewrite Ht; repeat split; try done; simpl; tauto.
    + split; [split; [exists 249%Z|]|exists 25000%Z];
        rewrite Ht; repeat split; try done; simpl; tauto.
    + split; [split; [exists 499%Z|]|exists 50000%Z];
        rewrite Ht; repeat split; try done; simpl; tauto.
Qed.

(** X3.  Take any transaction [r] of the batch, at index [i], and the
    output of [detect_round_dollar_patterns].  It holds the
    RoundDollarPattern record of [r] exactly when the amount is an integer
    multiple of 100 and at least 1000; the risk score of that record lies
    above 40, never exceeds 85 and is 85 exactly from an amount of 450 000
    on.  The output holds both that record and a ThresholdEvasion record
    for the identifier and amount of [r] exactly when the amount is 100
    below one of the thresholds 2500, 5000, 10000, 25000, 50000.  The
    output has one record for each row with a round amount and one for
    each row that evades a threshold, so at most two for each row. *)
Theorem round_dollar_records {rt : Numerics} (self : Analyzer) (i : nat)
    (r : Row) :
  rows (df self) !! i = Some r ->
  let a := r_amount r in
  let l := rows (df self) in
  let out := (detect_round_dollar_patterns self).1 in
  let evades := exists b, In b out /\ anomaly_type b = ThresholdEvasion
                          /\ transaction_id b = row_id i r /\ amount b = a in
  (In (round_dollar_of i r) out
   <-> (exists k : Z, (a == 100 * inject_Z k)%Q) /\ (1000 <= a)%Q)
  /\ (In (round_dollar_of i r) out ->
      (40 < risk_score (round_dollar_of i r))%Q
      /\ (risk_score (round_dollar_of i r) <= 85)%Q
      /\ ((risk_score (round_dollar_of i r) == 85)%Q <-> (450000 <= a)%Q))
  /\ (In (round_dollar_of i r) out /\ evades
      <-> exists t, In t [2500; 5000; 10000; 25000; 50000]%Z
                    /\ (a == inject_Z t - 100)%Q)
  /\ length out
     = (length (List.filter (fun r' => is_round_dollar (r_amount r')) l)
        + length (List.filter
                    (fun r' => existsb (in_window (r_amount r')) thresholds)
                    l))%nat
  /\ (length out <= 2 * length l)%nat.
Proof.
  intros Hi a l out evades.
  assert (out = round_dollar_patterns l) as Hout by reflexivity.
  assert (In (round_dollar_of i r) out
          <-> (exists k : Z, (a == 100 * inject_Z k)%Q) /\ (1000 <= a)%Q)
    as Hround.
  { rewrite <- is_round_dollar_spec, Hout, round_dollar_patterns_In. split.
    - intros (j & r' & _ & [[Hr Heq]|(t & _ & Heq)]); [|done].
      assert (r_amount r = r_amount r') as Ha by exact (f_equal amount Heq).
      unfold a. by rewrite Ha.
    - intros Hr. exists i, r. split; [done|]. by left. }
  assert (evades
          <-> exists t, In t thresholds
                        /\ (inject_Z t - 100 <= a)%Q /\ (a < inject_Z t)%Q)
    as Hev.
  { unfold evades. rewrite Hout. split.
    - intros (b & Hb & Hty & _ & Ham).
      apply round_dollar_patterns_In in Hb
        as (j & r' & _ & [[_ ->]|(t & Ht & ->)]); [done|].
      apply find_some in Ht as [Hin Hw]. simpl in Ham.
      exists t. split; [done|]. rewrite <- Ham. by apply in_window_spec.
    - intros (t & Hin & Hw).
      destruct (List.find (in_window (r_amount r)) thresholds) as [t0|] eqn:E.
      + exists (evasion_of i r t0). split; [|done].
        apply round_dollar_patterns_In.
        exists i, r. split; [done|]. right. by exists t0.
      + pose proof (find_none _ _ E t Hin) as Hf.
        apply in_window_spec in Hw. unfold a in Hw. congruence. }
  assert (length out
          = (length (List.filter (fun r' => is_round_dollar (r_amount r')) l)
             + length (List.filter
                         (fun r' => existsb (in_window (r_amount r'))
                                      thresholds) l))%nat) as Hlen.
  { rewrite Hout. unfold round_dollar_patterns.
    by rewrite patterns_length, iterrows_rows. }
  split; [exact Hround|]. split; [|split; [|split; [exact Hlen|]]].
  - intros [_ Hfloor]%Hround. simpl. fold a.
    assert ((1 # 10) <= a / 10000)%Q as Hdiv
      by (apply Qle_shift_div_l; [done|lra]).
    split; [|split].
    + apply Q.min_glb_lt; [done|]. lra.
    + apply Q.le_min_l.
    + rewrite Q.min_l_iff. split.
      * intros Hle. assert (45 <= a / 10000)%Q as H45 by lra.
        apply (Qmult_le_compat_r _ _ 10000) in H45; [|done].
        assert (a / 10000 * 10000 == a)%Q as Hfield by field.
        lra.
      * intros Hle. assert (45 <= a / 10000)%Q; [|lra].
        apply Qle_shift_div_l; [done|lra].
  - rewrite Hround, Hev. apply round_and_evading.
  - rewrite Hlen.
    pose proof (List.filter_length_le
                  (fun r' => is_round_dollar (r_amount r')) l).
    pose proof (List.filter_length_le
                  (fun r' => existsb (in_window (r_amount r')) thresholds) l).
    lia.
Qed.

Lemma round_dollar_records_witness :
  In (round_dollar_of (rt := exact_numerics) 1
        (txn "Acme" 2400 (day 2024 3 1)))
     (detect_round_dollar_patterns (rt := exact_numerics)
        (new_analyzer 3 5 [txn "Acme" 120 (day 2024 2 1);
                           txn "Acme" 2400 (day 2024 3 1)])).1
  /\ exists b,
       In b (detect_round_dollar_patterns (rt := exact_numerics)
               (new_analyzer 3 5 [txn "Acme" 120 (day 2024 2 1);
                                  txn "Acme" 2400 (day 2024 3 1)])).1
       /\ anomaly_type b = ThresholdEvasion
       /\ transaction_id b = "txn_1"
       /\ amount b = 2400%Q.
Proof.
  destruct (round_dollar_records (rt := exact_numerics)
              (new_analyzer 3 5 [txn "Acme" 120 (day 2024 2 1);
                                 txn "Acme" 2400 (day 2024 3 1)])
              1 (txn "Acme" 2400 (day 2024 3 1)) eq_refl)
    as (_ & _ & Hboth & _).
  apply Hboth. exists 2500%Z. split; [simpl; tauto|reflexivity].
Defined.

(** ** Vendors with too few rows *)

Lemma stats_of_single {rt : Numerics} (sigma : Q) (vendor_data : list Q) :
  (length vendor_data < 2)%nat ->
  st_std (stats_of sigma vendor_data) = None
  /\ st_threshold_3sigma (stats_of sigma vendor_data) = None.
Proof.
  intros Hlen. unfold stats_of, float_std. simpl.
  by rewrite (proj2 (Nat.ltb_lt _ _) Hlen).
Qed.

(** X4.  Statistics are computed, then outliers detected.  A vendor with
    fewer than two rows, or with fewer than [min_transactions] rows, gets
    no outlier record, whatever its amounts: below [min_transactions] it
    is not a key of [vendor_stats]; and when [min_transactions] lets a
    vendor with a single row through, the standard deviation and the
    threshold stored for it are NaN, which no amount exceeds. *)
Theorem thin_vendor_not_flagged {rt : Numerics} (self : Analyzer)
    (v : string) :
  let n := length (vendor_amounts v (rows (df self))) in
  let self' := (compute_vendor_statistics self).2 in
  (n < 2)%nat \/ (Z.of_nat n < min_transactions self)%Z ->
  (forall st, vendor_stats self' !! v = Some st ->
     n = 1%nat /\ st_count st = 1%nat
     /\ st_std st = None /\ st_threshold_3sigma st = None)
  /\ (forall a, In a (detect_statistical_outliers self').1 -> vendor a <> v).
Proof.
  intros n self' Hthin.
  assert (vendor_stats self'
          = compute_stats (sigma_threshold self) (min_transactions self)
              (rows (df self))) as Hvs by reflexivity.
  assert (forall st, vendor_stats self' !! v = Some st ->
            n = 1%nat /\ st_count st = 1%nat
            /\ st_std st = None /\ st_threshold_3sigma st = None) as Hst.
  { intros st. rewrite Hvs, compute_stats_lookup. fold n.
    destruct (decide _) as [[Hv Hm]|]; [|done]. intros [= <-].
    assert (n <> 0)%nat as Hn0.
    { unfold n. intros Hz. apply length_zero_iff_nil in Hz. revert Hz.
      by apply vendor_amounts_nonempty, list_elem_of_In. }
    assert (n < 2)%nat as Hn2 by (destruct Hthin; lia).
    split; [lia|]. split; [simpl; fold n; lia|].
    by apply stats_of_single. }
  split; [exact Hst|].
  intros a Ha Hv.
  assert (In a (statistical_outliers (vendor_stats self') (rows (df self))))
    as Ha' by exact Ha.
  apply statistical_outliers_In in Ha'
    as (i & r & st & t & _ & Hlook & Ht & _ & ->).
  simpl in Hv. rewrite Hv in Hlook.
  destruct (Hst st Hlook) as (_ & _ & _ & Hnan). congruence.
Qed.

Lemma thin_vendor_not_flagged_witness :
  let out :=
    (detect_statistical_outliers (rt := exact_numerics)
       (compute_vendor_statistics (rt := exact_numerics)
          (new_analyzer 2 1 (txn "Solo" 900000 (day 2024 3 2)
                             :: outlier_batch))).2).1 in
  Forall (fun a => vendor a <> "Solo") out
  /\ map (fun a => (vendor a, amount a)) out = [("Acme", 1000%Q)].
Proof.
  split; [|vm_compute; reflexivity].
  apply Forall_forall. intros a Ha%list_elem_of_In.
  apply (thin_vendor_not_flagged (rt := exact_numerics)
           (new_analyzer 2 1 (txn "Solo" 900000 (day 2024 3 2)
                              :: outlier_batch)) "Solo");
    [|exact Ha].
  left. vm_compute. lia.
Defined.

(** ** The frequency detector needs six months of history *)

Lemma series_sum_app (xs ys : list Q) :
  (series_sum (xs ++ ys) == series_sum xs + series_sum ys)%Q.
Proof.
  induction xs as [|x xs IH]; simpl; [lra|]. rewrite IH. lra.
Qed.

Lemma series_sum_nonneg_squares (l : list Q) :
  (0 <= series_sum (map (fun y => y * y) l))%Q.
Proof.
  apply series_sum_nonneg. intros y (x & <- & _)%in_map_iff.
  destruct x as [n p]. unfold Qle. simpl. nia.
Qed.

Lemma Qlen_cons (x : Q) (l : list Q) : (Qlen (x :: l) == 1 + Qlen l)%Q.
Proof.
  unfold Qlen. cbn [length]. rewrite Nat2Z.inj_succ, <- Z.add_1_l,
    inject_Z_plus. reflexivity.
Qed.

Lemma Qlen_nonneg (l : list Q) : (0 <= Qlen l)%Q.
Proof. unfold Qlen, Qle. simpl. lia. Qed.

Lemma Qlen_app (xs ys : list Q) : (Qlen (xs ++ ys) == Qlen xs + Qlen ys)%Q.
Proof.
  unfold Qlen. rewrite length_app, Nat2Z.inj_add, inject_Z_plus. reflexivity.
Qed.

Lemma Qlen_of_length (l : list Q) (n : nat) :
  length l = n -> (Qlen l == inject_Z (Z.of_nat n))%Q.
Proof. intros <-. reflexivity. Qed.

(** The square of a sum is at most the number of terms times the sum of
    the squares. *)
Lemma sum_square_le (l : list Q) :
  (series_sum l * series_sum l
   <= Qlen l * series_sum (map (fun y => y * y) l))%Q.
Proof.
  induction l as [|a l IH].
  - change (0 * 0 <= 0 * 0)%Q. lra.
  - rewrite Qlen_cons. cbn [map series_sum foldr]. fold (series_sum l).
    fold (series_sum (map (fun y => y * y)%Q l)).
    pose proof (series_sum_nonneg_squares l) as Hq.
    pose proof (Qlen_nonneg l) as Hn.
    set (s := series_sum l) in *.
    set (q := series_sum (map (fun y => (y * y)%Q) l)) in *.
    set (n := Qlen l) in *.
    assert (0 <= (a - s) * (a - s))%Q as H1
      by (destruct (a - s)%Q as [u p]; unfold Qle; simpl; nia).
    destruct l as [|b l'].
    + assert (s == 0)%Q as Hs by reflexivity.
      assert (q == 0)%Q as Hq0 by reflexivity.
      assert (n == 0)%Q as Hn0 by reflexivity.
      rewrite Hs, Hq0, Hn0. lra.
    + assert (1 <= n)%Q as Hn1.
      { unfold n. rewrite Qlen_cons. pose proof (Qlen_nonneg l'). lra. }
      assert (0 <= (n * a - s) * (n * a - s))%Q as H2
        by (destruct (n * a - s)%Q as [u p]; unfold Qle; simpl; nia).
      assert (0 <= n * (n * (a * a) - 2 * (a * s) + q))%Q as H3.
      { assert (n * (n * (a * a) - 2 * (a * s) + q)
                == (n * a - s) * (n * a - s) + (n * q - s * s))%Q as ->
          by ring.
        lra. }
      assert (0 <= n * (a * a) - 2 * (a * s) + q)%Q as H4.
      { destruct (Qlt_le_dec (n * (a * a) - 2 * (a * s) + q) 0) as [Hneg|];
          [|done].
        exfalso.
        assert (n * (n * (a * a) - 2 * (a * s) + q)
                <= 1 * (n * (a * a) - 2 * (a * s) + q))%Q; [|lra].
        set (e := (n * (a * a) - 2 * (a * s) + q)%Q) in *.
        assert (0 <= (n - 1) * (- e))%Q
          by (apply Qmult_le_0_compat; lra).
        lra. }
      assert ((a + s) * (a + s)
              == a * a + 2 * (a * s) + s * s)%Q as -> by ring.
      assert ((1 + n) * (a * a + q)
              == (a * a + 2 * (a * s) + s * s)
                 + (n * (a * a) - 2 * (a * s) + q) + (n * q - s * s))%Q
        as -> by ring.
      lra.
Qed.

Lemma series_sum_deviations (m : Q) (l : list Q) :
  (series_sum (map (fun y => y - m) l) == series_sum l - Qlen l * m)%Q.
Proof.
  induction l as [|a l IH].
  - change (0 == 0 - 0 * m)%Q. lra.
  - rewrite Qlen_cons. cbn [map series_sum foldr].
    fold (series_sum (map (fun y => (y - m)%Q) l)). fold (series_sum l).
    rewrite IH. ring.
Qed.

Lemma map_squares (m : Q) (l : list Q) :
  map (fun y => y * y)%Q (map (fun y => y - m)%Q l)
  = map (fun y => (y - m) * (y - m))%Q l.
Proof. by rewrite map_map. Qed.

(** No observation lies further from the mean than the others allow:
    [n * (x - mean)^2 <= (n - 1) * sum of the squared deviations]. *)
Lemma deviation_bound (l : list Q) (x : Q) :
  In x l ->
  let m := series_mean l in
  (Qlen l * ((x - m) * (x - m))
   <= (Qlen l - 1) * series_sum (map (fun y => (y - m) * (y - m)) l))%Q.
Proof.
  intros Hin m.
  assert (0 < Qlen l)%Q as Hn.
  { destruct l as [|a l]; [done|]. rewrite Qlen_cons.
    pose proof (Qlen_nonneg l). lra. }
  assert (series_sum (map (fun y => y - m) l) == 0)%Q as Hzero.
  { rewrite series_sum_deviations. unfold m, series_mean. field. lra. }
  apply in_split in Hin as (l1 & l2 & ->).
  set (o := l1 ++ l2).
  assert (Qlen (l1 ++ x :: l2) == 1 + Qlen o)%Q as Hlen.
  { unfold o. rewrite !Qlen_app, Qlen_cons. lra. }
  assert (series_sum (map (fun y => y - m) (l1 ++ x :: l2))
          == (x - m) + series_sum (map (fun y => y - m) o))%Q as Hdev.
  { unfold o. rewrite !map_app, !series_sum_app. cbn [map series_sum foldr].
    fold (series_sum (map (fun y => (y - m)%Q) l2)). lra. }
  assert (series_sum (map (fun y => (y - m) * (y - m)) (l1 ++ x :: l2))
          == (x - m) * (x - m)
             + series_sum (map (fun y => (y - m) * (y - m)) o))%Q as Hsq.
  { unfold o. rewrite !map_app, !series_sum_app. cbn [map series_sum foldr].
    fold (series_sum (map (fun y => ((y - m) * (y - m))%Q) l2)). lra. }
  pose proof (sum_square_le (map (fun y => (y - m)%Q) o)) as Hcs.
  rewrite map_squares in Hcs.
  assert (Qlen (map (fun y => (y - m)%Q) o) == Qlen o)%Q as Hlo
    by (unfold Qlen; by rewrite length_map).
  rewrite Hlo in Hcs. rewrite Hdev in Hzero.
  rewrite Hlen, Hsq.
  set (d := (x - m)%Q) in *.
  set (D := series_sum (map (fun y => (y - m)%Q) o)) in *.
  set (S := series_sum (map (fun y => ((y - m) * (y - m))%Q) o)) in *.
  set (n := Qlen o) in *.
  assert (D == - d)%Q as HD by lra.
  assert (D * D == d * d)%Q as HDD by (rewrite HD; ring).
  rewrite HDD in Hcs.
  assert ((1 + n) * (d * d) == d * d + n * (d * d))%Q as -> by ring.
  assert ((1 + n - 1) * (d * d + S) == n * (d * d) + n * S)%Q as -> by ring.
  lra.
Qed.

(** X5.  Let the standard deviation [s] that the runtime returns for a
    vendor's monthly counts be non-negative with [s * s] at least four
    fifths of their sample variance (as it is for any square root that
    reaches nine tenths of the exact one).  If the vendor has rows in at
    most five
    distinct months, [detect_frequency_anomalies] emits no record for it,
    however large one month's count is: the guard of three months lets the
    vendor through, but among five counts or fewer none lies more than
    4 / sqrt 5 (about 1.79) sample standard deviations above their mean,
    and the detector asks for more than two. *)
Theorem frequency_needs_six_months {rt : Numerics} (self : Analyzer)
    (v : string) :
  let l := rows (df self) in
  let mc := monthly_counts l (period_column l) in
  let vendor_monthly :=
    map (fun e => Qnat e.2) (filter (fun e => e.1.1 = v) mc) in
  let months :=
    length (remove_dups (period_column (filter (fun r => r_vendor r = v) l))) in
  (months <= 5)%nat ->
  (forall s, series_std vendor_monthly = Some s ->
             (0 <= s)%Q /\ ((4 # 5) * series_var vendor_monthly <= s * s)%Q) ->
  forall a, In a (detect_frequency_anomalies self).1 -> vendor a <> v.
Proof.
  intros l mc vendor_monthly months Hmonths Hsqrt a Ha Hv.
  assert (In a (frequency_spikes l (period_column l))) as Ha' by exact Ha.
  apply frequency_spikes_In in Ha' as (v' & Ha').
  apply spikes_of_vendor_In in Ha'.
  destruct Ha' as (Hlen & s & p & c & Hstd & Hpos & Hin & Hsp & ->).
  simpl in Hv. subst v'. fold mc in Hin.
  assert (series_std vendor_monthly = Some s) as Hstd' by exact Hstd.
  assert (is_spike (series_mean vendor_monthly) s c = true) as Hsp'
    by exact Hsp.
  assert (length vendor_monthly = months) as Hlm.
  { unfold vendor_monthly. rewrite length_map. apply vendor_months_length. }
  assert (3 <= length vendor_monthly)%nat as Hlen' by exact Hlen.
  apply is_spike_spec in Hsp' as [Hgt _].
  destruct (Hsqrt s Hstd') as [Hs0 Hvar].
  assert (In (Qnat c) vendor_monthly) as Hc.
  { unfold vendor_monthly.
    apply (in_map (fun e : string * Period * nat => Qnat e.2) _ (v, p, c)).
    apply list_elem_of_In, list_elem_of_filter.
    by rewrite list_elem_of_In. }
  pose proof (deviation_bound vendor_monthly (Qnat c) Hc) as Hdev.
  cbv zeta in Hdev.
  assert (series_sum
            (map (fun y => (y - series_mean vendor_monthly)
                           * (y - series_mean vendor_monthly))
               vendor_monthly)
          == series_var vendor_monthly * (Qlen vendor_monthly - 1))%Q as HS.
  { unfold series_var. cbv zeta. field.
    unfold Qlen.
    assert (inject_Z 3 <= inject_Z (Z.of_nat (length vendor_monthly)))%Q
      by (rewrite <- Zle_Qle; lia).
    assert (inject_Z 3 == 3)%Q by reflexivity. lra. }
  rewrite HS in Hdev.
  set (m := series_mean vendor_monthly) in *.
  set (var := series_var vendor_monthly) in *.
  set (d := (Qnat c - m)%Q) in *.
  assert (2 * s < d)%Q as Hd by (unfold d; lra).
  assert (4 * (s * s) < d * d)%Q as Hdd.
  { assert (0 < d - 2 * s)%Q as H1 by lra.
    assert (0 <= (d - 2 * s) * (d - 2 * s + 4 * s))%Q as H2
      by (apply Qmult_le_0_compat; lra).
    assert (0 < (d - 2 * s) * (d - 2 * s))%Q as H3
      by (apply Qmult_lt_0_compat; lra).
    assert ((d - 2 * s) * (d - 2 * s + 4 * s) == d * d - 4 * (s * s))%Q
      as H4 by ring.
    assert (0 <= 4 * s * (d - 2 * s))%Q
      by (apply Qmult_le_0_compat; lra).
    assert (d * d - 4 * (s * s)
            == (d - 2 * s) * (d - 2 * s) + 4 * s * (d - 2 * s))%Q by ring.
    lra. }
  assert (0 <= s * s)%Q as Hss by (by apply Qmult_le_0_compat).
  assert (length vendor_monthly = 3 \/ length vendor_monthly = 4
          \/ length vendor_monthly = 5)%nat as Hcases by lia.
  destruct Hcases as [H3|[H4|H5]].
  - rewrite (Qlen_of_length _ _ H3) in Hdev.
    change (inject_Z (Z.of_nat 3)) with 3%Q in Hdev. lra.
  - rewrite (Qlen_of_length _ _ H4) in Hdev.
    change (inject_Z (Z.of_nat 4)) with 4%Q in Hdev. lra.
  - rewrite (Qlen_of_length _ _ H5) in Hdev.
    change (inject_Z (Z.of_nat 5)) with 5%Q in Hdev. lra.
Qed.

Lemma frequency_needs_six_months_witness :
  Forall (fun a => vendor a <> "Acme")
    (detect_frequency_anomalies (rt := exact_numerics)
       (new_analyzer 3 5 quarter_batch)).1
  /\ map vendor
       (detect_frequency_anomalies (rt := exact_numerics)
          (new_analyzer 3 5 spike_batch)).1 = ["Acme"].
Proof.
  split; [|vm_compute; reflexivity].
  apply Forall_forall. intros a Ha%list_elem_of_In.
  apply (frequency_needs_six_months (rt := exact_numerics)
           (new_analyzer 3 5 quarter_batch) "Acme"); [| |exact Ha].
  - vm_compute. lia.
  - intros s Hs. vm_compute in Hs. injection Hs as <-.
    split; vm_compute; discriminate.
Defined.

Example quarter_batch_counts :
  map snd (monthly_counts quarter_batch (period_column quarter_batch))
  = [10; 10; 10; 50]%nat
  /\ (detect_frequency_anomalies (rt := exact_numerics)
        (new_analyzer 3 5 quarter_batch)).1 = [].
Proof. split; vm_compute; reflexivity. Qed.

(** ** The records of the concentration detector *)

Section ConcentrationRecords.
Context {rt : Numerics}.

Lemma concentration_vendors_NoDup (total thr : Q) (L : list (string * Q)) :
  NoDup (map fst L) ->
  NoDup (map vendor (flat_map (concentration_of_vendor total thr) L)).
Proof.
  induction L as [|[v t] L IH]; simpl; [constructor|].
  intros Hnd. apply NoDup_cons in Hnd as [Hv Hnd].
  destruct (concentration_of_vendor total thr (v, t)) as [|a rest] eqn:E;
    [by apply IH|].
  destruct (concentration_of_vendor_fields total thr (v, t) a)
    as (Hva & _ & _ & Hone); [rewrite E; by left|].
  rewrite E in Hone. injection Hone as ->.
  simpl. rewrite Hva. constructor; [|by apply IH].
  intros Hin. apply Hv.
  apply list_elem_of_In, in_map_iff in Hin as (b & Hb & Hin).
  apply in_flat_map in Hin as (vt & Hin & Hb').
  apply concentration_of_vendor_fields in Hb' as (Hvb & _).
  apply list_elem_of_In, in_map_iff.
  exists vt. split; [simpl in *; congruence|done].
Qed.

Lemma concentration_sorted (total thr : Q) (L : list (string * Q)) :
  StronglySorted (fun x y => (y.2 <= x.2)%Q) L ->
  StronglySorted (fun a b => (amount b <= amount a)%Q)
    (flat_map (concentration_of_vendor total thr) L).
Proof.
  induction 1 as [|[v t] L Hs IH Hall]; simpl; [constructor|].
  destruct (concentration_of_vendor total thr (v, t)) as [|a rest] eqn:E;
    [exact IH|].
  destruct (concentration_of_vendor_fields total thr (v, t) a)
    as (_ & Hamt & _ & Hone); [rewrite E; by left|].
  rewrite E in Hone. injection Hone as ->.
  simpl. constructor; [exact IH|].
  apply Forall_forall. intros b Hb%list_elem_of_In.
  apply in_flat_map in Hb as (vt & Hin & Hb).
  apply concentration_of_vendor_fields in Hb as (_ & Hamt' & _).
  rewrite Hamt, Hamt'.
  rewrite Forall_forall in Hall.
  by apply (Hall vt), list_elem_of_In.
Qed.
End ConcentrationRecords.

(** X6.  For any batch and any threshold, the records of
    [detect_vendor_concentration] name vendors of the batch, at most one
    record for each, so that there are no more records than distinct
    vendors; each record carries the total of its vendor's amounts, as the
    runtime's group sum adds them up, under the identifier
    "conc_" + vendor; and the records come in descending order of that
    total.  When the total of the batch is zero, the division yields an
    infinity for every vendor whose own total is positive: exactly those
    vendors get a record, whatever the threshold, and its risk score is
    95. *)
Theorem concentration_records {rt : Numerics} (self : Analyzer)
    (concentration_threshold : Q) :
  let l := rows (df self) in
  let out := (detect_vendor_concentration concentration_threshold self).1 in
  NoDup (map vendor out)
  /\ (forall a, In a out ->
        In (vendor a) (map r_vendor l)
        /\ amount a = fgroup_sum (vendor_amounts (vendor a) l)
        /\ anomaly_type a = VendorConcentration
        /\ transaction_id a = "conc_" +:+ vendor a
        /\ date a = DateStr "Overall Period")
  /\ (length out <= length (unique (map r_vendor l)))%nat
  /\ StronglySorted (fun a b => (amount b <= amount a)%Q) out
  /\ ((fsum (map r_amount l) == 0)%Q ->
      forall v, In v (map r_vendor l) ->
        ((exists a, In a out /\ vendor a = v)
         <-> (0 < fgroup_sum (vendor_amounts v l))%Q)
        /\ (forall a, In a out -> vendor a = v -> risk_score a = 95%Q)).
Proof.
  intros l out.
  assert (out = vendor_concentration concentration_threshold l) as Hout
    by reflexivity.
  assert (NoDup (map vendor out)) as Hnd.
  { rewrite Hout. apply concentration_vendors_NoDup, vendor_totals_keys. }
  assert (forall a, In a out ->
            In (vendor a) (map r_vendor l)
            /\ amount a = fgroup_sum (vendor_amounts (vendor a) l)
            /\ anomaly_type a = VendorConcentration
            /\ transaction_id a = "conc_" +:+ vendor a
            /\ date a = DateStr "Overall Period") as Hrec.
  { intros a Ha. rewrite Hout in Ha.
    apply vendor_concentration_In in Ha as (v & t & Hin & Ha).
    pose proof (concentration_of_vendor_fields _ _ _ _ Ha)
      as (Hv & Ht & Hty & _).
    cbn [fst snd] in Hv, Ht. apply vendor_totals_In in Hin as [Hsum Hvin].
    rewrite Hv, Ht. split; [done|]. split; [done|]. split; [done|].
    unfold concentration_of_vendor in Ha. cbn [fst snd] in Ha.
    destruct (fdiv t _) as [c| | |]; [|by destruct Ha as [<-|[]]|done..].
    destruct (Qltb concentration_threshold c); [|done].
    by destruct Ha as [<-|[]]. }
  split; [exact Hnd|]. split; [exact Hrec|]. split; [|split].
  - rewrite <- (length_map vendor out). apply submseteq_length.
    apply NoDup_submseteq; [exact Hnd|].
    intros v (a & -> & Ha%list_elem_of_In)%list_elem_of_fmap.
    apply list_elem_of_In, unique_In. by apply Hrec.
  - rewrite Hout. apply concentration_sorted. unfold vendor_totals.
    apply py_sort_desc_sorted.
  - intros Hzero v Hv.
    assert (forall t a,
              In a (concentration_of_vendor (fsum (map r_amount l))
                      concentration_threshold (v, t))
              <-> (0 < t)%Q
                  /\ a = concentration_of v t (fsum (map r_amount l)) PInf 95)
      as Hinf.
    { intros t a. unfold concentration_of_vendor, fdiv. cbn [fst snd].
      rewrite (proj2 (Qeq_bool_iff _ 0) Hzero).
      destruct (Qltb 0 t) eqn:E.
      - apply Qltb_lt in E. simpl. intuition.
      - apply Qltb_ge in E. split.
        + by destruct (Qltb t 0).
        + intros [Hlt _]. exfalso. by apply (Qlt_not_le _ _ Hlt). }
    split; [split|].
    + intros (a & Ha & Hva). rewrite Hout in Ha.
      apply vendor_concentration_In in Ha as (v' & t & Hin & Ha).
      pose proof (concentration_of_vendor_fields _ _ _ _ Ha) as (Hv' & _).
      cbn [fst] in Hv'. assert (v' = v) as -> by congruence.
      apply Hinf in Ha as [Hpos _].
      by apply vendor_totals_In in Hin as [<- _].
    + intros Hpos. eexists. split.
      * rewrite Hout. apply vendor_concentration_In.
        exists v, (fgroup_sum (vendor_amounts v l)).
        split; [by apply vendor_totals_In|].
        apply Hinf. split; [exact Hpos|reflexivity].
      * reflexivity.
    + intros a Ha Hva. rewrite Hout in Ha.
      apply vendor_concentration_In in Ha as (v' & t & Hin & Ha).
      pose proof (concentration_of_vendor_fields _ _ _ _ Ha) as (Hv' & _).
      cbn [fst] in Hv'. assert (v' = v) as -> by congruence.
      by apply Hinf in Ha as [_ ->].
Qed.

Lemma concentration_records_witness :
  exists a,
    In a (detect_vendor_concentration (rt := exact_numerics) (3 # 10)
            (new_analyzer 3 5 [txn "Acme" 100 (day 2024 1 5);
                               txn "Bolt" (-100) (day 2024 1 6)])).1
    /\ vendor a = "Acme".
Proof.
  destruct (concentration_records (rt := exact_numerics)
              (new_analyzer 3 5 [txn "Acme" 100 (day 2024 1 5);
                                 txn "Bolt" (-100) (day 2024 1 6)])
              (3 # 10)) as (_ & _ & _ & _ & Hzero).
  destruct (Hzero ltac:(vm_compute; reflexivity) "Acme"
              ltac:(vm_compute; tauto)) as [Hiff _].
  apply Hiff. vm_compute. reflexivity.
Defined.

Example concentration_two_vendors :
  map (fun a => (transaction_id a, amount a))
    (detect_vendor_concentration (rt := exact_numerics) (3 # 10)
       (new_analyzer 3 5 concentration_batch)).1
  = [("conc_Bolt", 65000%Q); ("conc_Acme", 35000%Q)].
Proof. vm_compute. reflexivity. Qed.

(** ** The entries of the vendor statistics *)

Lemma foldr_Qmin_le (d : Q) (l : list Q) (x : Q) :
  In x l -> (foldr Qmin d l <= x)%Q.
Proof.
  induction l as [|y l IH]; [done|]. simpl. intros [<-|Hin].
  - apply Q.le_min_l.
  - eapply Qle_trans; [apply Q.le_min_r|by apply IH].
Qed.

Lemma foldr_Qmax_ge (d : Q) (l : list Q) (x : Q) :
  In x l -> (x <= foldr Qmax d l)%Q.
Proof.
  induction l as [|y l IH]; [done|]. simpl. intros [<-|Hin].
  - apply Q.le_max_l.
  - eapply Qle_trans; [by apply IH|apply Q.le_max_r].
Qed.

(** [min] and [max] return one of their arguments. *)
Lemma Qmin_cases (x y : Q) : Qmin x y = x \/ Qmin x y = y.
Proof.
  unfold Qmin, GenericMinMax.gmin. destruct (x ?= y)%Q; tauto.
Qed.

Lemma Qmax_cases (x y : Q) : Qmax x y = x \/ Qmax x y = y.
Proof.
  unfold Qmax, GenericMinMax.gmax. destruct (x ?= y)%Q; tauto.
Qed.

Lemma foldr_Qmin_In (d : Q) (l : list Q) : In (foldr Qmin d l) (d :: l).
Proof.
  induction l as [|y l IH]; [by left|]. simpl.
  destruct (Qmin_cases y (foldr Qmin d l)) as [->| ->]; [tauto|].
  destruct IH as [<-|?]; tauto.
Qed.

Lemma foldr_Qmax_In (d : Q) (l : list Q) : In (foldr Qmax d l) (d :: l).
Proof.
  induction l as [|y l IH]; [by left|]. simpl.
  destruct (Qmax_cases y (foldr Qmax d l)) as [->| ->]; [tauto|].
  destruct IH as [<-|?]; tauto.
Qed.

(** [Series.min()] and [Series.max()] return an element of the series. *)
Lemma series_min_In (l : list Q) : l <> [] -> In (series_min l) l.
Proof.
  destruct l as [|x l]; [done|]. intros _. unfold series_min.
  destruct (foldr_Qmin_In (hd 0%Q (x :: l)) (x :: l)) as [<-|?];
    [by left|done].
Qed.

Lemma series_max_In (l : list Q) : l <> [] -> In (series_max l) l.
Proof.
  destruct l as [|x l]; [done|]. intros _. unfold series_max.
  destruct (foldr_Qmax_In (hd 0%Q (x :: l)) (x :: l)) as [<-|?];
    [by left|done].
Qed.

(** X7.  Every entry [st] that [compute_vendor_statistics] returns (and
    stores) under a vendor [v] describes the rows of [v] in the batch: [v]
    occurs in the batch; [count] is the number of its rows, at least 1 and
    at least [min_transactions]; [min] and [max] are amounts of the vendor,
    the least and the greatest one; and the standard deviation and the
    threshold are NaN exactly when the vendor has a single row. *)
Theorem vendor_stats_entries {rt : Numerics} (self : Analyzer) (v : string)
    (st : Stats) :
  (compute_vendor_statistics self).1 !! v = Some st ->
  let vendor_data := vendor_amounts v (rows (df self)) in
  vendor_stats (compute_vendor_statistics self).2 !! v = Some st
  /\ In v (map r_vendor (rows (df self)))
  /\ st_count st = length vendor_data
  /\ (1 <= st_count st)%nat
  /\ (min_transactions self <= Z.of_nat (st_count st))%Z
  /\ In (st_min st) vendor_data
  /\ In (st_max st) vendor_data
  /\ (forall x, In x vendor_data ->
        (st_min st <= x)%Q /\ (x <= st_max st)%Q)
  /\ (st_std st = None <-> st_count st = 1%nat)
  /\ (st_threshold_3sigma st = None <-> st_count st = 1%nat).
Proof.
  intros Hst vendor_data. split; [exact Hst|].
  assert (compute_stats (sigma_threshold self) (min_transactions self)
            (rows (df self)) !! v = Some st) as Hst' by exact Hst.
  rewrite compute_stats_lookup in Hst'.
  destruct (decide _) as [[Hv Hm]|]; [|done]. injection Hst' as <-.
  apply list_elem_of_In in Hv. fold vendor_data in Hm |- *.
  assert (vendor_data <> []) as Hne by (by apply vendor_amounts_nonempty).
  assert (1 <= length vendor_data)%nat as Hlen
    by (destruct vendor_data; [done|simpl; lia]).
  split; [exact Hv|]. split; [reflexivity|]. split; [exact Hlen|].
  split; [exact Hm|]. simpl.
  split; [by apply series_min_In|]. split; [by apply series_max_In|].
  split.
  { intros x Hx. split; [by apply foldr_Qmin_le|by apply foldr_Qmax_ge]. }
  assert (float_std vendor_data = None <-> length vendor_data = 1%nat)
    as Hstd.
  { unfold float_std. destruct (Nat.ltb_spec (length vendor_data) 2); split;
      try done; lia. }
  split; [exact Hstd|]. rewrite <- Hstd.
  destruct (float_std vendor_data); simpl; split; done.
Qed.

Lemma vendor_stats_entries_witness :
  exists st,
    vendor_stats
      (compute_vendor_statistics (rt := exact_numerics)
         (new_analyzer 2 5 outlier_batch)).2 !! "Acme" = Some st
    /\ st_count st = 9%nat
    /\ In (st_max st) (vendor_amounts "Acme" outlier_batch).
Proof.
  destruct ((compute_vendor_statistics (rt := exact_numerics)
               (new_analyzer 2 5 outlier_batch)).1 !! "Acme")
    as [st|] eqn:E; [|vm_compute in E; discriminate].
  exists st.
  destruct (vendor_stats_entries (rt := exact_numerics)
              (new_analyzer 2 5 outlier_batch) "Acme" st E)
    as (Hstored & _ & Hcount & _ & _ & _ & Hmax & _).
  split; [exact Hstored|]. split; [|exact Hmax].
  rewrite Hcount. vm_compute. reflexivity.
Defined.

(** ** load_data *)

Lemma ts_leb_spec (t1 t2 : Timestamp) :
  ts_leb t1 t2 = true
  <-> (ts_year t1 < ts_year t2
       \/ (ts_year t1 = ts_year t2
           /\ (ts_month t1 < ts_month t2
               \/ (ts_month t1 = ts_month t2 /\ ts_day t1 <= ts_day t2))))%Z.
Proof.
  unfold ts_leb.
  rewrite !orb_true_iff, !andb_true_iff, orb_true_iff, andb_true_iff,
    !Z.ltb_lt, !Z.eqb_eq, Z.leb_le.
  tauto.
Qed.

Lemma ts_leb_total (t1 t2 : Timestamp) :
  ts_leb t1 t2 = false -> ts_leb t2 t1 = true.
Proof.
  intros Hf. apply ts_leb_spec.
  assert (~ ts_leb t1 t2 = true) as Hn by congruence.
  rewrite ts_leb_spec in Hn. lia.
Qed.

Lemma ts_leb_trans (t1 t2 t3 : Timestamp) :
  ts_leb t1 t2 = true -> ts_leb t2 t3 = true -> ts_leb t1 t3 = true.
Proof. rewrite !ts_leb_spec. lia. Qed.

Lemma missing_columns_In (frame : RawFrame) (col : string) :
  In col (missing_columns frame)
  <-> In col required_cols /\ ~ In col (raw_columns frame).
Proof.
  unfold missing_columns.
  rewrite <- !list_elem_of_In, list_elem_of_filter. tauto.
Qed.

Section LoadingFacts.
Variable read_csv : string -> option RawFrame.
Variable to_datetime : string -> option Timestamp.

Lemma load_source_error (csv_file : option string) (data : option RawFrame)
    (e : LoadError) :
  load_source read_csv csv_file data = inl e -> e = NoSource \/ e = ReadFailed.
Proof.
  unfold load_source. destruct data; [done|].
  destruct csv_file as [f|]; [|intros [= <-]; by left].
  destruct (decide (f = "")); [intros [= <-]; by left|].
  destruct (read_csv f); [done|]. intros [= <-]. by right.
Qed.

Lemma load_data_missing (csv_file : option string) (data : option RawFrame)
    (self : Analyzer) (m : list string) :
  load_data read_csv to_datetime csv_file data self = inl (MissingColumns m)
  <-> exists frame,
        load_source read_csv csv_file data = inr frame
        /\ m = missing_columns frame /\ m <> [].
Proof.
  unfold load_data.
  destruct (load_source read_csv csv_file data) as [e|frame] eqn:Hsrc.
  - split; [|by intros (? & ? & _)]. intros [= ->].
    by apply load_source_error in Hsrc as [?|?].
  - destruct (missing_columns frame) as [|c cs] eqn:E.
    + split.
      * by destruct (mapM _ _).
      * intros (frame' & [= <-] & -> & Hne). by rewrite E in Hne.
    + split.
      * intros [= <-]. exists frame. by rewrite E.
      * intros (frame' & [= <-] & -> & _). by rewrite E.
Qed.
End LoadingFacts.

(** X8.  [load_data] fails with "Must provide either csv_file or data"
    exactly when [data] is None and [csv_file] is None or the empty string.
    When [data] is given, the file name and the file system play no part.
    It fails with "Missing required columns" exactly when the frame it got
    lacks one of date, amount, vendor, description, payment_method (this
    is checked before any date is parsed); the message lists the absent
    required columns and only those, in that order. *)
Theorem load_data_errors (read_csv : string -> option RawFrame)
    (to_datetime : string -> option Timestamp) (csv_file : option string)
    (data : option RawFrame) (self : Analyzer) :
  let result := load_data read_csv to_datetime csv_file data self in
  (result = inl NoSource
   <-> data = None /\ (csv_file = None \/ csv_file = Some ""))
  /\ (forall d read_csv' csv_file',
        data = Some d ->
        load_data read_csv' to_datetime csv_file' data self = result)
  /\ (forall frame,
        load_source read_csv csv_file data = inr frame ->
        ((exists col, In col required_cols /\ ~ In col (raw_columns frame))
         <-> exists m, result = inl (MissingColumns m)))
  /\ (forall m,
        result = inl (MissingColumns m) ->
        m <> [] /\ m `sublist_of` required_cols
        /\ exists frame,
             load_source read_csv csv_file data = inr frame
             /\ forall col,
                  In col m
                  <-> In col required_cols /\ ~ In col (raw_columns frame)).
Proof.
  intros result. split; [|split; [|split]].
  - unfold result, load_data, load_source.
    destruct data as [d|].
    + split; [|by intros [? _]].
      destruct (missing_columns d); [|done]. by destruct (mapM _ _).
    + destruct csv_file as [f|]; [|by split; [intros _; split; [|left]|]].
      destruct (decide (f = "")) as [->|Hne].
      * split; [|done]. intros _. split; [done|by right].
      * split.
        -- destruct (read_csv f) as [d|]; [|done].
           destruct (missing_columns d); [|done]. by destruct (mapM _ _).
        -- intros [_ [?|[= ?]]]; done.
  - intros d read_csv' csv_file' ->. reflexivity.
  - intros frame Hsrc. split.
    + intros (col & Hreq & Hcol). exists (missing_columns frame).
      apply load_data_missing. exists frame. split; [done|]. split; [done|].
      intros Hnil.
      assert (In col (missing_columns frame)) as Hin
        by (by apply missing_columns_In).
      by rewrite Hnil in Hin.
    + intros (m & Hm). apply load_data_missing in Hm
        as (frame' & Hsrc' & -> & Hne).
      rewrite Hsrc in Hsrc'. injection Hsrc' as <-.
      destruct (missing_columns frame) as [|col cs] eqn:E; [done|].
      exists col. apply (proj1 (missing_columns_In frame col)).
      rewrite E. by left.
  - intros m Hm. apply load_data_missing in Hm as (frame & Hsrc & -> & Hne).
    split; [done|]. split; [apply sublist_filter; apply _|].
    exists frame. split; [done|]. intros col. apply missing_columns_In.
Qed.

Lemma load_data_errors_witness :
  load_data no_files demo_to_datetime (Some "") (Some broken_frame)
    (new_analyzer 3 5 [])
  = inl (MissingColumns ["date"; "vendor"])
  /\ ["date"; "vendor"] `sublist_of` required_cols.
Proof.
  assert (load_data no_files demo_to_datetime (Some "") (Some broken_frame)
            (new_analyzer 3 5 [])
          = inl (MissingColumns ["date"; "vendor"])) as Hres
    by (vm_compute; reflexivity).
  split; [exact Hres|].
  by apply (load_data_errors no_files demo_to_datetime (Some "")
              (Some broken_frame) (new_analyzer 3 5 [])).
Defined.

(** X9.  When [load_data] succeeds, the frame it returns is the frame the
    analyzer holds; its rows are the parsed records of the source, all of
    them, rearranged into chronological order; the source had every
    required column; and the configuration, the stored statistics and the
    stored anomalies of the analyzer are left as they were (statistics of
    an earlier batch stay until [compute_vendor_statistics] is called). *)
Theorem load_data_success (read_csv : string -> option RawFrame)
    (to_datetime : string -> option Timestamp) (csv_file : option string)
    (data : option RawFrame) (self self' : Analyzer) (l : list Row) :
  load_data read_csv to_datetime csv_file data self = inr (l, self') ->
  rows (df self') = l
  /\ (exists frame parsed,
        load_source read_csv csv_file data = inr frame
        /\ (forall col, In col required_cols -> In col (raw_columns frame))
        /\ Forall2 (fun raw r => parse_row to_datetime raw = Some r)
             (raw_records frame) parsed
        /\ Permutation parsed l
        /\ length l = length (raw_records frame))
  /\ StronglySorted (fun r1 r2 => ts_leb (r_date r1) (r_date r2) = true) l
  /\ sigma_threshold self' = sigma_threshold self
  /\ min_transactions self' = min_transactions self
  /\ vendor_stats self' = vendor_stats self
  /\ anomalies self' = anomalies self.
Proof.
  unfold load_data.
  destruct (load_source read_csv csv_file data) as [e|frame] eqn:Hsrc; [done|].
  destruct (missing_columns frame) as [|c cs] eqn:Hmiss; [|done].
  destruct (mapM (parse_row to_datetime) (raw_records frame))
    as [parsed|] eqn:Hparse; [|done].
  intros [= <- <-]. simpl. split; [reflexivity|].
  apply mapM_Some in Hparse. split; [|split; [|done]].
  - exists frame, parsed. split; [done|]. split; [|split; [done|split]].
    + intros col Hreq. destruct (decide (col ∈ raw_columns frame)) as [Hin|Hn].
      * by apply list_elem_of_In.
      * assert (In col (missing_columns frame)) as Hm.
        { apply missing_columns_In. split; [done|].
          by rewrite <- list_elem_of_In. }
        by rewrite Hmiss in Hm.
    + apply stable_sort_perm.
    + unfold sort_by_date.
      rewrite <- (Permutation_length (stable_sort_perm _ _)).
      symmetry. by eapply Forall2_length.
  - apply stable_sort_sorted.
    + intros x y. apply ts_leb_total.
    + intros x y z. apply ts_leb_trans.
Qed.

Lemma load_data_success_witness :
  exists self',
    load_data no_files demo_to_datetime None (Some demo_frame)
      (new_analyzer 3 5 [])
    = inr ([txn "Bolt" 100 (day 2024 3 1); txn "Acme" 200 (day 2024 3 2);
            txn "Acme" 300 (day 2024 3 3)], self')
    /\ rows (df self')
       = [txn "Bolt" 100 (day 2024 3 1); txn "Acme" 200 (day 2024 3 2);
          txn "Acme" 300 (day 2024 3 3)].
Proof.
  eexists. split; [vm_compute; reflexivity|].
  apply (load_data_success no_files demo_to_datetime None (Some demo_frame)
           (new_analyzer 3 5 [])).
  vm_compute. reflexivity.
Defined.

(** ** print_summary *)

Lemma assoc_bump_eq (t : AnomalyType) (l : list (AnomalyType * nat)) :
  assoc t (bump_count t l) = Some (S (default 0%nat (assoc t l))).
Proof.
  induction l as [|[t0 c0] l IH]; simpl.
  - by rewrite decide_True.
  - destruct (decide (t = t0)) as [->|Hne]; simpl.
    + by rewrite decide_True.
    + by rewrite decide_False.
Qed.

Lemma assoc_bump_ne (t t' : AnomalyType) (l : list (AnomalyType * nat)) :
  t' <> t -> assoc t' (bump_count t l) = assoc t' l.
Proof.
  intros Hne. induction l as [|[t0 c0] l IH]; simpl.
  - by rewrite decide_False.
  - destruct (decide (t = t0)) as [->|Ht]; simpl.
    + by rewrite !decide_False.
    + destruct (decide (t' = t0)); [done|exact IH].
Qed.

(** A key that is present keeps its place; a new key goes to the end. *)
Lemma bump_count_keys (t : AnomalyType) (l : list (AnomalyType * nat)) :
  map fst (bump_count t l)
  = if decide (t ∈ map fst l) then map fst l else map fst l ++ [t].
Proof.
  induction l as [|[t0 c0] l IH]; cbn [bump_count map fst].
  - rewrite decide_False; [done|]. apply not_elem_of_nil.
  - destruct (decide (t = t0)) as [->|Hne]; cbn [map fst].
    + rewrite decide_True; [done|]. rewrite elem_of_cons. tauto.
    + rewrite IH. destruct (decide (t ∈ map fst l)) as [Hin|Hn].
      * rewrite decide_True; [done|]. rewrite elem_of_cons. tauto.
      * rewrite decide_False; [done|]. rewrite elem_of_cons.
        intros [?|?]; [congruence|done].
Qed.

Lemma bump_count_sum (t : AnomalyType) (l : list (AnomalyType * nat)) :
  sum_list (map snd (bump_count t l)) = S (sum_list (map snd l)).
Proof.
  induction l as [|[t0 c0] l IH]; simpl; [done|].
  destruct (decide (t = t0)); simpl; [done|]. rewrite IH. lia.
Qed.

Lemma type_counts_snoc (l : list Anomaly) (a : Anomaly) :
  type_counts (l ++ [a]) = bump_count (anomaly_type a) (type_counts l).
Proof. unfold type_counts. by rewrite foldl_app. Qed.

Lemma count_type_snoc (t : AnomalyType) (l : list Anomaly) (a : Anomaly) :
  count_type t (l ++ [a])
  = (count_type t l + if decide (anomaly_type a = t) then 1 else 0)%nat.
Proof.
  unfold count_type. rewrite filter_app, length_app, filter_cons, filter_nil.
  by destruct (decide (anomaly_type a = t)).
Qed.

Lemma type_counts_assoc (t : AnomalyType) (l : list Anomaly) :
  assoc t (type_counts l)
  = if decide (count_type t l = 0%nat) then None else Some (count_type t l).
Proof.
  induction l as [|a l IH] using rev_ind; [reflexivity|].
  rewrite type_counts_snoc, count_type_snoc.
  destruct (decide (anomaly_type a = t)) as [<-|Hne].
  - rewrite assoc_bump_eq, IH.
    destruct (decide (count_type (anomaly_type a) l = 0%nat)) as [E|Hc].
    + rewrite E. reflexivity.
    + rewrite decide_False by lia. simpl. f_equal. lia.
  - rewrite assoc_bump_ne by done. rewrite IH, Nat.add_0_r. done.
Qed.

Lemma type_counts_keys (l : list Anomaly) : NoDup (map fst (type_counts l)).
Proof.
  induction l as [|a l IH] using rev_ind; [constructor|].
  rewrite type_counts_snoc, bump_count_keys.
  destruct (decide _) as [Hin|Hn]; [done|].
  apply NoDup_app. split; [done|]. split; [|apply NoDup_singleton].
  intros x Hx ->%list_elem_of_singleton. by apply Hn.
Qed.

Lemma NoDup_assoc {K V : Type} `{EqDecision K} (k : K) (v : V)
    (l : list (K * V)) :
  NoDup (map fst l) -> In (k, v) l -> assoc k l = Some v.
Proof.
  induction l as [|[k0 v0] l IH]; intros Hnd Hin; [done|].
  simpl in *. apply NoDup_cons in Hnd as [Hk Hnd].
  destruct Hin as [[= -> ->]|Hin].
  - by rewrite decide_True.
  - rewrite decide_False; [by apply IH|].
    intros ->. apply Hk, list_elem_of_In, in_map_iff. by exists (k0, v).
Qed.

(** X10.  The table [type_counts] that [print_summary] builds has one
    entry per anomaly type that occurs in [self.anomalies], none for the
    others; the entry of a type holds the number of anomalies of that type;
    and the counts add up to the number of anomalies. *)
Theorem type_counts_spec (l : list Anomaly) :
  NoDup (map fst (type_counts l))
  /\ (forall t c, In (t, c) (type_counts l)
                  <-> c = count_type t l /\ (0 < c)%nat)
  /\ sum_list (map snd (type_counts l)) = length l.
Proof.
  split; [apply type_counts_keys|]. split.
  - intros t c. split.
    + intros Hin. apply NoDup_assoc in Hin; [|apply type_counts_keys].
      rewrite type_counts_assoc in Hin.
      destruct (decide (count_type t l = 0%nat)); [done|].
      injection Hin as <-. split; [done|lia].
    + intros [-> Hpos]. apply assoc_Some_In. rewrite type_counts_assoc.
      by rewrite decide_False by lia.
  - induction l as [|a l IH] using rev_ind; [reflexivity|].
    rewrite type_counts_snoc, bump_count_sum, IH, length_app. simpl. lia.
Qed.

(** In a list ranked by descending score the records at or above a level
    form a prefix. *)
Lemma high_risk_prefix (l : list Anomaly) :
  StronglySorted (fun a b => (risk_score b <= risk_score a)%Q) l ->
  high_risk l = take (length (high_risk l)) l.
Proof.
  induction 1 as [|x l Hs IH Hx]; [reflexivity|].
  unfold high_risk in *. simpl.
  destruct (Qle_bool 80 (risk_score x)) eqn:E; simpl; [by rewrite <- IH|].
  assert (List.filter (fun a => Qle_bool 80 (risk_score a)) l = []) as ->;
    [|done].
  destruct (List.filter _ l) as [|y ys] eqn:Ef; [done|].
  assert (In y (List.filter (fun a => Qle_bool 80 (risk_score a)) l)) as Hy
    by (rewrite Ef; by left).
  apply filter_In in Hy as [Hy H80]. apply Qle_bool_iff in H80.
  rewrite Forall_forall in Hx. apply list_elem_of_In, Hx in Hy.
  assert (80 <= risk_score x)%Q as Hx80 by (eapply Qle_trans; eassumption).
  apply Qle_bool_iff in Hx80. congruence.
Qed.

(** X11.  [print_summary] called after [run_full_analysis]: without
    anomalies it prints the single line "No anomalies detected.";
    otherwise it prints seven heading lines plus one line per anomaly type
    present, then seven lines for each of the first ten anomalies (all of
    them when there are fewer).  Those entries are the highest ranked:
    no anomaly left out scores above a listed one.  The anomalies counted
    as high-risk (score at least 80) are a prefix of the ranking. *)
Theorem print_summary_after_analysis {rt : Numerics} {co : Console}
    (self : Analyzer) :
  let self' := (run_full_analysis self).2 in
  let l := anomalies self' in
  l = (run_full_analysis self).1
  /\ (l = [] -> print_summary self' = ["No anomalies detected."])
  /\ (l <> [] ->
      exists heading,
        length heading = (7 + length (type_counts l))%nat
        /\ print_summary self'
           = heading ++ concat (imap print_entry (take 10 l))
        /\ length (print_summary self')
           = (7 + length (type_counts l) + 7 * min 10 (length l))%nat)
  /\ (forall a b, In a (take 10 l) -> In b (drop 10 l) ->
                  (risk_score b <= risk_score a)%Q)
  /\ high_risk l = take (length (high_risk l)) l.
Proof.
  intros self' l.
  assert (exists c, l = py_sort_desc risk_score c) as [c Hl]
    by (eexists; reflexivity).
  assert (StronglySorted (fun a b => (risk_score b <= risk_score a)%Q) l)
    as Hsorted by (rewrite Hl; apply py_sort_desc_sorted).
  split; [reflexivity|]. split; [|split; [|split]].
  - intros Hnil. unfold print_summary. fold l. by rewrite Hnil.
  - intros Hne. unfold print_summary. fold l.
    destruct l as [|x l'] eqn:El; [done|]. rewrite <- El.
    eexists ([_; _; _] ++ map _ (type_counts l) ++ [_; _; _; _]).
    split; [|split].
    + rewrite !length_app, length_map. simpl. lia.
    + by rewrite <- !app_assoc.
    + rewrite !length_app, length_map.
      assert (forall (k : nat) (es : list Anomaly),
                length (concat (imap (fun i => print_entry (k + i)) es))
                = (7 * length es)%nat) as Hentries.
      { intros k es. revert k. induction es as [|e es IH]; intros k;
          [reflexivity|].
        rewrite imap_cons. simpl.
        rewrite (imap_ext _ (fun i => print_entry (S k + i)));
          [|intros i y _; unfold compose; f_equal; lia].
        rewrite IH. lia. }
      rewrite (Hentries 0%nat), length_take. simpl. lia.
  - intros a b Ha Hb.
    apply list_elem_of_In, elem_of_take in Ha as (i & Hi & Hi10).
    apply list_elem_of_In, list_elem_of_lookup in Hb as (j & Hj).
    rewrite lookup_drop in Hj.
    apply (StronglySorted_lookup
             (fun a b => (risk_score b <= risk_score a)%Q) l i (10 + j) a b
             Hsorted Hi Hj).
    lia.
  - by apply high_risk_prefix.
Qed.

Example print_summary_outlier_batch :
  take 5
    (print_summary (rt := exact_numerics) (co := exact_console)
       (run_full_analysis (rt := exact_numerics)
          (new_analyzer 2 5 outlier_batch)).2)
  ++ print_entry (rt := exact_numerics) (co := exact_console) 1
       (outlier_of (rt := exact_numerics)
          (stats_of (rt := exact_numerics) 2
             (vendor_amounts "Acme" outlier_batch))
          800 8 (txn "Acme" 1000 (day 2024 3 1)))
  = [ nl +:+ "üö® FRAUD DETECTION SUMMARY";
      "üìã Total anomalies detected: 3";
      nl +:+ "üìä Anomalies by type:";
      "   ‚Ä¢ Vendor Concentration: 1";
      "   ‚Ä¢ Statistical Outlier: 1";
      nl +:+ "[2] RISK SCORE: 63/100";
      "    üìÖ Date: 2024-03-01 00:00:00";
      "    üè¢ Vendor: Acme";
      "    üí∞ Amount: $1,000.00";
      "    üìù Description: Services";
      "    üö© Type: Statistical Outlier";
      "    ‚ö†Ô∏è  Reason: Amount $1,000.00 exceeds vendor threshold $800.00 (2.7œÉ above mean)" ].
Proof. vm_compute. reflexivity. Qed.

(** ** The identifiers of the outlier records *)

Section OutlierIds.
Context {rt : Numerics}.

Lemma outliers_of_row_cases (stats : gmap string Stats) (i : nat) (r : Row) :
  outliers_of_row stats i r = []
  \/ exists st t, outliers_of_row stats i r = [outlier_of st t i r].
Proof.
  unfold outliers_of_row. destruct (stats !! r_vendor r) as [st|]; [|by left].
  destruct (st_threshold_3sigma st) as [t|]; [|by left].
  destruct (Qltb t (r_amount r)); [right|by left]. by exists st, t.
Qed.

(** The records of rows [k], [k + 1], ... of a frame without
    ['transaction_id'] column carry the ids "txn_k", "txn_(k+1)", ... of
    the rows that are flagged. *)
Lemma outlier_ids_from (stats : gmap string Stats) (l : list Row) (k : nat) :
  (forall r, In r l -> r_transaction_id r = None) ->
  let out := flat_map (fun ir => outliers_of_row stats ir.1 ir.2)
               (imap (fun i r => ((k + i)%nat, r)) l) in
  NoDup (map transaction_id out)
  /\ forall a, In a out ->
       exists j, (k <= j)%nat /\ transaction_id a = "txn_" +:+ pretty j.
Proof.
  revert k. induction l as [|r l IH]; intros k Hnone out.
  - subst out. simpl. split; [constructor|done].
  - subst out. rewrite imap_cons. cbn [flat_map fst snd].
    rewrite (imap_ext _ (fun i r => ((S k + i)%nat, r)))
      by (intros i y _; unfold compose; f_equal; lia).
    destruct (IH (S k)) as [IHnd IHid].
    { intros r' Hr'. apply Hnone. by right. }
    assert (r_transaction_id r = None) as Hr by (apply Hnone; by left).
    destruct (outliers_of_row_cases stats (k + 0) r) as [->|(st & t & ->)].
    + simpl. split; [exact IHnd|].
      intros a Ha. destruct (IHid a Ha) as (j & Hj & Hid).
      exists j. split; [lia|done].
    + cbn [app map]. split.
      * constructor; [|exact IHnd].
        intros Hin. apply list_elem_of_In, in_map_iff in Hin
          as (b & Hb & Hin).
        destruct (IHid b Hin) as (j & Hj & Hid).
        rewrite Hid in Hb. simpl in Hb. unfold row_id in Hb.
        rewrite Hr in Hb. simpl in Hb.
        apply (inj (String.app _)), (inj pretty) in Hb. lia.
      * intros a [<-|Ha].
        -- exists (k + 0)%nat. split; [lia|].
           simpl. unfold row_id. by rewrite Hr.
        -- destruct (IHid a Ha) as (j & Hj & Hid).
           exists j. split; [lia|done].
Qed.
End OutlierIds.

(** X14.  Every record of [detect_statistical_outliers] copies the id,
    date, vendor, amount and description of a row of the batch, and there
    are no more records than rows.  When the batch has no
    ['transaction_id'] column the ids are "txn_" followed by the row
    index, and no two records share an id. *)
Theorem outlier_records_identify_rows {rt : Numerics} (self : Analyzer) :
  let out := (detect_statistical_outliers self).1 in
  (forall a, In a out ->
     exists i r,
       rows (df self) !! i = Some r
       /\ transaction_id a = row_id i r
       /\ date a = DateTs (r_date r)
       /\ vendor a = r_vendor r
       /\ amount a = r_amount r
       /\ description a = r_description r
       /\ anomaly_type a = StatisticalOutlier)
  /\ (length out <= length (rows (df self)))%nat
  /\ ((forall r, In r (rows (df self)) -> r_transaction_id r = None) ->
      NoDup (map transaction_id out)
      /\ forall a, In a out ->
           exists i, (i < length (rows (df self)))%nat
                     /\ transaction_id a = "txn_" +:+ pretty i).
Proof.
  intros out.
  assert (out = statistical_outliers (vendor_stats self) (rows (df self)))
    as Hout by reflexivity.
  split; [|split].
  - intros a Ha. rewrite Hout in Ha.
    apply statistical_outliers_In in Ha
      as (i & r & st & t & Hi & _ & _ & _ & ->).
    exists i, r. by repeat split.
  - rewrite Hout. unfold statistical_outliers, iterrows.
    rewrite <- (length_imap (fun i r => (i, r)) (rows (df self))).
    induction (imap _ (rows (df self))) as [|[i r] irs IH]; [done|].
    simpl. rewrite length_app.
    destruct (outliers_of_row_cases (vendor_stats self) i r)
      as [->|(st & t & ->)]; simpl; lia.
  - intros Hnone.
    destruct (outlier_ids_from (vendor_stats self) (rows (df self)) 0 Hnone)
      as [Hnd Hid].
    split; [exact Hnd|].
    intros a Ha. rewrite Hout in Ha.
    apply statistical_outliers_In in Ha
      as (i & r & st & t & Hi & _ & _ & _ & ->).
    exists i. split; [by eapply lookup_lt_Some|].
    simpl. unfold row_id. rewrite Hnone; [done|].
    apply list_elem_of_In. by eapply list_elem_of_lookup_2.
Qed.

Lemma outlier_records_identify_rows_witness :
  map transaction_id
    (detect_statistical_outliers (rt := exact_numerics)
       (compute_vendor_statistics (rt := exact_numerics)
          (new_analyzer 2 5 outlier_batch)).2).1
  = ["txn_8"]
  /\ NoDup
       (map transaction_id
          (detect_statistical_outliers (rt := exact_numerics)
             (compute_vendor_statistics (rt := exact_numerics)
                (new_analyzer 2 5 outlier_batch)).2).1).
Proof.
  split; [vm_compute; reflexivity|].
  apply (outlier_records_identify_rows (rt := exact_numerics)
           (compute_vendor_statistics (rt := exact_numerics)
              (new_analyzer 2 5 outlier_batch)).2).
  intros r Hr. vm_compute in Hr.
  repeat (destruct Hr as [<-|Hr]; [reflexivity|]). destruct Hr.
Defined.

(** * simple_fraud_demo.py *)

Lemma py_mod_1000_zero (a : Q) :
  Qeq_bool (py_mod a 1000) 0 = true
  <-> exists k : Z, (a == 1000 * inject_Z k)%Q.
Proof.
  rewrite Qeq_bool_iff. unfold py_mod. split.
  - intros Hz. exists (Qfloor (a / 1000)). lra.
  - intros (k & Hk).
    assert (a / 1000 == inject_Z k)%Q as Hdiv by (rewrite Hk; field).
    rewrite (Qfloor_comp _ _ Hdiv), Qfloor_Z. lra.
Qed.

Lemma filter_complement_length {A : Type} (P Q : A -> bool) (l : list A) :
  (forall x, In x l -> Q x = negb (P x)) ->
  (length (List.filter P l) + length (List.filter Q l) = length l)%nat.
Proof.
  induction l as [|x l IH]; intros HPQ; [reflexivity|]. simpl.
  rewrite (HPQ x (or_introl eq_refl)).
  assert (length (List.filter P l) + length (List.filter Q l) = length l)%nat
    by (apply IH; intros; apply HPQ; by right).
  destruct (P x); simpl; lia.
Qed.

Section DemoFacts.
Context {rt : Numerics}.

Lemma demo_evasion_loop_In (v : string) (a : Q) (ts : list Z)
    (x : DemoAnomaly) :
  In x (demo_evasion_loop v a ts) ->
  exists t, In t ts /\ in_window a t = true /\ x = demo_evasion v a t.
Proof.
  induction ts as [|t ts IH]; [done|]. simpl.
  destruct (in_window a t) eqn:E.
  - intros [<-|[]]. exists t. split; [by left|done].
  - intros Hin. destruct (IH Hin) as (t' & Hin' & Hw & ->).
    exists t'. split; [by right|done].
Qed.

(** What the body of the loop appends for one entry of the table. *)
Lemma demo_vendor_In (entry : string * list Q) (x : DemoAnomaly) :
  In x (demo_vendor entry)
  -> (3 <= length entry.2)%nat
     /\ d_vendor x = entry.1
     /\ In (d_amount x) entry.2
     /\ match d_type x with
        | DemoOutlier =>
            (series_mean entry.2 + 3 * demo_std entry.2 < d_amount x)%Q
            /\ d_risk_score x
               = Qmin 100
                   (Qmax 70
                      (70 + ((if Qltb 0 (demo_std entry.2)
                              then (d_amount x - series_mean entry.2)
                                   / demo_std entry.2
                              else 0) - 3) * 10))
        | DemoRoundDollar =>
            d_risk_score x = 75%Q
            /\ (exists k : Z, (d_amount x == 1000 * inject_Z k)%Q)
            /\ (1000 <= d_amount x)%Q
        | DemoEvasion =>
            d_risk_score x = 85%Q
            /\ exists t, In t demo_thresholds
                         /\ (inject_Z t - 100 <= d_amount x)%Q
                         /\ (d_amount x < inject_Z t)%Q
        end.
Proof.
  destruct entry as [v amounts]. unfold demo_vendor. cbn [fst snd].
  destruct (Nat.leb_spec 3 (length amounts)) as [Hlen|]; [|done].
  intros Hin. split; [exact Hlen|].
  apply in_app_or in Hin as [Hin|Hin]; [|apply in_app_or in Hin as [Hin|Hin]].
  - apply in_flat_map in Hin as (a & Ha & Hx).
    destruct (Qltb _ a) eqn:E; [|done]. destruct Hx as [<-|[]].
    apply Qltb_lt in E. by repeat split.
  - apply in_map_iff in Hin as (a & <- & Ha).
    apply filter_In in Ha as [Ha Hr].
    apply andb_true_iff in Hr as [Hmod Hfloor].
    apply py_mod_1000_zero in Hmod. apply Qle_bool_iff in Hfloor.
    by repeat split.
  - apply in_flat_map in Hin as (a & Ha & Hx).
    apply demo_evasion_loop_In in Hx as (t & Ht & Hw & ->).
    apply in_window_spec in Hw as [Hlo Hhi].
    repeat split; try done. by exists t.
Qed.

Lemma demo_vendor_scores (entry : string * list Q) (x : DemoAnomaly) :
  In x (demo_vendor entry) ->
  (70 <= d_risk_score x)%Q /\ (d_risk_score x <= 100)%Q.
Proof.
  intros Hin. apply demo_vendor_In in Hin as (_ & _ & _ & Htype).
  destruct (d_type x).
  - destruct Htype as [_ ->]. split.
    + apply Q.min_glb; [done|apply Q.le_max_l].
    + apply Q.le_min_l.
  - destruct Htype as [-> _]. by split.
  - destruct Htype as [-> _]. by split.
Qed.
End DemoFacts.

(** X12.  Whatever the table of vendors, every anomaly of the demo has a
    risk score between 70 and 100 (outliers are clamped to that range,
    round amounts score 75, threshold evasions 85).  So the list is split
    exactly into the demo's high-risk (score at least 80) and medium-risk
    (60 up to 80) groups: their sizes add up to the total.  The list is a
    rearrangement of the records in descending order of score. *)
Theorem demo_risk_levels {rt : Numerics} (table : list (string * list Q)) :
  let l := demo_anomalies table in
  Forall (fun a => (70 <= d_risk_score a)%Q /\ (d_risk_score a <= 100)%Q) l
  /\ (length (demo_high_risk l) + length (demo_medium_risk l) = length l)%nat
  /\ Permutation (flat_map demo_vendor table) l
  /\ StronglySorted (fun a b => (d_risk_score b <= d_risk_score a)%Q) l.
Proof.
  intros l.
  assert (forall a, In a l ->
            (70 <= d_risk_score a)%Q /\ (d_risk_score a <= 100)%Q) as Hscore.
  { intros a Ha.
    apply (Permutation_in _ (Permutation_sym (py_sort_desc_perm _ _))) in Ha.
    apply in_flat_map in Ha as (entry & _ & Ha).
    by eapply demo_vendor_scores. }
  split; [|split; [|split]].
  - apply Forall_forall. intros a Ha%list_elem_of_In. by apply Hscore.
  - apply filter_complement_length. intros a Ha.
    destruct (Hscore a Ha) as [H70 _].
    rewrite (proj2 (Qle_bool_iff 60 (d_risk_score a)))
      by (eapply Qle_trans; [|exact H70]; done).
    reflexivity.
  - apply py_sort_desc_perm.
  - apply py_sort_desc_sorted.
Qed.

(** X13.  Every anomaly of the demo is accounted for by an entry of the
    table with at least three amounts (vendors with fewer are skipped
    altogether, for all three checks): its amount is one of the vendor's
    amounts; an outlier exceeds mean + 3 * std of those amounts; a round
    amount is an integer multiple of 1000, at least 1000; a threshold
    evasion lies in the window of 100 below one of 5000, 10000, 25000,
    50000. *)
Theorem demo_records_justified {rt : Numerics}
    (table : list (string * list Q)) (x : DemoAnomaly) :
  In x (demo_anomalies table) ->
  exists amounts,
    In (d_vendor x, amounts) table
    /\ (3 <= length amounts)%nat
    /\ In (d_amount x) amounts
    /\ match d_type x with
       | DemoOutlier =>
           (series_mean amounts + 3 * demo_std amounts < d_amount x)%Q
       | DemoRoundDollar =>
           (exists k : Z, (d_amount x == 1000 * inject_Z k)%Q)
           /\ (1000 <= d_amount x)%Q
       | DemoEvasion =>
           exists t, In t demo_thresholds
                     /\ (inject_Z t - 100 <= d_amount x)%Q
                     /\ (d_amount x < inject_Z t)%Q
       end.
Proof.
  intros Hx.
  apply (Permutation_in _ (Permutation_sym (py_sort_desc_perm _ _))) in Hx.
  apply in_flat_map in Hx as ([v amounts] & Hentry & Hx).
  apply demo_vendor_In in Hx as (Hlen & Hv & Ha & Htype).
  simpl in *. subst v. exists amounts.
  split; [done|]. split; [done|]. split; [done|].
  destruct (d_type x); tauto.
Qed.

Lemma demo_records_justified_witness :
  exists amounts,
    In ("Shell Company B", amounts) vendors_data
    /\ In 5000%Q amounts.
Proof.
  destruct (demo_records_justified (rt := exact_numerics) vendors_data
              (demo_round (rt := exact_numerics) "Shell Company B" 5000))
    as (amounts & Hin & _ & Ha & _).
  - assert (In (demo_round (rt := exact_numerics) "Shell Company B" 5000)
              (flat_map (demo_vendor (rt := exact_numerics)) vendors_data))
      as Hraw.
    { apply (proj2 (in_flat_map _ _ _)).
      exists ("Shell Company B", [5000; 10000; 15000; 7500; 12500]%Q).
      split; [unfold vendors_data; do 5 right; left; reflexivity|].
      unfold demo_vendor; cbn [fst snd length Nat.leb]; cbv zeta.
      apply in_or_app; right; apply in_or_app; left.
      apply in_map, filter_In.
      split; [left; reflexivity | vm_compute; reflexivity]. }
    unfold simple_fraud_detection_demo, demo_anomalies.
    by apply (Permutation_in _ (py_sort_desc_perm _ _)).
  - by exists amounts.
Defined.

Example demo_short_vendor_skipped :
  demo_anomalies (rt := exact_numerics) [("Acme", [5000; 4999]%Q)] = []
  /\ map (fun a => (d_type a, d_risk_score a))
       (demo_anomalies (rt := exact_numerics)
          [("Acme", [5000; 4999; 120]%Q)])
     = [(DemoEvasion, 85%Q); (DemoRoundDollar, 75%Q)].
Proof. split; vm_compute; reflexivity. Qed.
